(** * Stock ledger, unit conversion, sale-transaction state machine and
      reconciliation of the inventory back end

    A shallow embedding of [app/services/product_service.py] and
    [app/services/transaction_service.py], together with the models and
    schemas they read, of the permission checker [app/security/rbac.py], of
    the terminal authentication [app/security/hmac_auth.py] and of the
    routes of [app/api/v1/transactions.py] that call them.

    Modelling decisions, all visible in the definitions below:

    - a Python [Decimal] is the rational it denotes, in canonical form
      ([Qc]); NaN and the infinities are left out.  [*] and [/] round their
      exact result to the 28 significant digits of the default context,
      half to even, and raise [decimal.Overflow] beyond its exponent range
      ([context_round]); [<] and [max] compare exactly.  [+] and [-] in the
      stock ledger are taken at their exact value and a value is stored as
      computed: this is what Python and a [Numeric(12, 4)] column do with
      operands of at most four decimals below 10^8, and the statements that
      speak of a value written from an argument say so of such arguments
      ([numeric]);
    - a table is the list of its rows.  [scalar_one_or_none] is SQLAlchemy's:
      no row gives [None], one row gives that row, several rows raise
      [MultipleResultsFound];
    - a service method is a computation over the persisted database that
      either returns a value or raises; the database it leaves behind is what
      has been committed when the method exits, on either path;
    - [SaleTransactionResponse.from_orm] raises: the schema reads the
      [product], [location] and [user] relationships, which the transaction
      service never loads, and a lazy load is not possible on the
      [AsyncSession] the service holds ([TransactionService.from_orm]);
    - [datetime.utcnow()] is an explicit input ([now]) of the methods that
      read the clock;
    - the library functions the terminal authentication calls
      ([datetime.fromisoformat], [bytes.decode], the HMAC-SHA256 digest) are
      parameters of its model: what is proved of it holds whatever they
      compute. *)

From Stdlib Require Import QArith Qcanon Lqa ZArith List String Bool Lia.
From Stdlib Require Import Ascii DecimalString Qround Qpower Qabs.
Import ListNotations.

Local Open Scope Z_scope.

(** ** Decimals *)

Definition Decimal : Type := Qc.

Definition datetime : Type := Z.

(** Python's [max(a, b)]: the first argument unless the second is strictly
    greater. *)
Definition py_max (a b : Decimal) : Decimal :=
  if Qclt_le_dec a b then b else a.

Definition dec_lt (a b : Decimal) : bool :=
  if Qclt_le_dec a b then true else false.

Definition dec_is_zero (a : Decimal) : bool :=
  if Qc_eq_dec a 0%Qc then true else false.

(** ** Exceptions (app/exceptions.py, and the ones raised by the libraries) *)

(** models/transaction.py, TransactionStatus. *)
Inductive TransactionStatus : Type :=
| PENDING
| CONFIRMED
| CANCELLED
| FAILED.

Definition status_eqb (a b : TransactionStatus) : bool :=
  match a, b with
  | PENDING, PENDING | CONFIRMED, CONFIRMED
  | CANCELLED, CANCELLED | FAILED, FAILED => true
  | _, _ => false
  end.

(** The messages of the [ValueError]s raised by the transaction service. *)
Inductive value_error : Type :=
| ProductDoesNotExist (product_id : Z)
    (* "Product with id {product_id} does not exist" *)
| TransactionDoesNotExist (transaction_id : Z)
    (* "Transaction with id {transaction_id} does not exist" *)
| CannotConfirm (status : TransactionStatus)
    (* "Cannot confirm transaction with status {status}" *)
| CannotCancel (status : TransactionStatus).
    (* "Cannot cancel transaction with status {status}" *)

Inductive insufficient_stock : Type :=
| StockLevelNotFound
    (* "Stock level not found" *)
| Insufficient (requested available : Decimal).
    (* "Insufficient stock: requested {quantity}, available {available}" *)

Inductive exn : Type :=
| ValueError (msg : value_error)
| InsufficientStockError (msg : insufficient_stock)
| InvalidOperationError (from_unit to_unit : string)
    (* "No conversion available from {from_unit} to {to_unit}" *)
| MultipleResultsFound
| DivisionByZero          (* decimal.DivisionByZero: x / 0 with x <> 0 *)
| DecimalInvalidOperation (* decimal.InvalidOperation: 0 / 0 *)
| DecimalOverflow         (* decimal.Overflow: a result beyond 10^999999 *)
| ValidationError.        (* pydantic's (not the one of app/exceptions.py):
                             a subclass of ValueError *)

(** [isinstance(e, ValueError)], the test of an [except ValueError]. *)
Definition is_ValueError (e : exn) : bool :=
  match e with
  | ValueError _ | ValidationError => true
  | _ => false
  end.

Inductive result (A : Type) : Type :=
| Ok (a : A)
| Raise (e : exn).

Arguments Ok {A} a.
Arguments Raise {A} e.

(** *** The default decimal context: 28 digits, ROUND_HALF_EVEN *)

Definition pow10 (e : Z) : Q := ((10 # 1) ^ e)%Q.

(** The number of decimal digits of a positive integer, less one. *)
Fixpoint ilog10_fuel (fuel : nat) (n : Z) : Z :=
  match fuel with
  | O => 0
  | S fuel => if n <? 10 then 0 else 1 + ilog10_fuel fuel (n / 10)
  end.

Definition ilog10 (n : Z) : Z := ilog10_fuel (S (Z.to_nat (Z.log2 n))) n.

(** [Decimal.adjusted()]: the exponent of the leading digit of a number
    other than zero. *)
Definition adjusted (x : Q) : Z :=
  let e0 := ilog10 (Z.abs (Qnum x)) - ilog10 (Z.pos (Qden x)) in
  if Qle_bool (pow10 e0) (Qabs x) then e0 else e0 - 1.

Definition round_half_even (x : Q) : Z :=
  let f := Qfloor x in
  match (x - inject_Z f ?= 1 # 2)%Q with
  | Lt => f
  | Gt => f + 1
  | Eq => if Z.even f then f else f + 1
  end.

(** [x] rounded to a whole number of units [10^e]. *)
Definition quantize (e : Z) (x : Q) : Q :=
  (inject_Z (round_half_even (x / pow10 e)) * pow10 e)%Q.

Definition Emax : Z := 999999.

(** [Etiny = Emin - prec + 1], the exponent of the smallest subnormal. *)
Definition Etiny : Z := -1000026.

(** The result of an arithmetic operation whose exact value is [x]: 28
    significant digits (fewer for a subnormal); [None] stands for the
    trapped Overflow. *)
Definition context_round_Q (x : Q) : option Q :=
  if Qeq_bool x 0 then Some 0%Q
  else
    let r := quantize (Z.max (adjusted x - 27) Etiny) x in
    if Qeq_bool r 0 then Some 0%Q
    else if Emax <? adjusted r then None else Some r.

Definition context_round (x : Decimal) : result Decimal :=
  match context_round_Q x with
  | Some r => Ok (Q2Qc r)
  | None => Raise DecimalOverflow
  end.

(** [Decimal.__mul__] and [Decimal.__truediv__] under the default
    context. *)
Definition decimal_mul (a b : Decimal) : result Decimal :=
  context_round (a * b)%Qc.

Definition decimal_div (a b : Decimal) : result Decimal :=
  if dec_is_zero b
  then (if dec_is_zero a then Raise DecimalInvalidOperation
        else Raise DivisionByZero)
  else context_round (a / b)%Qc.

(** ** Models (app/models/product.py, app/models/transaction.py) *)

Module StockLevel.
Record t : Type := mk {
  id : Z;
  product_id : Z;
  location_id : Z;
  quantity : Decimal;
  reserved_quantity : Decimal;
  min_stock_level : Decimal;
  max_stock_level : Decimal
}.

(** The row after [UPDATE ... SET quantity = q, reserved_quantity = r]. *)
Definition values (q r : Decimal) (s : t) : t :=
  mk (id s) (product_id s) (location_id s) q r
     (min_stock_level s) (max_stock_level s).
End StockLevel.

Module UnitConversion.
Record t : Type := mk {
  id : Z;
  product_id : Z;
  from_unit : string;
  to_unit : string;
  conversion_factor : Decimal
}.
End UnitConversion.

(** The payload of a sale (schemas/transaction.py, SaleTransactionCreate). *)
Module SaleTransactionCreate.
Record t : Type := mk {
  event_id : string;
  product_id : Z;
  location_id : Z;
  quantity : Decimal;
  unit_type : string;
  converted_quantity : Decimal;
  price_per_unit : Decimal;
  total_amount : Decimal;
  terminal_timestamp : option datetime;
  user_id : option Z
}.
End SaleTransactionCreate.

Module SaleTransaction.
Record t : Type := mk {
  id : Z;
  event_id : string;
  product_id : Z;
  location_id : Z;
  quantity : Decimal;
  unit_type : string;
  converted_quantity : Decimal;
  price_per_unit : Decimal;
  total_amount : Decimal;
  status : TransactionStatus;
  processed_at : option datetime;
  terminal_timestamp : option datetime;
  user_id : option Z
}.

(** [transaction.status = st; transaction.processed_at = at] on the ORM
    object. *)
Definition processed (st : TransactionStatus) (at_ : datetime) (x : t) : t :=
  mk (id x) (event_id x) (product_id x) (location_id x) (quantity x)
     (unit_type x) (converted_quantity x) (price_per_unit x)
     (total_amount x) st (Some at_) (terminal_timestamp x) (user_id x).
End SaleTransaction.

(** The [notes] of a reconciliation log are the f-string
    "Processed {processed} transactions: {success} succeeded, {failed} failed";
    the three numbers it prints are kept. *)
Inductive reconciliation_notes : Type :=
| Processed (processed_count success_count failed_count : Z).

Module ReconciliationLog.
Record t : Type := mk {
  id : Z;
  start_time : datetime;
  end_time : datetime;
  terminal_id : string;
  processed_count : Z;
  success_count : Z;
  failed_count : Z;
  status : string;
  notes : option reconciliation_notes
}.
End ReconciliationLog.

(** schemas/transaction.py, ReconciliationResult. *)
Module ReconciliationResult.
Record t : Type := mk {
  reconciliation_id : Z;
  processed_count : Z;
  success_count : Z;
  failed_count : Z;
  status : string;
  notes : option reconciliation_notes
}.
End ReconciliationResult.

(** ** The database behind a session

    Of a product only its primary key is read by the two services
    ([db.get(Product, id)] is tested for presence), so the products table is
    the list of the keys present. *)
Record Database : Type := mkDatabase {
  products : list Z;
  stock_levels : list StockLevel.t;
  unit_conversions : list UnitConversion.t;
  sale_transactions : list SaleTransaction.t;
  reconciliation_logs : list ReconciliationLog.t
}.

Definition with_stock_levels (l : list StockLevel.t) (db : Database) : Database :=
  mkDatabase (products db) l (unit_conversions db) (sale_transactions db)
             (reconciliation_logs db).

Definition with_sale_transactions (l : list SaleTransaction.t) (db : Database)
  : Database :=
  mkDatabase (products db) (stock_levels db) (unit_conversions db) l
             (reconciliation_logs db).

Definition with_reconciliation_logs (l : list ReconciliationLog.t)
  (db : Database) : Database :=
  mkDatabase (products db) (stock_levels db) (unit_conversions db)
             (sale_transactions db) l.

(** The key the database gives to a new row of an auto-increment table: one
    more than the largest key in use. *)
Definition next_id (ids : list Z) : Z := 1 + fold_right Z.max 0 ids.

(** [Result.scalar_one_or_none()]. *)
Definition scalar_one_or_none {A : Type} (rows : list A) : result (option A) :=
  match rows with
  | [] => Ok None
  | [r] => Ok (Some r)
  | _ :: _ :: _ => Raise MultipleResultsFound
  end.

(** ** Service methods as computations over the database *)

Definition M (A : Type) : Type := Database -> result A * Database.

Definition ret {A : Type} (a : A) : M A := fun db => (Ok a, db).

Definition raise {A : Type} (e : exn) : M A := fun db => (Raise e, db).

Definition bind {A B : Type} (m : M A) (f : A -> M B) : M B :=
  fun db =>
    match m db with
    | (Ok a, db') => f a db'
    | (Raise e, db') => (Raise e, db')
    end.

(** A SELECT: reads the database, may raise, changes nothing. *)
Definition query {A : Type} (q : Database -> result A) : M A :=
  fun db => (q db, db).

(** A write followed by [commit()]. *)
Definition commit (w : Database -> Database) : M unit :=
  fun db => (Ok tt, w db).

(** [try: body  except <handled> as e: handler(e)]; [handler] answers [None]
    on the exceptions the clause does not catch. *)
Definition try_except {A : Type} (body : M A) (handler : exn -> option (M A))
  : M A :=
  fun db =>
    match body db with
    | (Ok a, db') => (Ok a, db')
    | (Raise e, db') =>
        match handler e with
        | Some h => h db'
        | None => (Raise e, db')
        end
    end.

Declare Scope svc_scope.
Delimit Scope svc_scope with svc.

Notation "x <- m ;; k" := (bind m (fun x => k))
  (at level 61, m at next level, right associativity) : svc_scope.
Notation "m ;; k" := (bind m (fun _ => k))
  (at level 61, right associativity) : svc_scope.

Local Open Scope svc_scope.

(** schemas/product.py, StockLevelCreate. *)
Module StockLevelCreate.
Record t : Type := mk {
  product_id : Z;
  location_id : Z;
  quantity : Decimal;
  reserved_quantity : Decimal;
  min_stock_level : Decimal;
  max_stock_level : Decimal
}.
End StockLevelCreate.

(** ** app/services/product_service.py *)

Module ProductService.

(** [StockLevel.product_id == product_id AND
     StockLevel.location_id == location_id]. *)
Definition stock_key (product_id location_id : Z) (s : StockLevel.t) : bool :=
  (StockLevel.product_id s =? product_id)
  && (StockLevel.location_id s =? location_id).

Definition select_stock_level (product_id location_id : Z) (db : Database)
  : list StockLevel.t :=
  filter (stock_key product_id location_id) (stock_levels db).

Definition get_stock_level (product_id location_id : Z)
  : M (option StockLevel.t) :=
  query (fun db =>
           scalar_one_or_none (select_stock_level product_id location_id db)).

(** [update(StockLevel).where(product_id == .., location_id == ..)
     .values(..)]: every row under the key takes the new values. *)
Definition update_stock_level (product_id location_id : Z)
  (values : StockLevel.t -> StockLevel.t) (db : Database) : Database :=
  with_stock_levels
    (map (fun s => if stock_key product_id location_id s then values s else s)
         (stock_levels db))
    db.

(** [UnitConversion.product_id == product_id AND from_unit == .. AND
     to_unit == ..]. *)
Definition conversion_key (product_id : Z) (from_unit to_unit : string)
  (c : UnitConversion.t) : bool :=
  (UnitConversion.product_id c =? product_id)
  && String.eqb (UnitConversion.from_unit c) from_unit
  && String.eqb (UnitConversion.to_unit c) to_unit.

Definition select_conversion (product_id : Z) (from_unit to_unit : string)
  (db : Database) : list UnitConversion.t :=
  filter (conversion_key product_id from_unit to_unit) (unit_conversions db).

Definition convert_units (product_id : Z) (from_unit to_unit : string)
  (quantity : Decimal) : M Decimal :=
  conversion <-
    query (fun db =>
             scalar_one_or_none
               (select_conversion product_id from_unit to_unit db)) ;;
  match conversion with
  | None =>
      reverse_conversion <-
        query (fun db =>
                 scalar_one_or_none
                   (select_conversion product_id to_unit from_unit db)) ;;
      match reverse_conversion with
      | Some reverse_conversion =>
          query (fun _ =>
                   decimal_div quantity
                     (UnitConversion.conversion_factor reverse_conversion))
      | None =>
          if String.eqb from_unit to_unit
          then ret quantity
          else raise (InvalidOperationError from_unit to_unit)
      end
  | Some conversion =>
      query (fun _ =>
               decimal_mul quantity
                 (UnitConversion.conversion_factor conversion))
  end.

Definition reserve_stock (product_id location_id : Z) (quantity : Decimal)
  : M bool :=
  stock_level <- get_stock_level product_id location_id ;;
  match stock_level with
  | None => raise (InsufficientStockError StockLevelNotFound)
  | Some stock_level =>
      let available :=
        (StockLevel.quantity stock_level
         - StockLevel.reserved_quantity stock_level)%Qc in
      if dec_lt available quantity
      then raise (InsufficientStockError (Insufficient quantity available))
      else
        commit (update_stock_level product_id location_id
                  (fun s =>
                     StockLevel.values
                       (StockLevel.quantity s)
                       (StockLevel.reserved_quantity stock_level
                        + quantity)%Qc
                       s)) ;;
        ret true
  end.

Definition release_reserved_stock (product_id location_id : Z)
  (quantity : Decimal) : M bool :=
  stock_level <- get_stock_level product_id location_id ;;
  match stock_level with
  | None => ret false
  | Some stock_level =>
      let new_reserved :=
        py_max 0%Qc
          (StockLevel.reserved_quantity stock_level - quantity)%Qc in
      commit (update_stock_level product_id location_id
                (fun s =>
                   StockLevel.values (StockLevel.quantity s) new_reserved s)) ;;
      ret true
  end.

Definition consume_stock (product_id location_id : Z) (quantity : Decimal)
  : M bool :=
  stock_level <- get_stock_level product_id location_id ;;
  match stock_level with
  | None => ret false
  | Some stock_level =>
      let available :=
        (StockLevel.quantity stock_level
         - StockLevel.reserved_quantity stock_level)%Qc in
      if dec_lt available quantity
      then raise (InsufficientStockError (Insufficient quantity available))
      else
        commit (update_stock_level product_id location_id
                  (StockLevel.values
                     (StockLevel.quantity stock_level - quantity)%Qc
                     (py_max 0%Qc
                        (StockLevel.reserved_quantity stock_level
                         - quantity)%Qc))) ;;
        ret true
  end.

(** The four columns [create_stock_level] writes, on a row. *)
Definition stock_values (stock_data : StockLevelCreate.t) (s : StockLevel.t)
  : StockLevel.t :=
  StockLevel.mk (StockLevel.id s) (StockLevel.product_id s)
    (StockLevel.location_id s)
    (StockLevelCreate.quantity stock_data)
    (StockLevelCreate.reserved_quantity stock_data)
    (StockLevelCreate.min_stock_level stock_data)
    (StockLevelCreate.max_stock_level stock_data).

(** [update(StockLevel).where(StockLevel.id == id).values(..)]. *)
Definition update_stock_level_by_id (id : Z)
  (values : StockLevel.t -> StockLevel.t) (db : Database) : Database :=
  with_stock_levels
    (map (fun s => if StockLevel.id s =? id then values s else s)
         (stock_levels db))
    db.

(** [db.add(stock); commit(); refresh(stock)] for a new row. *)
Definition insert_stock_level (fresh : Z -> StockLevel.t) : M StockLevel.t :=
  fun db =>
    let stock := fresh (next_id (map StockLevel.id (stock_levels db))) in
    (Ok stock, with_stock_levels (stock_levels db ++ [stock]) db).

(** "Create or update stock level".  The foreign keys of the row are
    left to the database and are not part of the model. *)
Definition create_stock_level (stock_data : StockLevelCreate.t)
  : M StockLevel.t :=
  existing_stock <-
    query (fun db =>
             scalar_one_or_none
               (select_stock_level
                  (StockLevelCreate.product_id stock_data)
                  (StockLevelCreate.location_id stock_data) db)) ;;
  match existing_stock with
  | Some existing_stock =>
      commit (update_stock_level_by_id (StockLevel.id existing_stock)
                (stock_values stock_data)) ;;
      ret (stock_values stock_data existing_stock)
  | None =>
      insert_stock_level
        (fun id =>
           StockLevel.mk id
             (StockLevelCreate.product_id stock_data)
             (StockLevelCreate.location_id stock_data)
             (StockLevelCreate.quantity stock_data)
             (StockLevelCreate.reserved_quantity stock_data)
             (StockLevelCreate.min_stock_level stock_data)
             (StockLevelCreate.max_stock_level stock_data))
  end.

End ProductService.

(** ** app/services/transaction_service.py *)

Module TransactionService.

(** Python's [a or b] on optional integers: [None] and [0] are falsy. *)
Definition py_or (a b : option Z) : option Z :=
  match a with
  | Some v => if v =? 0 then b else a
  | None => b
  end.

(** [select(SaleTransaction).where(event_id == ..)]. *)
Definition select_by_event_id (event_id : string) (db : Database)
  : list SaleTransaction.t :=
  filter (fun t => String.eqb (SaleTransaction.event_id t) event_id)
         (sale_transactions db).

(** [db.get(SaleTransaction, transaction_id)]: the row under the primary
    key, if any. *)
Definition get_transaction (transaction_id : Z) (db : Database)
  : option SaleTransaction.t :=
  find (fun t => SaleTransaction.id t =? transaction_id)
       (sale_transactions db).

(** [db.get(Product, product_id)], tested for presence. *)
Definition get_product (product_id : Z) (db : Database) : bool :=
  existsb (Z.eqb product_id) (products db).

(** [db.add(transaction); commit()] for a row already in the table: the
    row under its primary key takes the object's fields. *)
Definition save_transaction (transaction : SaleTransaction.t) (db : Database)
  : Database :=
  with_sale_transactions
    (map (fun t =>
            if SaleTransaction.id t =? SaleTransaction.id transaction
            then transaction else t)
         (sale_transactions db))
    db.

(** [db.add(transaction); commit(); refresh(transaction)] for a new object:
    the database assigns the key and the row is appended. *)
Definition insert_transaction (fresh : Z -> SaleTransaction.t)
  : M SaleTransaction.t :=
  fun db =>
    let transaction :=
      fresh (next_id (map SaleTransaction.id (sale_transactions db))) in
    (Ok transaction,
     with_sale_transactions (sale_transactions db ++ [transaction]) db).

(** [SaleTransactionResponse.from_orm(transaction)].  The schema
    (schemas/transaction.py) declares [product], [location] and [user];
    pydantic reads them from the ORM object, where they are lazy
    relationships (models/transaction.py) that no method of this service has
    loaded.  The session is an [AsyncSession], on which a lazy load raises,
    and pydantic reports the failed attribute as a [ValidationError].  The
    stock methods refresh the relationships before they call [from_orm]
    (product_service.py, lines 221 and 240); the methods of this service do
    not, so every call of theirs ends here. *)
Definition from_orm (transaction : SaleTransaction.t) : M SaleTransaction.t :=
  raise ValidationError.

Definition create_sale_transaction
  (transaction_data : SaleTransactionCreate.t) (user_id : option Z)
  : M SaleTransaction.t :=
  existing_transaction <-
    query (fun db =>
             scalar_one_or_none
               (select_by_event_id
                  (SaleTransactionCreate.event_id transaction_data) db)) ;;
  match existing_transaction with
  | Some existing_transaction => from_orm existing_transaction
  | None =>
      product <-
        query (fun db =>
                 Ok (get_product
                       (SaleTransactionCreate.product_id transaction_data)
                       db)) ;;
      if negb product
      then raise (ValueError
                    (ProductDoesNotExist
                       (SaleTransactionCreate.product_id transaction_data)))
      else
        transaction <-
          insert_transaction
            (fun id =>
               SaleTransaction.mk id
                 (SaleTransactionCreate.event_id transaction_data)
                 (SaleTransactionCreate.product_id transaction_data)
                 (SaleTransactionCreate.location_id transaction_data)
                 (SaleTransactionCreate.quantity transaction_data)
                 (SaleTransactionCreate.unit_type transaction_data)
                 (SaleTransactionCreate.converted_quantity transaction_data)
                 (SaleTransactionCreate.price_per_unit transaction_data)
                 (SaleTransactionCreate.total_amount transaction_data)
                 PENDING
                 None
                 (SaleTransactionCreate.terminal_timestamp transaction_data)
                 (py_or (SaleTransactionCreate.user_id transaction_data)
                        user_id)) ;;
        from_orm transaction
  end.

Definition confirm_transaction (now : datetime) (transaction_id : Z)
  : M SaleTransaction.t :=
  transaction <- query (fun db => Ok (get_transaction transaction_id db)) ;;
  match transaction with
  | None => raise (ValueError (TransactionDoesNotExist transaction_id))
  | Some transaction =>
      if negb (status_eqb (SaleTransaction.status transaction) PENDING)
      then raise (ValueError
                    (CannotConfirm (SaleTransaction.status transaction)))
      else
        try_except
          (ProductService.consume_stock
             (SaleTransaction.product_id transaction)
             (SaleTransaction.location_id transaction)
             (SaleTransaction.converted_quantity transaction))
          (fun e =>
             match e with
             | InsufficientStockError _ =>
                 Some (let transaction :=
                         SaleTransaction.processed FAILED now transaction in
                       commit (save_transaction transaction) ;;
                       raise e)
             | _ => None
             end) ;;
        let transaction :=
          SaleTransaction.processed CONFIRMED now transaction in
        commit (save_transaction transaction) ;;
        from_orm transaction
  end.

Definition cancel_transaction (now : datetime) (transaction_id : Z)
  : M SaleTransaction.t :=
  transaction <- query (fun db => Ok (get_transaction transaction_id db)) ;;
  match transaction with
  | None => raise (ValueError (TransactionDoesNotExist transaction_id))
  | Some transaction =>
      if negb (status_eqb (SaleTransaction.status transaction) PENDING)
      then raise (ValueError
                    (CannotCancel (SaleTransaction.status transaction)))
      else
        ProductService.release_reserved_stock
          (SaleTransaction.product_id transaction)
          (SaleTransaction.location_id transaction)
          (SaleTransaction.converted_quantity transaction) ;;
        let transaction :=
          SaleTransaction.processed CANCELLED now transaction in
        commit (save_transaction transaction) ;;
        from_orm transaction
  end.

(** The three counters of [reconcile_transactions]. *)
Record counters : Type := mkCounters {
  processed_count : Z;
  success_count : Z;
  failed_count : Z
}.

(** The body of the [try] of the loop, for one item. *)
Definition reconcile_item (now : datetime)
  (transaction_data : SaleTransactionCreate.t) : M unit :=
  transaction <- create_sale_transaction transaction_data None ;;
  if status_eqb (SaleTransaction.status transaction) PENDING
  then confirm_transaction now (SaleTransaction.id transaction) ;; ret tt
  else ret tt.

(** [for transaction_data in transactions: ...]; [utcnow n] is the reading
    of the clock while the item at position [n] of the batch is handled. *)
Fixpoint reconcile_loop (utcnow : nat -> datetime) (n : nat)
  (transactions : list SaleTransactionCreate.t) (c : counters) : M counters :=
  match transactions with
  | [] => ret c
  | transaction_data :: rest =>
      let processed_count := processed_count c + 1 in
      succeeded <-
        try_except
          (reconcile_item (utcnow n) transaction_data ;; ret true)
          (fun _ => Some (ret false)) ;;
      reconcile_loop utcnow (S n) rest
        (if succeeded : bool
         then mkCounters processed_count (success_count c + 1)
                         (failed_count c)
         else mkCounters processed_count (success_count c)
                         (failed_count c + 1))
  end.

(** [db.add(reconciliation_log); flush()]: the log gets its key and the
    column defaults. *)
Definition open_log (start_time end_time : datetime) (terminal_id : string)
  : M ReconciliationLog.t :=
  fun db =>
    let reconciliation_log :=
      ReconciliationLog.mk
        (next_id (map ReconciliationLog.id (reconciliation_logs db)))
        start_time end_time terminal_id 0 0 0 "running" None in
    (Ok reconciliation_log,
     with_reconciliation_logs
       (reconciliation_logs db ++ [reconciliation_log]) db).

Definition save_log (reconciliation_log : ReconciliationLog.t)
  (db : Database) : Database :=
  with_reconciliation_logs
    (map (fun l =>
            if ReconciliationLog.id l =? ReconciliationLog.id reconciliation_log
            then reconciliation_log else l)
         (reconciliation_logs db))
    db.

Definition reconcile_transactions (utcnow : nat -> datetime)
  (terminal_id : string) (start_time end_time : datetime)
  (transactions : list SaleTransactionCreate.t)
  : M ReconciliationResult.t :=
  reconciliation_log <- open_log start_time end_time terminal_id ;;
  c <- reconcile_loop utcnow 0%nat transactions (mkCounters 0 0 0) ;;
  let notes :=
    Some (Processed (processed_count c) (success_count c) (failed_count c)) in
  let reconciliation_log :=
    ReconciliationLog.mk
      (ReconciliationLog.id reconciliation_log)
      (ReconciliationLog.start_time reconciliation_log)
      (ReconciliationLog.end_time reconciliation_log)
      (ReconciliationLog.terminal_id reconciliation_log)
      (processed_count c) (success_count c) (failed_count c)
      "completed" notes in
  commit (save_log reconciliation_log) ;;
  ret (ReconciliationResult.mk
         (ReconciliationLog.id reconciliation_log)
         (processed_count c) (success_count c) (failed_count c)
         (ReconciliationLog.status reconciliation_log)
         (ReconciliationLog.notes reconciliation_log)).

Definition get_transaction_by_event_id (event_id : string)
  : M (option SaleTransaction.t) :=
  transaction <-
    query (fun db => scalar_one_or_none (select_by_event_id event_id db)) ;;
  match transaction with
  | None => ret None
  | Some transaction =>
      response <- from_orm transaction ;;
      ret (Some response)
  end.

(** [if location_id:] holds for an identifier other than [None] and 0. *)
Definition location_filter (location_id : option Z) (t : SaleTransaction.t)
  : bool :=
  match location_id with
  | Some l => if l =? 0 then true else SaleTransaction.location_id t =? l
  | None => true
  end.

(** The rows the statement of [get_pending_transactions] selects. *)
Definition select_pending (location_id : option Z) (db : Database)
  : list SaleTransaction.t :=
  filter (fun t =>
            status_eqb (SaleTransaction.status t) PENDING
            && location_filter location_id t)
         (sale_transactions db).

(** [[SaleTransactionResponse.from_orm(t) for t in transactions]]. *)
Fixpoint responses (transactions : list SaleTransaction.t)
  : M (list SaleTransaction.t) :=
  match transactions with
  | [] => ret []
  | t :: rest =>
      response <- from_orm t ;;
      others <- responses rest ;;
      ret (response :: others)
  end.

Definition get_pending_transactions (location_id : option Z)
  : M (list SaleTransaction.t) :=
  transactions <- query (fun db => Ok (select_pending location_id db)) ;;
  responses transactions.

End TransactionService.

(** ** app/models/user.py: the columns the permission checker reads *)

Module User.
Record t : Type := mk {
  id : Z;
  username : string;
  is_active : bool;
  is_superuser : bool
}.
End User.

Module Role.
Record t : Type := mk {
  id : Z;
  name : string
}.
End Role.

Module Permission.
Record t : Type := mk {
  id : Z;
  resource : string;
  action : string
}.
End Permission.

Module UserRoleAssignment.
Record t : Type := mk {
  id : Z;
  user_id : Z;
  role_id : Z
}.
End UserRoleAssignment.

Module RolePermission.
Record t : Type := mk {
  id : Z;
  role_id : Z;
  permission_id : Z
}.
End RolePermission.

(** The four tables behind the permission queries. *)
Record AccessTables : Type := mkAccessTables {
  permissions : list Permission.t;
  role_permissions : list RolePermission.t;
  roles : list Role.t;
  user_role_assignments : list UserRoleAssignment.t
}.

(** ** app/security/rbac.py *)

Module Rbac.

(** What a dependency hands to the route: a value, an HTTPException, or an
    exception nothing catches. *)
Inductive response (A : Type) : Type :=
| Returned (a : A)
| HTTPException (status_code : Z) (detail : string)
| Unhandled (e : exn).

Arguments Returned {A} a.
Arguments HTTPException {A} status_code detail.
Arguments Unhandled {A} e.

(** A row of
    [Permission JOIN RolePermission ON Permission.id == permission_id
                JOIN Role ON RolePermission.role_id == Role.id
                JOIN UserRoleAssignment ON Role.id == role_id]. *)
Definition chain : Type :=
  Permission.t * RolePermission.t * Role.t * UserRoleAssignment.t.

Definition permission_of (c : chain) : Permission.t :=
  let '(p, _, _, _) := c in p.

Definition assignment_of (c : chain) : UserRoleAssignment.t :=
  let '(_, _, _, ura) := c in ura.

Definition joined (db : AccessTables) : list chain :=
  flat_map
    (fun p =>
       flat_map
         (fun rp =>
            flat_map
              (fun role =>
                 map (fun ura => (p, rp, role, ura))
                     (filter (fun ura =>
                                Role.id role =? UserRoleAssignment.role_id ura)
                             (user_role_assignments db)))
              (filter (fun role => RolePermission.role_id rp =? Role.id role)
                      (roles db)))
         (filter (fun rp => Permission.id p =? RolePermission.permission_id rp)
                 (role_permissions db)))
    (permissions db).

(** [PermissionChecker._check_user_permission]. *)
Definition check_user_permission (db : AccessTables) (user_id : Z)
  (resource action : string) : result bool :=
  match scalar_one_or_none
          (map permission_of
             (filter (fun c =>
                        (UserRoleAssignment.user_id (assignment_of c)
                         =? user_id)
                        && String.eqb (Permission.resource (permission_of c))
                                      resource
                        && String.eqb (Permission.action (permission_of c))
                                      action)
                     (joined db))) with
  | Ok (Some _) => Ok true
  | Ok None => Ok false
  | Raise e => Raise e
  end.

(** [PermissionChecker(resource, action).__call__]; [current_user] is what
    the authentication dependency resolved. *)
Definition PermissionChecker (resource action : string)
  (current_user : User.t) (db : AccessTables) : response User.t :=
  if User.is_superuser current_user
  then Returned current_user
  else
    match check_user_permission db (User.id current_user) resource action with
    | Raise e => Unhandled e
    | Ok has_permission =>
        if negb has_permission
        then HTTPException 403
               ("Access denied: " ++ resource ++ "." ++ action)
        else Returned current_user
    end.

Definition get_user_permissions (db : AccessTables) (user_id : Z)
  : list string :=
  map (fun c =>
         (Permission.resource (permission_of c) ++ "."
          ++ Permission.action (permission_of c))%string)
      (filter (fun c =>
                 UserRoleAssignment.user_id (assignment_of c) =? user_id)
              (joined db)).

Definition get_user_roles (db : AccessTables) (user_id : Z) : list string :=
  map (fun c : Role.t * UserRoleAssignment.t => Role.name (fst c))
      (filter (fun c : Role.t * UserRoleAssignment.t =>
                 UserRoleAssignment.user_id (snd c) =? user_id)
              (flat_map
                 (fun role =>
                    map (fun ura => (role, ura))
                        (filter (fun ura =>
                                   Role.id role
                                   =? UserRoleAssignment.role_id ura)
                                (user_role_assignments db)))
                 (roles db))).

Definition require_stock_read := PermissionChecker "stock" "read".
Definition require_stock_write := PermissionChecker "stock" "write".

End Rbac.

(** ** app/models/transaction.py, Terminal; app/core/config.py *)

Module Terminal.
Record t : Type := mk {
  id : Z;
  name : string;
  code : string;
  location_id : option Z;
  is_active : bool;              (* a NULL is falsy, like [False] *)
  last_heartbeat : option datetime;
  secret_key : string
}.

(** [terminal.last_heartbeat = at] on the ORM object. *)
Definition heartbeat (at_ : datetime) (x : t) : t :=
  mk (id x) (name x) (code x) (location_id x) (is_active x) (Some at_)
     (secret_key x).
End Terminal.

(** The settings the terminal authentication reads, at their declared
    values. *)
Module settings.
Definition TERMINAL_TIME_WINDOW_MINUTES : Z := 5.
End settings.

(** ** What a request handler answers *)

Module Http.

Inductive detail : Type :=
| Message (s : string)
| Str (e : exn).  (* str(e) of the exception caught *)

(** The exceptions no handler catches: those of the services, and the two
    the terminal authentication can run into. *)
Inductive error : Type :=
| ServiceError (e : exn)
| UnicodeDecodeError
| TypeError.

Inductive response (A : Type) : Type :=
| Returned (a : A)
| HTTPException (status_code : Z) (detail : detail)
| Unhandled (e : error).

Arguments Returned {A} a.
Arguments HTTPException {A} status_code detail.
Arguments Unhandled {A} e.

End Http.

(** The starlette [Request] as the terminal authentication reads it: the
    method, [request.url.path], what [request.headers.get] answers for the
    three headers, and the bytes of the body. *)
Module Request.
Record t : Type := mk {
  method : string;
  path : string;
  x_terminal_id : option string;
  x_timestamp : option string;
  x_signature : option string;
  body : string
}.
End Request.

(** ** app/security/hmac_auth.py

    Instants are counted in microseconds, the resolution of [datetime]. *)

Module HmacAuth.

(** [s.replace(old, new)] for a one-character [old]. *)
Fixpoint replace (old : ascii) (new s : string) : string :=
  match s with
  | EmptyString => EmptyString
  | String c rest =>
      if Ascii.eqb c old
      then (new ++ replace old new rest)%string
      else String c (replace old new rest)
  end.

(** Truthiness of a [str]. *)
Definition truthy (s : string) : bool := negb (s =? "")%string.

Definition is_ascii (s : string) : bool :=
  forallb (fun c => (nat_of_ascii c <? 128)%nat) (list_ascii_of_string s).

(** [hmac.compare_digest] on two [str]: [None] stands for the TypeError it
    raises unless both hold ASCII characters only. *)
Definition compare_digest (a b : string) : option bool :=
  if is_ascii a && is_ascii b then Some (a =? b)%string else None.

Definition get_terminal_by_code (terminals : list Terminal.t) (code : string)
  : result (option Terminal.t) :=
  scalar_one_or_none
    (filter (fun t => String.eqb (Terminal.code t) code) terminals).

(** [db.add(terminal); commit()]: the row under the primary key takes the
    object's fields. *)
Definition save_terminal (terminal : Terminal.t) (terminals : list Terminal.t)
  : list Terminal.t :=
  map (fun t => if Terminal.id t =? Terminal.id terminal then terminal else t)
      terminals.

Section Libraries.

(** [datetime.fromisoformat]: [None] stands for its ValueError; otherwise
    the instant the text denotes, a text without offset being read on the
    UTC clock, the clock the function then compares it with. *)
Variable fromisoformat : string -> option datetime.

(** [bytes.decode('utf-8')]: [None] stands for its UnicodeDecodeError. *)
Variable decode_utf8 : string -> option string.

(** [hmac.new(key.encode('utf-8'), message.encode('utf-8'),
    hashlib.sha256).hexdigest()]. *)
Variable hmac_sha256_hexdigest : string -> string -> string.

Definition calculate_hmac_signature (message secret_key : string) : string :=
  hmac_sha256_hexdigest secret_key message.

(** [now] is the reading of the clock the timestamp is compared with,
    [utcnow] the later one stored as the heartbeat.  The float
    [total_seconds()] of a difference of [n] microseconds exceeds the
    integer [minutes * 60] exactly when [n] exceeds that many seconds. *)
Definition verify_hmac_signature (now utcnow : datetime) (request : Request.t)
  (terminals : list Terminal.t)
  : Http.response Terminal.t * list Terminal.t :=
  match Request.x_terminal_id request, Request.x_timestamp request,
        Request.x_signature request with
  | Some terminal_id, Some timestamp_header, Some signature =>
      if negb (truthy terminal_id && truthy timestamp_header
               && truthy signature)
      then (Http.HTTPException 401
              (Http.Message
                 "Missing required headers for HMAC authentication"),
            terminals)
      else
        match fromisoformat (replace "Z" "+00:00" timestamp_header) with
        | None =>
            (Http.HTTPException 401 (Http.Message "Invalid timestamp format"),
             terminals)
        | Some timestamp =>
            let time_diff := Z.abs (now - timestamp) in
            if time_diff
               >? settings.TERMINAL_TIME_WINDOW_MINUTES * 60 * 1000000
            then (Http.HTTPException 401
                    (Http.Message
                       ("Request timestamp is outside allowed window of "
                        ++ NilZero.string_of_int
                             (Z.to_int settings.TERMINAL_TIME_WINDOW_MINUTES)
                        ++ " minutes")),
                  terminals)
            else
              match get_terminal_by_code terminals terminal_id with
              | Raise e => (Http.Unhandled (Http.ServiceError e), terminals)
              | Ok None =>
                  (Http.HTTPException 401
                     (Http.Message "Invalid or inactive terminal"),
                   terminals)
              | Ok (Some terminal) =>
                  if negb (Terminal.is_active terminal)
                  then (Http.HTTPException 401
                          (Http.Message "Invalid or inactive terminal"),
                        terminals)
                  else
                    match decode_utf8 (Request.body request) with
                    | None => (Http.Unhandled Http.UnicodeDecodeError,
                               terminals)
                    | Some body =>
                        let message :=
                          (Request.method request ++ Request.path request
                           ++ timestamp_header ++ body)%string in
                        let expected_signature :=
                          calculate_hmac_signature message
                            (Terminal.secret_key terminal) in
                        match compare_digest signature expected_signature with
                        | None => (Http.Unhandled Http.TypeError, terminals)
                        | Some false =>
                            (Http.HTTPException 401
                               (Http.Message "Invalid HMAC signature"),
                             terminals)
                        | Some true =>
                            let terminal :=
                              Terminal.heartbeat utcnow terminal in
                            (Http.Returned terminal,
                             save_terminal terminal terminals)
                        end
                    end
              end
        end
  | _, _, _ =>
      (Http.HTTPException 401
         (Http.Message "Missing required headers for HMAC authentication"),
       terminals)
  end.

Definition require_terminal_auth := verify_hmac_signature.

End Libraries.

End HmacAuth.

(** ** app/api/v1/transactions.py

    A route runs its dependencies first and its body only when they have
    returned.  Its state is the table of terminals and the database of the
    services. *)

Module Api.

(** [Depends(checker)] in front of a body. *)
Definition depends {A B : Type} (dependency : Rbac.response A)
  (body : A -> Database -> Http.response B * Database) (db : Database)
  : Http.response B * Database :=
  match dependency with
  | Rbac.Returned a => body a db
  | Rbac.HTTPException status_code detail =>
      (Http.HTTPException status_code (Http.Message detail), db)
  | Rbac.Unhandled e => (Http.Unhandled (Http.ServiceError e), db)
  end.

(** [return await service.method(..)]. *)
Definition respond {A : Type} (r : result A * Database)
  : Http.response A * Database :=
  match r with
  | (Ok a, db) => (Http.Returned a, db)
  | (Raise e, db) => (Http.Unhandled (Http.ServiceError e), db)
  end.

(** [try: return await service.method(..)
     except ValueError as e: raise HTTPException(status_code=400,
                                                 detail=str(e))]. *)
Definition bad_request {A : Type} (r : result A * Database)
  : Http.response A * Database :=
  match r with
  | (Raise e, db) =>
      if is_ValueError e
      then (Http.HTTPException 400 (Http.Str e), db)
      else respond r
  | _ => respond r
  end.

Definition create_sale_transaction (transaction : SaleTransactionCreate.t)
  (current_user : User.t) (access : AccessTables)
  : Database -> Http.response SaleTransaction.t * Database :=
  depends (Rbac.require_stock_write current_user access)
    (fun current_user db =>
       respond (TransactionService.create_sale_transaction transaction
                  (Some (User.id current_user)) db)).

Definition confirm_sale_transaction (now : datetime) (transaction_id : Z)
  (current_user : User.t) (access : AccessTables)
  : Database -> Http.response SaleTransaction.t * Database :=
  depends (Rbac.require_stock_write current_user access)
    (fun _ db =>
       bad_request (TransactionService.confirm_transaction now transaction_id
                      db)).

Definition cancel_sale_transaction (now : datetime) (transaction_id : Z)
  (current_user : User.t) (access : AccessTables)
  : Database -> Http.response SaleTransaction.t * Database :=
  depends (Rbac.require_stock_write current_user access)
    (fun _ db =>
       bad_request (TransactionService.cancel_transaction now transaction_id
                      db)).

Section Terminals.

Variable fromisoformat : string -> option datetime.
Variable decode_utf8 : string -> option string.
Variable hmac_sha256_hexdigest : string -> string -> string.

(** [terminal = await require_terminal_auth(request, db)] in front of the
    rest of a body. *)
Definition authenticated {B : Type} (now utcnow : datetime)
  (request : Request.t)
  (body : Database -> Http.response B * Database)
  (state : list Terminal.t * Database)
  : Http.response B * (list Terminal.t * Database) :=
  match HmacAuth.require_terminal_auth fromisoformat decode_utf8
          hmac_sha256_hexdigest now utcnow request (fst state) with
  | (Http.Returned terminal, terminals) =>
      let (r, db) := body (snd state) in (r, (terminals, db))
  | (Http.HTTPException status_code detail, terminals) =>
      (Http.HTTPException status_code detail, (terminals, snd state))
  | (Http.Unhandled e, terminals) =>
      (Http.Unhandled e, (terminals, snd state))
  end.

Definition create_terminal_sale_transaction (now utcnow : datetime)
  (request : Request.t) (transaction : SaleTransactionCreate.t)
  : list Terminal.t * Database
    -> Http.response SaleTransaction.t * (list Terminal.t * Database) :=
  authenticated now utcnow request
    (fun db =>
       respond (TransactionService.create_sale_transaction transaction None
                  db)).

(** [reconciliation_request] is the parsed body: the terminal it names, the
    period and the batch. *)
Definition reconcile_terminal_transactions (now utcnow : datetime)
  (clock : nat -> datetime) (request : Request.t) (terminal_id : string)
  (start_time end_time : datetime)
  (transactions : list SaleTransactionCreate.t)
  : list Terminal.t * Database
    -> Http.response ReconciliationResult.t * (list Terminal.t * Database) :=
  authenticated now utcnow request
    (fun db =>
       respond (TransactionService.reconcile_transactions clock terminal_id
                  start_time end_time transactions db)).

End Terminals.

End Api.

(** ** Vocabulary of the properties *)

(** The reservation invariant of one row, and of the rows under a key. *)
Definition reservation_invariant (s : StockLevel.t) : Prop :=
  (0 <= StockLevel.reserved_quantity s)%Qc
  /\ (StockLevel.reserved_quantity s <= StockLevel.quantity s)%Qc.

Definition key_invariant (product_id location_id : Z) (db : Database) : Prop :=
  forall s,
    In s (stock_levels db) ->
    ProductService.stock_key product_id location_id s = true ->
    reservation_invariant s.

(** A call of one of the three mutating ledger operations. *)
Inductive ledger_call : Type :=
| Reserve (quantity : Decimal)
| Release (quantity : Decimal)
| Consume (quantity : Decimal).

(** The calls whose quantity is not negative where the sign matters: a
    reservation or a release. *)
Definition signed_call (c : ledger_call) : Prop :=
  match c with
  | Reserve q | Release q => (0 <= q)%Qc
  | Consume _ => True
  end.

Definition run_call (product_id location_id : Z) (c : ledger_call) : M bool :=
  match c with
  | Reserve q => ProductService.reserve_stock product_id location_id q
  | Release q => ProductService.release_reserved_stock product_id location_id q
  | Consume q => ProductService.consume_stock product_id location_id q
  end.

(** The outcome and the database after each call of a sequence, in order. *)
Fixpoint run_calls (product_id location_id : Z) (calls : list ledger_call)
  (db : Database) : list (result bool * Database) :=
  match calls with
  | [] => []
  | c :: rest =>
      let r := run_call product_id location_id c db in
      r :: run_calls product_id location_id rest (snd r)
  end.

(** Decimal literals of the examples. *)
Definition dec (n : Z) : Decimal := Q2Qc (inject_Z n).

(** One product at one location, nothing on hand and nothing reserved. *)
Definition empty_shelf : Database :=
  mkDatabase [1] [StockLevel.mk 1 1 1 (dec 0) (dec 0) (dec 0) (dec 999999)]
             [] [] [].

(** The same shelf holding ten units, none of them reserved. *)
Definition stocked_shelf : Database :=
  mkDatabase [1] [StockLevel.mk 1 1 1 (dec 10) (dec 0) (dec 0) (dec 999999)]
             [] [] [].

(** No stock row at all. *)
Definition no_shelf : Database := mkDatabase [1] [] [] [] [].

(** [s] is the row stored under the stock key; no row is stored under it. *)
Definition stock_row (product_id location_id : Z) (db : Database)
  (s : StockLevel.t) : Prop :=
  ProductService.select_stock_level product_id location_id db = [s].

Definition no_stock_row (product_id location_id : Z) (db : Database) : Prop :=
  ProductService.select_stock_level product_id location_id db = [].

(** [c] is the conversion row stored under (product_id, from_unit, to_unit);
    no row is stored under it. *)
Definition conversion_row (product_id : Z) (from_unit to_unit : string)
  (db : Database) (c : UnitConversion.t) : Prop :=
  ProductService.select_conversion product_id from_unit to_unit db = [c].

Definition no_conversion_row (product_id : Z) (from_unit to_unit : string)
  (db : Database) : Prop :=
  ProductService.select_conversion product_id from_unit to_unit db = [].

(** A->B->A: [convert_units] applied to its own result, units swapped. *)
Definition round_trip (product_id : Z) (unit_a unit_b : string)
  (quantity : Decimal) : M Decimal :=
  converted <- ProductService.convert_units product_id unit_a unit_b quantity ;;
  ProductService.convert_units product_id unit_b unit_a converted.

(** Conversion tables of the examples: a glass declared to be two glasses,
    and a bottle declared to hold no glass at all. *)
Definition self_conversion : Database :=
  mkDatabase [1] [] [UnitConversion.mk 1 1 "glass" "glass" (dec 2)] [] [].

Definition zero_factor : Database :=
  mkDatabase [1] [] [UnitConversion.mk 1 1 "bottle" "glass" (dec 0)] [] [].

Definition six_glasses : Database :=
  mkDatabase [1] [] [UnitConversion.mk 1 1 "bottle" "glass" (dec 6)] [] [].

Definition three_glasses : Database :=
  mkDatabase [1] [] [UnitConversion.mk 1 1 "bottle" "glass" (dec 3)] [] [].

(** A sale of [converted] base units of product 1 at location 1, in the
    given status, and a shop holding ten units with that sale on record. *)
Definition sale (status : TransactionStatus) (converted : Z)
  : SaleTransaction.t :=
  SaleTransaction.mk 1 "e1" 1 1 (dec converted) "base" (dec converted)
    (dec 2) (dec 2 * dec converted)%Qc status None None None.

Definition shop (status : TransactionStatus) (converted : Z) : Database :=
  mkDatabase [1] [StockLevel.mk 1 1 1 (dec 10) (dec 0) (dec 0) (dec 999999)]
             [] [sale status converted] [].

(** The same sale where product 1 has no stock row at location 1. *)
Definition shop_without_stock : Database :=
  mkDatabase [1] [] [] [sale PENDING 4] [].

(** The statuses out of which no transition leads. *)
Definition terminal_status (st : TransactionStatus) : Prop :=
  st = CONFIRMED \/ st = CANCELLED \/ st = FAILED.

(** The payload a terminal sends for a sale of [converted] base units of a
    product at location 1. *)
Definition sale_data (event_id : string) (product_id converted : Z)
  : SaleTransactionCreate.t :=
  SaleTransactionCreate.mk event_id product_id 1 (dec converted) "base"
    (dec converted) (dec 2) (dec 2 * dec converted)%Qc None None.

(** The row [create_sale_transaction] builds from a payload, under the key
    [id]. *)
Definition new_transaction (transaction_data : SaleTransactionCreate.t)
  (user_id : option Z) (id : Z) : SaleTransaction.t :=
  SaleTransaction.mk id
    (SaleTransactionCreate.event_id transaction_data)
    (SaleTransactionCreate.product_id transaction_data)
    (SaleTransactionCreate.location_id transaction_data)
    (SaleTransactionCreate.quantity transaction_data)
    (SaleTransactionCreate.unit_type transaction_data)
    (SaleTransactionCreate.converted_quantity transaction_data)
    (SaleTransactionCreate.price_per_unit transaction_data)
    (SaleTransactionCreate.total_amount transaction_data)
    PENDING None
    (SaleTransactionCreate.terminal_timestamp transaction_data)
    (TransactionService.py_or
       (SaleTransactionCreate.user_id transaction_data) user_id).

(** Whether an outcome is a return (as opposed to a raise). *)
Definition returned {A : Type} (r : result A) : bool :=
  match r with
  | Ok _ => true
  | Raise _ => false
  end.

(** For each item of a batch, in submitted order, whether the body of the
    loop completes on it without raising.  Each item runs in the database the
    previous one left behind, failed or not. *)
Fixpoint item_outcomes (utcnow : nat -> datetime) (n : nat)
  (transactions : list SaleTransactionCreate.t) (db : Database) : list bool :=
  match transactions with
  | [] => []
  | transaction_data :: rest =>
      let r := TransactionService.reconcile_item (utcnow n) transaction_data db in
      returned (fst r) :: item_outcomes utcnow (S n) rest (snd r)
  end.

(** The database after the items of a batch have run. *)
Fixpoint after_items (utcnow : nat -> datetime) (n : nat)
  (transactions : list SaleTransactionCreate.t) (db : Database) : Database :=
  match transactions with
  | [] => db
  | transaction_data :: rest =>
      after_items utcnow (S n) rest
        (snd (TransactionService.reconcile_item (utcnow n) transaction_data db))
  end.

Definition count (b : bool) (outcomes : list bool) : Z :=
  Z.of_nat (count_occ bool_dec outcomes b).

(** A transaction carrying the event identifier is on record. *)
Definition event_recorded (event_id : string) (db : Database) : Prop :=
  exists t, In t (sale_transactions db) /\ SaleTransaction.event_id t = event_id.

(** The parts of the database the ledger and the state machine never
    write. *)
Definition same_catalog (db db' : Database) : Prop :=
  products db' = products db
  /\ unit_conversions db' = unit_conversions db
  /\ reconciliation_logs db' = reconciliation_logs db.

(** The keys of the data model: (product_id, location_id) for a stock row,
    (product_id, from_unit, to_unit) for a conversion row.  The tables
    declare no uniqueness constraint on them; a table is keyed when no two
    of its rows share a key. *)
Definition stock_key_of (s : StockLevel.t) : Z * Z :=
  (StockLevel.product_id s, StockLevel.location_id s).

Definition conversion_key_of (c : UnitConversion.t) : Z * string * string :=
  (UnitConversion.product_id c, UnitConversion.from_unit c,
   UnitConversion.to_unit c).

Definition keyed_stock_levels (db : Database) : Prop :=
  NoDup (map stock_key_of (stock_levels db)).

Definition keyed_conversions (db : Database) : Prop :=
  NoDup (map conversion_key_of (unit_conversions db)).

(** A declaration of [quantity] units on hand, [reserved] of them reserved,
    for product 1 at location 1. *)
Definition declaration (quantity reserved : Z) : StockLevelCreate.t :=
  StockLevelCreate.mk 1 1 (dec quantity) (dec reserved) (dec 0) (dec 999999).

(** A conversion table storing both directions between bottle and glass,
    with factors that are not inverse to each other. *)
Definition two_way : Database :=
  mkDatabase [1] []
    [UnitConversion.mk 1 1 "bottle" "glass" (dec 6);
     UnitConversion.mk 2 1 "glass" "bottle" (dec 2)] [] [].

(** A call of one of the service methods that write the database. *)
Inductive service_call : Type :=
| CreateStockLevel (stock_data : StockLevelCreate.t)
| ReserveStock (product_id location_id : Z) (quantity : Decimal)
| ReleaseReservedStock (product_id location_id : Z) (quantity : Decimal)
| ConsumeStock (product_id location_id : Z) (quantity : Decimal)
| CreateSaleTransaction (transaction_data : SaleTransactionCreate.t)
    (user_id : option Z)
| ConfirmTransaction (now : datetime) (transaction_id : Z)
| CancelTransaction (now : datetime) (transaction_id : Z)
| ReconcileTransactions (utcnow : nat -> datetime) (terminal_id : string)
    (start_time end_time : datetime)
    (transactions : list SaleTransactionCreate.t).

(** The exception a call ended with, if any, and the database it left. *)
Definition outcome {A : Type} (r : result A * Database)
  : option exn * Database :=
  (match fst r with Ok _ => None | Raise e => Some e end, snd r).

Definition run_service_call (c : service_call) (db : Database)
  : option exn * Database :=
  match c with
  | CreateStockLevel stock_data =>
      outcome (ProductService.create_stock_level stock_data db)
  | ReserveStock p l q => outcome (ProductService.reserve_stock p l q db)
  | ReleaseReservedStock p l q =>
      outcome (ProductService.release_reserved_stock p l q db)
  | ConsumeStock p l q => outcome (ProductService.consume_stock p l q db)
  | CreateSaleTransaction transaction_data user_id =>
      outcome (TransactionService.create_sale_transaction transaction_data
                 user_id db)
  | ConfirmTransaction now transaction_id =>
      outcome (TransactionService.confirm_transaction now transaction_id db)
  | CancelTransaction now transaction_id =>
      outcome (TransactionService.cancel_transaction now transaction_id db)
  | ReconcileTransactions utcnow terminal_id start_time end_time transactions =>
      outcome (TransactionService.reconcile_transactions utcnow terminal_id
                 start_time end_time transactions db)
  end.

(** The database after a sequence of calls, each made whatever the outcome
    of the ones before. *)
Fixpoint run_service_calls (calls : list service_call) (db : Database)
  : Database :=
  match calls with
  | [] => db
  | c :: rest => run_service_calls rest (snd (run_service_call c db))
  end.

(** No two stock rows under one key, no two sale transactions under one
    primary key or one event identifier. *)
Definition well_keyed (db : Database) : Prop :=
  keyed_stock_levels db
  /\ NoDup (map SaleTransaction.id (sale_transactions db))
  /\ NoDup (map SaleTransaction.event_id (sale_transactions db)).

(** Whether the event of an item is on record. *)
Definition on_record (transaction_data : SaleTransactionCreate.t)
  (db : Database) : bool :=
  match TransactionService.select_by_event_id
          (SaleTransactionCreate.event_id transaction_data) db with
  | [] => false
  | _ :: _ => true
  end.

(** An item of a batch is settled in a database when
    create_sale_transaction has nothing to insert for it there: its event is
    on record, or its product is not in the catalog. *)
Definition settled (transaction_data : SaleTransactionCreate.t)
  (db : Database) : Prop :=
  on_record transaction_data db = true
  \/ TransactionService.get_product
       (SaleTransactionCreate.product_id transaction_data) db = false.

(** A role of the user carries the permission: the four rows exist and are
    linked as the join links them. *)
Definition grants (db : AccessTables) (user_id : Z) (resource action : string)
  (c : Rbac.chain) : Prop :=
  let '(p, rp, role, ura) := c in
  In p (permissions db) /\ In rp (role_permissions db)
  /\ In role (roles db) /\ In ura (user_role_assignments db)
  /\ RolePermission.permission_id rp = Permission.id p
  /\ RolePermission.role_id rp = Role.id role
  /\ UserRoleAssignment.role_id ura = Role.id role
  /\ UserRoleAssignment.user_id ura = user_id
  /\ Permission.resource p = resource
  /\ Permission.action p = action.

(** A clerk holding stock.write through one role, or through two. *)
Definition clerk : User.t := User.mk 7 "clerk" true false.

Definition one_role : AccessTables :=
  mkAccessTables [Permission.mk 1 "stock" "write"]
    [RolePermission.mk 1 1 1]
    [Role.mk 1 "bar"]
    [UserRoleAssignment.mk 1 7 1].

Definition two_roles : AccessTables :=
  mkAccessTables [Permission.mk 1 "stock" "write"]
    [RolePermission.mk 1 1 1; RolePermission.mk 2 2 1]
    [Role.mk 1 "bar"; Role.mk 2 "cellar"]
    [UserRoleAssignment.mk 1 7 1; UserRoleAssignment.mk 2 7 2].

(** The window of the terminal authentication around a reading of the
    clock, in microseconds. *)
Definition within_window (now timestamp : datetime) : Prop :=
  Z.abs (now - timestamp)
  <= settings.TERMINAL_TIME_WINDOW_MINUTES * 60 * 1000000.

(** The text a terminal signs: method, path, timestamp header and body, one
    after the other. *)
Definition signed_message (request : Request.t)
  (timestamp_header text : string) : string :=
  (Request.method request ++ Request.path request ++ timestamp_header
   ++ text)%string.

(** A request is authentic for a terminal at a reading of the clock: it
    names the code of the terminal, its timestamp reads as an instant inside
    the window, its body is text, and its signature is the digest of the
    signed text under the secret of the terminal.  The three headers are
    not empty and the signature holds ASCII characters only, as every
    hexadecimal digest does. *)
Definition authentic (fromisoformat : string -> option datetime)
  (decode_utf8 : string -> option string)
  (hmac_sha256_hexdigest : string -> string -> string)
  (now : datetime) (request : Request.t) (terminal : Terminal.t) : Prop :=
  exists timestamp_header timestamp text signature,
    Request.x_terminal_id request = Some (Terminal.code terminal)
    /\ Terminal.code terminal <> ""%string
    /\ Request.x_timestamp request = Some timestamp_header
    /\ timestamp_header <> ""%string
    /\ fromisoformat (HmacAuth.replace "Z" "+00:00" timestamp_header)
       = Some timestamp
    /\ within_window now timestamp
    /\ decode_utf8 (Request.body request) = Some text
    /\ Request.x_signature request = Some signature
    /\ signature <> ""%string
    /\ HmacAuth.is_ascii signature = true
    /\ signature
       = hmac_sha256_hexdigest (Terminal.secret_key terminal)
           (signed_message request timestamp_header text).

(** The columns of a terminal other than its heartbeat. *)
Definition registration (t : Terminal.t)
  : Z * string * string * option Z * bool * string :=
  (Terminal.id t, Terminal.name t, Terminal.code t, Terminal.location_id t,
   Terminal.is_active t, Terminal.secret_key t).

(** The terminal of the examples and a sale it sends at midnight UTC of
    1 January 2024.  The examples read that one timestamp, take every body
    as text and sign with the secret itself. *)
Definition bar_terminals : list Terminal.t :=
  [Terminal.mk 1 "Bar" "bar_1" (Some 1) true None "5ec2e7"].

Definition sale_request : Request.t :=
  Request.mk "POST" "/api/v1/terminal-sales/" (Some "bar_1"%string)
    (Some "2024-01-01T00:00:00Z"%string) (Some "5ec2e7"%string) "{}".

Definition midnight : datetime := 1704067200000000.

Definition sample_fromisoformat (text : string) : option datetime :=
  if (text =? "2024-01-01T00:00:00+00:00")%string then Some midnight
  else None.

Definition sample_decode (body : string) : option string := Some body.

Definition sample_digest (key message : string) : string := key.

(** A value a [Numeric(precision, scale)] column holds as it is: a whole
    number of units [10^-scale], of fewer than [precision] digits.  Such a
    value is written and read back unchanged. *)
Definition numeric (precision scale : Z) (x : Decimal) : bool :=
  let n := Qred (x * inject_Z (10 ^ scale)) in
  (Qden n =? 1)%positive && (Z.abs (Qnum n) <? 10 ^ precision).

(** A declaration of stock whose four quantities the [Numeric(12, 4)]
    columns of the row hold as they are. *)
Definition storable_stock (stock_data : StockLevelCreate.t) : bool :=
  numeric 12 4 (StockLevelCreate.quantity stock_data)
  && numeric 12 4 (StockLevelCreate.reserved_quantity stock_data)
  && numeric 12 4 (StockLevelCreate.min_stock_level stock_data)
  && numeric 12 4 (StockLevelCreate.max_stock_level stock_data).

(** A sale whose amounts the numeric columns of the record hold as they
    are: [Numeric(10, 4)] quantities, a [Numeric(10, 2)] price and a
    [Numeric(12, 2)] total. *)
Definition storable_sale (transaction_data : SaleTransactionCreate.t)
  : bool :=
  numeric 10 4 (SaleTransactionCreate.quantity transaction_data)
  && numeric 10 4 (SaleTransactionCreate.converted_quantity transaction_data)
  && numeric 10 2 (SaleTransactionCreate.price_per_unit transaction_data)
  && numeric 12 2 (SaleTransactionCreate.total_amount transaction_data).

(** The tolerance of a conversion there and back: a unit of the 28th digit
    of [q] (and a little more), plus what an underflow can cost. *)
Definition round_trip_tolerance (q f : Decimal) : Q :=
  ((11 # 10) * pow10 (- 27) * Qabs q + pow10 Etiny * (1 + Qabs (/ f)))%Q.

(** Magnitudes between [10^-1000] and [10^1000]: far from the ends of the
    exponent range. *)
Definition moderate (x : Decimal) : Prop :=
  (pow10 (- 1000) <= Qabs x)%Q /\ (Qabs x <= pow10 1000)%Q.

(** ** Decimal arithmetic *)

Ltac dec_arith :=
  unfold reservation_invariant, py_max, dec_lt, dec_is_zero,
    StockLevel.values in *;
  cbn [StockLevel.quantity StockLevel.reserved_quantity] in *;
  repeat match goal with
    | |- context [Qclt_le_dec ?a ?b] => destruct (Qclt_le_dec a b)
    | H : context [Qclt_le_dec ?a ?b] |- _ => destruct (Qclt_le_dec a b)
    end;
  unfold Qcle, Qclt, Qcminus, Qcplus, Qcopp in *;
  cbn [this Q2Qc] in *;
  rewrite ?Qred_correct in *;
  try discriminate;
  try lra.

(** Closed decimal computations: the two sides are evaluated and compared
    as rationals. *)
Ltac decimal_eval :=
  vm_compute;
  repeat match goal with
    | |- (_, _) = (_, _) => f_equal
    | |- Ok _ = Ok _ => f_equal
    end;
  try (apply Qc_is_canon; reflexivity);
  try reflexivity.

Lemma dec_lt_true (a b : Decimal) : dec_lt a b = true <-> (a < b)%Qc.
Proof.
  unfold dec_lt. destruct (Qclt_le_dec a b) as [H | H].
  - tauto.
  - split; [discriminate |]. intros H'. exfalso.
    exact (Qclt_not_le _ _ H' H).
Qed.

Lemma dec_lt_false (a b : Decimal) : dec_lt a b = false <-> (b <= a)%Qc.
Proof.
  unfold dec_lt. destruct (Qclt_le_dec a b) as [H | H].
  - split; [discriminate |]. intros H'. exfalso.
    exact (Qclt_not_le _ _ H H').
  - tauto.
Qed.

Lemma py_max_floor (x : Decimal) : (0 <= py_max 0 x)%Qc.
Proof. dec_arith. Qed.

Lemma decimal_div_zero (a : Decimal) :
  decimal_div a 0%Qc
  = Raise (if dec_is_zero a then DecimalInvalidOperation else DivisionByZero).
Proof.
  unfold decimal_div. change (dec_is_zero 0%Qc) with true. cbn.
  destruct (dec_is_zero a); reflexivity.
Qed.

Lemma decimal_div_nonzero (a b : Decimal) :
  b <> 0%Qc -> decimal_div a b = context_round (a / b)%Qc.
Proof.
  intros Hb. unfold decimal_div, dec_is_zero.
  destruct (Qc_eq_dec b 0) as [E | _]; [contradiction | reflexivity].
Qed.

(** *** The rounding of the context *)

Lemma ilog10_fuel_spec (fuel : nat) (n : Z) :
  0 < n -> n < 10 ^ Z.of_nat fuel ->
  0 <= ilog10_fuel fuel n
  /\ 10 ^ ilog10_fuel fuel n <= n < 10 ^ (ilog10_fuel fuel n + 1).
Proof.
  revert n. induction fuel as [| fuel IH]; intros n Hpos Hlt.
  - cbn in Hlt. lia.
  - cbn [ilog10_fuel]. destruct (n <? 10) eqn:E.
    + apply Z.ltb_lt in E. cbn. lia.
    + apply Z.ltb_ge in E.
      assert (Hdiv : 0 < n / 10) by (apply Z.div_str_pos; lia).
      assert (Hlt' : n / 10 < 10 ^ Z.of_nat fuel).
      { apply Z.div_lt_upper_bound; [lia |].
        rewrite Nat2Z.inj_succ, Z.pow_succ_r in Hlt by lia. exact Hlt. }
      destruct (IH _ Hdiv Hlt') as [Hk [Hlo Hhi]].
      set (k := ilog10_fuel fuel (n / 10)) in *.
      split; [lia |].
      replace (1 + k) with (Z.succ k) by lia.
      replace (Z.succ k + 1) with (Z.succ (k + 1)) by lia.
      rewrite !Z.pow_succ_r by lia.
      pose proof (Z.div_mod n 10 ltac:(lia)) as Hdm.
      pose proof (Z.mod_pos_bound n 10 ltac:(lia)) as Hm.
      lia.
Qed.

Lemma ilog10_spec (n : Z) :
  0 < n -> 0 <= ilog10 n /\ 10 ^ ilog10 n <= n < 10 ^ (ilog10 n + 1).
Proof.
  intros Hpos. apply ilog10_fuel_spec; [exact Hpos |].
  rewrite Nat2Z.inj_succ, Z2Nat.id by apply Z.log2_nonneg.
  destruct (Z.log2_spec n Hpos) as [_ Hhi].
  apply Z.lt_le_trans with (1 := Hhi).
  apply Z.pow_le_mono_l. lia.
Qed.

Lemma pow10_pos (e : Z) : (0 < pow10 e)%Q.
Proof. apply Qpower_0_lt. reflexivity. Qed.

Lemma pow10_add (a b : Z) : (pow10 (a + b) == pow10 a * pow10 b)%Q.
Proof. apply Qpower_plus. discriminate. Qed.

Lemma pow10_inject (k : Z) : 0 <= k -> (inject_Z (10 ^ k) == pow10 k)%Q.
Proof. intros H. unfold pow10. now rewrite Zpower_Qpower. Qed.

Lemma Qmult_lt_cancel (x p c : Q) :
  (0 < c)%Q -> (x * c < p * c)%Q -> (x < p)%Q.
Proof. intros Hc H. nra. Qed.

(** [adjusted x] is the exponent of the leading digit:
    [10^adjusted x <= |x| < 10^(adjusted x + 1)]. *)
Lemma adjusted_spec (x : Q) :
  ~ (x == 0)%Q ->
  (pow10 (adjusted x) <= Qabs x)%Q /\ (Qabs x < pow10 (adjusted x + 1))%Q.
Proof.
  intros Hx. unfold adjusted.
  set (n := Z.abs (Qnum x)). set (d := Z.pos (Qden x)).
  assert (Hn : 0 < n).
  { subst n. destruct x as [[| p | p] q]; cbn; try lia.
    exfalso. apply Hx. reflexivity. }
  assert (Hd : 0 < d) by (subst d; lia).
  destruct (ilog10_spec n Hn) as [Ha [Hnlo Hnhi]].
  destruct (ilog10_spec d Hd) as [Hb [Hdlo Hdhi]].
  set (a := ilog10 n) in *. set (b := ilog10 d) in *.
  assert (HX : (Qabs x * inject_Z d == inject_Z n)%Q).
  { destruct x as [xn xd]. subst n d. cbn [Qabs Qnum Qden].
    unfold Qeq, Qmult, inject_Z. cbn. lia. }
  assert (Hnlo' : (pow10 a <= inject_Z n)%Q).
  { rewrite <- pow10_inject by exact Ha. now rewrite <- Zle_Qle. }
  assert (Hnhi' : (inject_Z n < pow10 (a + 1))%Q).
  { rewrite <- pow10_inject by lia. now rewrite <- Zlt_Qlt. }
  assert (Hdlo' : (pow10 b <= inject_Z d)%Q).
  { rewrite <- pow10_inject by exact Hb. now rewrite <- Zle_Qle. }
  assert (Hdhi' : (inject_Z d < pow10 (b + 1))%Q).
  { rewrite <- pow10_inject by lia. now rewrite <- Zlt_Qlt. }
  assert (HXpos : (0 <= Qabs x)%Q) by apply Qabs_nonneg.
  assert (Hup : (Qabs x < pow10 (a - b + 1))%Q).
  { apply Qmult_lt_cancel with (c := pow10 b); [apply pow10_pos |].
    rewrite <- pow10_add. replace (a - b + 1 + b) with (a + 1) by lia.
    pose proof (pow10_pos b). nra. }
  assert (Hlow : (pow10 (a - b - 1) <= Qabs x)%Q).
  { apply Qlt_le_weak.
    apply Qmult_lt_cancel with (c := pow10 (b + 1)); [apply pow10_pos |].
    rewrite <- pow10_add. replace (a - b - 1 + (b + 1)) with a by lia.
    pose proof (pow10_pos (b + 1)).
    assert (Hdpos : (0 < inject_Z d)%Q).
    { replace 0%Q with (inject_Z 0) by reflexivity. now rewrite <- Zlt_Qlt. }
    assert (HXp : (0 < Qabs x)%Q).
    { destruct (Qlt_le_dec 0 (Qabs x)) as [H' | H']; [exact H' |].
      exfalso. assert (Hz : (Qabs x == 0)%Q) by lra.
      assert (Hn0 : (inject_Z n == 0)%Q) by (rewrite <- HX, Hz; ring).
      pose proof (pow10_pos a). lra. }
    nra. }
  destruct (Qle_bool (pow10 (a - b)) (Qabs x)) eqn:E.
  - apply Qle_bool_iff in E. split; [exact E | exact Hup].
  - split; [exact Hlow |].
    replace (a - b - 1 + 1) with (a - b) by lia.
    apply Qnot_le_lt. intros H. apply Qle_bool_iff in H. congruence.
Qed.

Lemma adjusted_lower (k : Z) (x : Q) :
  ~ (x == 0)%Q -> (pow10 k <= Qabs x)%Q -> k <= adjusted x.
Proof.
  intros Hx H. destruct (adjusted_spec x Hx) as [_ Hhi].
  assert (Hlt : (pow10 k < pow10 (adjusted x + 1))%Q) by lra.
  apply Qpower_lt_compat_l_inv in Hlt; [lia | reflexivity].
Qed.

Lemma adjusted_upper (k : Z) (x : Q) :
  ~ (x == 0)%Q -> (Qabs x < pow10 k)%Q -> adjusted x < k.
Proof.
  intros Hx H. destruct (adjusted_spec x Hx) as [Hlo _].
  assert (Hlt : (pow10 (adjusted x) < pow10 k)%Q) by lra.
  apply Qpower_lt_compat_l_inv in Hlt; [lia | reflexivity].
Qed.

Lemma round_half_even_spec (x : Q) :
  (Qabs (inject_Z (round_half_even x) - x) <= 1 # 2)%Q.
Proof.
  unfold round_half_even.
  pose proof (Qfloor_le x) as Hlo. pose proof (Qlt_floor x) as Hhi.
  rewrite inject_Z_plus in Hhi. change (inject_Z 1) with 1%Q in Hhi.
  apply Qabs_Qle_condition.
  destruct (x - inject_Z (Qfloor x) ?= 1 # 2)%Q eqn:E.
  - apply Qeq_alt in E.
    destruct (Z.even (Qfloor x)).
    + split; lra.
    + rewrite inject_Z_plus. change (inject_Z 1) with 1%Q. split; lra.
  - apply Qlt_alt in E. split; lra.
  - apply Qgt_alt in E. rewrite inject_Z_plus. change (inject_Z 1) with 1%Q.
    split; lra.
Qed.

Lemma quantize_error (e : Z) (x : Q) :
  (Qabs (quantize e x - x) <= (1 # 2) * pow10 e)%Q.
Proof.
  unfold quantize. pose proof (pow10_pos e) as Hu.
  pose proof (round_half_even_spec (x / pow10 e)) as H.
  apply Qabs_Qle_condition in H. destruct H as [H1 H2].
  assert (Hx : (x == x / pow10 e * pow10 e)%Q) by (field; lra).
  set (z := (x / pow10 e)%Q) in *.
  set (k := inject_Z (round_half_even z)) in *.
  apply Qabs_Qle_condition. split; nra.
Qed.

Lemma pow10_m27 (e : Z) : (pow10 (e - 27) == pow10 (- 27) * pow10 e)%Q.
Proof. rewrite <- pow10_add. now replace (- 27 + e) with (e - 27) by lia. Qed.

(** The rounding error: half a unit of the 28th digit, or of the smallest
    subnormal. *)
Lemma context_round_Q_error (x r : Q) :
  context_round_Q x = Some r ->
  (Qabs (r - x) <= (1 # 2) * pow10 (- 27) * Qabs x + (1 # 2) * pow10 Etiny)%Q.
Proof.
  unfold context_round_Q.
  pose proof (pow10_pos Etiny) as Heta. pose proof (pow10_pos (- 27)) as H27.
  pose proof (Qabs_nonneg x) as Hx0.
  set (eta := pow10 Etiny) in *. set (eps := pow10 (- 27)) in *.
  destruct (Qeq_bool x 0) eqn:E0.
  - apply Qeq_bool_iff in E0. intros H. injection H as <-.
    setoid_replace (0 - x)%Q with 0%Q by (rewrite E0; ring).
    cbn [Qabs Z.abs Qnum Qden]. change (0 # 1)%Q with 0%Q. nra.
  - assert (Hx : ~ (x == 0)%Q).
    { intros H. apply Qeq_bool_iff in H. congruence. }
    set (e := Z.max (adjusted x - 27) Etiny).
    pose proof (quantize_error e x) as Herr.
    assert (Hu : (pow10 e <= eps * Qabs x + eta)%Q).
    { destruct (adjusted_spec x Hx) as [Hlo _].
      destruct (Z.max_spec (adjusted x - 27) Etiny) as [[_ He] | [_ He]];
        unfold e; rewrite He.
      - fold eta. nra.
      - rewrite pow10_m27. fold eps. nra. }
    set (q := quantize e x) in *.
    assert (Hq : (Qabs (q - x) <= (1 # 2) * eps * Qabs x + (1 # 2) * eta)%Q)
      by lra.
    destruct (Qeq_bool q 0) eqn:Eq.
    + apply Qeq_bool_iff in Eq. intros H. injection H as <-.
      now rewrite <- Eq.
    + destruct (Emax <? adjusted q); [discriminate |].
      intros H. injection H as <-. exact Hq.
Qed.

(** In the normal range the rounding returns, within half a unit of the
    28th digit. *)
Lemma context_round_Q_normal (x : Q) :
  ~ (x == 0)%Q -> - 999999 <= adjusted x <= 999997 ->
  exists r, context_round_Q x = Some r /\ ~ (r == 0)%Q.
Proof.
  intros Hx [Hlo Hhi]. unfold context_round_Q.
  destruct (Qeq_bool x 0) eqn:E0; [apply Qeq_bool_iff in E0; contradiction |].
  replace (Z.max (adjusted x - 27) Etiny) with (adjusted x - 27)
    by (unfold Etiny; lia).
  set (e := adjusted x - 27).
  pose proof (quantize_error e x) as Herr.
  destruct (adjusted_spec x Hx) as [Hxlo Hxhi].
  pose proof (pow10_pos e) as Hu.
  assert (Hpow : (pow10 (adjusted x) == pow10 27 * pow10 e)%Q).
  { rewrite <- pow10_add. unfold e. now replace (27 + (adjusted x - 27))
      with (adjusted x) by lia. }
  assert (Hpow' : (pow10 (adjusted x + 1) == pow10 28 * pow10 e)%Q).
  { rewrite <- pow10_add. unfold e. now replace (28 + (adjusted x - 27))
      with (adjusted x + 1) by lia. }
  assert (H27 : (pow10 27 == 1000000000000000000000000000 # 1)%Q)
    by reflexivity.
  assert (H28 : (pow10 28 == 10000000000000000000000000000 # 1)%Q)
    by reflexivity.
  set (r := quantize e x) in *.
  apply Qabs_Qle_condition in Herr. destruct Herr as [He1 He2].
  assert (Hrabs : (pow10 27 * pow10 e - (1 # 2) * pow10 e <= Qabs r)%Q).
  { destruct (Qlt_le_dec x 0) as [Hneg | Hpos].
    - rewrite (Qabs_neg x) in Hxlo by lra.
      rewrite (Qabs_neg r); [lra |].
      rewrite Hpow in Hxlo. nra.
    - rewrite (Qabs_pos x) in Hxlo by lra.
      rewrite (Qabs_pos r); [lra |].
      rewrite Hpow in Hxlo. nra. }
  assert (Hrne : ~ (r == 0)%Q).
  { intros Hr. rewrite Hr in Hrabs. cbn [Qabs Z.abs Qnum Qden] in Hrabs.
    change (0 # 1)%Q with 0%Q in Hrabs. nra. }
  destruct (Qeq_bool r 0) eqn:Er; [apply Qeq_bool_iff in Er; contradiction |].
  assert (Hrup : (Qabs r < pow10 (adjusted x + 2))%Q).
  { assert (Hle : (Qabs r <= Qabs x + (1 # 2) * pow10 e)%Q).
    { destruct (Qlt_le_dec x 0) as [Hneg | Hpos].
      - rewrite (Qabs_neg x) by lra. apply Qabs_Qle_condition. split; lra.
      - rewrite (Qabs_pos x) by lra. apply Qabs_Qle_condition. split; lra. }
    assert (Hstep : (pow10 (adjusted x + 2) == 10 * pow10 (adjusted x + 1))%Q).
    { replace (adjusted x + 2) with (1 + (adjusted x + 1)) by lia.
      rewrite pow10_add. reflexivity. }
    rewrite Hstep. rewrite Hpow' in Hxhi |- *. nra. }
  pose proof (adjusted_upper _ _ Hrne Hrup) as Hadj.
  destruct (Emax <? adjusted r) eqn:Eo.
  { apply Z.ltb_lt in Eo. unfold Emax in Eo. lia. }
  exists r. split; [reflexivity | exact Hrne].
Qed.

(** Without underflow the error is relative. *)
Lemma context_round_Q_relative (x r : Q) :
  ~ (x == 0)%Q -> Etiny + 27 <= adjusted x ->
  context_round_Q x = Some r ->
  (Qabs (r - x) <= (1 # 2) * pow10 (- 27) * Qabs x)%Q.
Proof.
  intros Hx Hlo. unfold context_round_Q.
  destruct (Qeq_bool x 0) eqn:E0; [apply Qeq_bool_iff in E0; contradiction |].
  replace (Z.max (adjusted x - 27) Etiny) with (adjusted x - 27) by lia.
  pose proof (quantize_error (adjusted x - 27) x) as Herr.
  destruct (adjusted_spec x Hx) as [Hxlo _].
  rewrite pow10_m27 in Herr.
  pose proof (pow10_pos (- 27)) as H27.
  set (eps := pow10 (- 27)) in *. set (q := quantize (adjusted x - 27) x) in *.
  assert (Hq : (Qabs (q - x) <= (1 # 2) * eps * Qabs x)%Q) by nra.
  destruct (Qeq_bool q 0) eqn:Eq.
  - apply Qeq_bool_iff in Eq. intros H. injection H as <-. now rewrite <- Eq.
  - destruct (Emax <? adjusted q); [discriminate |].
    intros H. injection H as <-. exact Hq.
Qed.

(** *** The same at [Decimal] *)

Lemma this_mult (a b : Decimal) : ((a * b)%Qc == a * b)%Q.
Proof. unfold Qcmult. cbn [this Q2Qc]. apply Qred_correct. Qed.

Lemma this_div (a b : Decimal) : ((a / b)%Qc == a * / b)%Q.
Proof.
  unfold Qcdiv, Qcmult, Qcinv. cbn [this Q2Qc].
  now rewrite !Qred_correct.
Qed.

Lemma this_nonzero (a : Decimal) : a <> 0%Qc -> ~ (a == 0)%Q.
Proof. intros H E. apply H. now apply Qc_is_canon. Qed.

Lemma context_round_raises (x : Decimal) (e : exn) :
  context_round x = Raise e -> e = DecimalOverflow.
Proof.
  unfold context_round. destruct (context_round_Q x); [discriminate |].
  now intros [= <-].
Qed.

Lemma context_round_error (x r : Decimal) :
  context_round x = Ok r ->
  (Qabs (r - x) <= (1 # 2) * pow10 (- 27) * Qabs x + (1 # 2) * pow10 Etiny)%Q.
Proof.
  unfold context_round. destruct (context_round_Q x) as [r0 |] eqn:E;
    [| discriminate].
  intros [= <-]. cbn [this Q2Qc]. rewrite Qred_correct.
  now apply context_round_Q_error.
Qed.

(** Between [10^lo] and [10^hi], well inside the exponent range, the
    rounding returns a value other than zero, with a relative error of half
    a unit of the 28th digit. *)
Lemma context_round_returns (lo hi : Z) (x : Decimal) :
  - 999999 <= lo -> hi <= 999998 ->
  (pow10 lo <= Qabs x)%Q -> (Qabs x < pow10 hi)%Q ->
  exists r : Decimal,
    context_round x = Ok r
    /\ r <> 0%Qc
    /\ (Qabs (r - x) <= (1 # 2) * pow10 (- 27) * Qabs x)%Q.
Proof.
  intros Hlo Hhi Hxlo Hxhi.
  assert (Hx : ~ (x == 0)%Q).
  { intros H. rewrite H in Hxlo. pose proof (pow10_pos lo) as Hp.
    cbn [Qabs Z.abs Qnum Qden] in Hxlo. change (0 # 1)%Q with 0%Q in Hxlo.
    lra. }
  pose proof (adjusted_lower _ _ Hx Hxlo) as Ha.
  pose proof (adjusted_upper _ _ Hx Hxhi) as Hb.
  destruct (context_round_Q_normal x Hx ltac:(lia)) as [r0 [Hr Hr0]].
  exists (Q2Qc r0). unfold context_round. rewrite Hr.
  split; [reflexivity |]. split.
  - intros E. apply Hr0. rewrite <- (Qred_correct r0).
    change (Qred r0) with (this (Q2Qc r0)). now rewrite E.
  - cbn [this Q2Qc]. rewrite Qred_correct.
    apply context_round_Q_relative; [exact Hx | unfold Etiny; lia | exact Hr].
Qed.

Lemma Qabs_le_add (a b c : Q) :
  (Qabs (a - b) <= c)%Q -> (Qabs a <= Qabs b + c)%Q.
Proof.
  intros H. setoid_replace a with (b + (a - b))%Q at 1 by ring.
  pose proof (Qabs_triangle b (a - b)). lra.
Qed.

Lemma round_trip_error (q f r1 r2 : Decimal) :
  f <> 0%Qc ->
  context_round (q * f)%Qc = Ok r1 ->
  context_round (r1 / f)%Qc = Ok r2 ->
  (Qabs (r2 - q) <= round_trip_tolerance q f)%Q.
Proof.
  intros Hf H1 H2. apply this_nonzero in Hf.
  apply context_round_error in H1, H2.
  rewrite this_mult in H1. rewrite this_div in H2.
  unfold round_trip_tolerance.
  pose proof (pow10_pos Etiny) as Heta.
  assert (Heps : (pow10 (- 27) == 1 # 1000000000000000000000000000)%Q)
    by reflexivity.
  set (eta := pow10 Etiny) in *. set (eps := pow10 (- 27)) in *.
  set (g := (/ f)%Q) in *.
  assert (Hfg : (f * g == 1)%Q) by (unfold g; field; exact Hf).
  rewrite Qabs_Qmult in H1.
  assert (HFG : (Qabs f * Qabs g == 1)%Q).
  { rewrite <- Qabs_Qmult, Hfg. reflexivity. }
  pose proof (Qabs_nonneg q) as Ha. pose proof (Qabs_nonneg f) as HF.
  pose proof (Qabs_nonneg g) as HG.
  assert (Hback : (Qabs (r1 * g - q)
                   <= (1 # 2) * eps * Qabs q + (1 # 2) * eta * Qabs g)%Q).
  { setoid_replace (r1 * g - q)%Q with ((r1 - q * f) * g)%Q
      by (rewrite <- (Qmult_1_r q) at 1; rewrite <- Hfg; ring).
    rewrite Qabs_Qmult.
    set (d := Qabs (r1 - q * f)) in *. set (a := Qabs q) in *.
    set (F := Qabs f) in *. set (G := Qabs g) in *.
    assert (Hd : (d * G <= ((1 # 2) * eps * (a * F) + (1 # 2) * eta) * G)%Q)
      by (apply Qmult_le_compat_r; [exact H1 | exact HG]).
    assert (HaFG : (a * F * G == a)%Q) by (rewrite <- Qmult_assoc, HFG; ring).
    nra. }
  pose proof (Qabs_le_add _ _ _ Hback) as Hr1g.
  assert (Hsum : (Qabs (r2 - q)
                  <= Qabs (r2 - r1 * g) + Qabs (r1 * g - q))%Q).
  { setoid_replace (r2 - q)%Q with ((r2 - r1 * g) + (r1 * g - q))%Q by ring.
    apply Qabs_triangle. }
  set (a := Qabs q) in *. set (G := Qabs g) in *.
  set (u := Qabs (r1 * g)) in *. set (v := Qabs (r2 - r1 * g)) in *.
  set (w := Qabs (r1 * g - q)) in *. set (z := Qabs (r2 - q)) in *.
  assert (HetaG : (0 <= eta * G)%Q) by nra.
  set (k := (eta * G)%Q) in *.
  nra.
Qed.

Lemma pow10_succ (e : Z) : (pow10 (e + 1) == 10 * pow10 e)%Q.
Proof. rewrite Z.add_comm, pow10_add. reflexivity. Qed.

Lemma round_trip_returns (q f : Decimal) :
  moderate q -> moderate f ->
  exists r1 r2 : Decimal,
    context_round (q * f)%Qc = Ok r1
    /\ context_round (r1 / f)%Qc = Ok r2
    /\ (Qabs (r2 - q) <= (11 # 10) * pow10 (- 27) * Qabs q)%Q.
Proof.
  intros [Hqlo Hqhi] [Hflo Hfhi].
  pose proof (pow10_pos (- 1000)) as Hp.
  assert (Hf : ~ (f == 0)%Q).
  { intros H. rewrite H in Hflo. cbn [Qabs Z.abs Qnum Qden] in Hflo.
    change (0 # 1)%Q with 0%Q in Hflo. lra. }
  assert (Heps : (pow10 (- 27) == 1 # 1000000000000000000000000000)%Q)
    by reflexivity.
  pose proof (pow10_add (- 1000) (- 1000)) as Hlo2.
  pose proof (pow10_add 1000 1000) as Hhi2.
  pose proof (pow10_succ 2000) as Hhi3.
  pose proof (pow10_succ (- 1001)) as Hlo1.
  pose proof (pow10_succ 1000) as Hhi1.
  pose proof (pow10_pos 1000) as Hp'.
  pose proof (pow10_pos (- 1001)) as Hp''.
  change (- 1000 + - 1000) with (- 2000) in Hlo2.
  change (1000 + 1000) with 2000 in Hhi2.
  change (2000 + 1) with 2001 in Hhi3.
  change (- 1001 + 1) with (- 1000) in Hlo1.
  change (1000 + 1) with 1001 in Hhi1.
  destruct (context_round_returns (- 2000) 2001 (q * f)%Qc)
    as [r1 [H1 [_ E1]]]; [lia | lia | | |].
  { rewrite this_mult, Qabs_Qmult, Hlo2. nra. }
  { rewrite this_mult, Qabs_Qmult, Hhi3, Hhi2. nra. }
  rewrite this_mult, Qabs_Qmult in E1.
  set (eps := pow10 (- 27)) in *.
  set (g := (/ f)%Q) in *.
  assert (Hfg : (f * g == 1)%Q) by (unfold g; field; exact Hf).
  assert (HFG : (Qabs f * Qabs g == 1)%Q).
  { rewrite <- Qabs_Qmult, Hfg. reflexivity. }
  pose proof (Qabs_nonneg g) as HG.
  assert (Hback : (Qabs (r1 * g - q) <= (1 # 2) * eps * Qabs q)%Q).
  { setoid_replace (r1 * g - q)%Q with ((r1 - q * f) * g)%Q
      by (rewrite <- (Qmult_1_r q) at 1; rewrite <- Hfg; ring).
    rewrite Qabs_Qmult.
    set (d := Qabs (r1 - q * f)) in *. set (a := Qabs q) in *.
    set (F := Qabs f) in *. set (G := Qabs g) in *.
    assert (Hd : (d * G <= (1 # 2) * eps * (a * F) * G)%Q)
      by (apply Qmult_le_compat_r; [exact E1 | exact HG]).
    assert (HaFG : (a * F * G == a)%Q) by (rewrite <- Qmult_assoc, HFG; ring).
    nra. }
  pose proof (Qabs_le_add _ _ _ Hback) as Hup.
  assert (Hdown : (Qabs q <= Qabs (r1 * g) + (1 # 2) * eps * Qabs q)%Q).
  { apply Qabs_le_add. rewrite Qabs_Qminus. exact Hback. }
  destruct (context_round_returns (- 1001) 1001 (r1 / f)%Qc)
    as [r2 [H2 [_ E2]]]; [lia | lia | | |].
  { rewrite this_div. fold g. nra. }
  { rewrite this_div. fold g. nra. }
  rewrite this_div in E2. fold g eps in E2.
  exists r1, r2. split; [exact H1 |]. split; [exact H2 |].
  assert (Hsum : (Qabs (r2 - q)
                  <= Qabs (r2 - r1 * g) + Qabs (r1 * g - q))%Q).
  { setoid_replace (r2 - q)%Q with ((r2 - r1 * g) + (r1 * g - q))%Q by ring.
    apply Qabs_triangle. }
  pose proof (Qabs_nonneg q) as Ha.
  set (a := Qabs q) in *.
  set (u := Qabs (r1 * g)) in *. set (v := Qabs (r2 - r1 * g)) in *.
  set (w := Qabs (r1 * g - q)) in *. set (z := Qabs (r2 - q)) in *.
  clearbody eps a u v w z. clear - Hsum Hback Hup E2 Heps Ha.
  rewrite Heps in *. lra.
Qed.

(** Beyond the exponent range the rounding raises. *)
Lemma context_round_overflow (x : Decimal) :
  (pow10 1000001 <= Qabs x)%Q -> context_round x = Raise DecimalOverflow.
Proof.
  intros Hbig. pose proof (pow10_pos 1000001) as Hp.
  assert (Hx : ~ (x == 0)%Q).
  { intros H. rewrite H in Hbig. cbn [Qabs Z.abs Qnum Qden] in Hbig.
    change (0 # 1)%Q with 0%Q in Hbig. lra. }
  pose proof (adjusted_lower _ _ Hx Hbig) as Ha.
  unfold context_round, context_round_Q.
  destruct (Qeq_bool x 0) eqn:E0; [apply Qeq_bool_iff in E0; contradiction |].
  replace (Z.max (adjusted x - 27) Etiny) with (adjusted x - 27)
    by (unfold Etiny; lia).
  pose proof (quantize_error (adjusted x - 27) x) as Herr.
  rewrite pow10_m27 in Herr.
  destruct (adjusted_spec x Hx) as [Hxlo _].
  assert (Heps : (pow10 (- 27) == 1 # 1000000000000000000000000000)%Q)
    by reflexivity.
  pose proof (pow10_succ 1000000) as Hs.
  change (1000000 + 1) with 1000001 in Hs.
  pose proof (pow10_pos 1000000) as Hp0.
  set (r := quantize (adjusted x - 27) x) in *.
  assert (Hr : (pow10 1000000 <= Qabs r)%Q).
  { assert (Hle : (Qabs x <= Qabs r + (1 # 2) * (pow10 (- 27)
                                                  * pow10 (adjusted x)))%Q).
    { apply Qabs_le_add. rewrite Qabs_Qminus. exact Herr. }
    set (eps := pow10 (- 27)) in *.
    set (P := pow10 (adjusted x)) in *. set (B := pow10 1000001) in *.
    set (B0 := pow10 1000000) in *.
    set (X := Qabs x) in *. set (R := Qabs r) in *.
    pose proof (pow10_pos (adjusted x)) as HP. fold P in HP.
    nra. }
  assert (Hrne : ~ (r == 0)%Q).
  { intros H. rewrite H in Hr. cbn [Qabs Z.abs Qnum Qden] in Hr.
    change (0 # 1)%Q with 0%Q in Hr. lra. }
  destruct (Qeq_bool r 0) eqn:Er; [apply Qeq_bool_iff in Er; contradiction |].
  pose proof (adjusted_lower _ _ Hrne Hr) as Hadj.
  destruct (Emax <? adjusted r) eqn:Eo; [reflexivity |].
  apply Z.ltb_ge in Eo. unfold Emax in Eo. lia.
Qed.

(** ** Keyed tables

    In a table without two rows under one key, the selection by a key is the
    row carrying it, or nothing. *)

Section Keyed.

Context {A K : Type} (key_of : A -> K) (test : A -> bool) (k : K).
Hypothesis test_spec : forall x, test x = true <-> key_of x = k.

Lemma filter_no_key (rows : list A) :
  (forall x, In x rows -> key_of x <> k) <-> filter test rows = [].
Proof.
  induction rows as [| x rows IH]; cbn.
  - tauto.
  - destruct (test x) eqn:Hx.
    + split; [| discriminate]. intros H. exfalso.
      apply (H x); [now left | now apply test_spec].
    + rewrite <- IH. split.
      * intros H y Hy. apply H. now right.
      * intros H y [<- | Hy]; [| now apply H].
        intros Hk. apply test_spec in Hk. congruence.
Qed.

Lemma filter_keyed (rows : list A) (r : A) :
  NoDup (map key_of rows) -> In r rows -> key_of r = k ->
  filter test rows = [r].
Proof.
  induction rows as [| x rows IH]; intros Hnd Hin Hk; [destruct Hin |].
  cbn in Hnd. apply NoDup_cons_iff in Hnd. destruct Hnd as [Hx Hnd].
  cbn. destruct Hin as [-> | Hin].
  - rewrite (proj2 (test_spec r) Hk). f_equal.
    apply filter_no_key. intros y Hy Hyk. apply Hx.
    rewrite Hk, <- Hyk. now apply in_map.
  - destruct (test x) eqn:Htx.
    + exfalso. apply Hx. apply test_spec in Htx.
      rewrite Htx, <- Hk. now apply in_map.
    + now apply IH.
Qed.

End Keyed.

Lemma stock_key_spec (product_id location_id : Z) (s : StockLevel.t) :
  ProductService.stock_key product_id location_id s = true
  <-> stock_key_of s = (product_id, location_id).
Proof.
  unfold ProductService.stock_key, stock_key_of.
  rewrite andb_true_iff, !Z.eqb_eq. split.
  - now intros [-> ->].
  - intros H. now injection H.
Qed.

Lemma conversion_key_spec (product_id : Z) (from_unit to_unit : string)
  (c : UnitConversion.t) :
  ProductService.conversion_key product_id from_unit to_unit c = true
  <-> conversion_key_of c = (product_id, from_unit, to_unit).
Proof.
  unfold ProductService.conversion_key, conversion_key_of.
  rewrite !andb_true_iff, Z.eqb_eq, !String.eqb_eq. split.
  - now intros [[-> ->] ->].
  - intros H. now injection H.
Qed.

Lemma stock_row_keyed (product_id location_id : Z) (db : Database)
  (s : StockLevel.t) :
  keyed_stock_levels db ->
  In s (stock_levels db) ->
  stock_key_of s = (product_id, location_id) ->
  stock_row product_id location_id db s.
Proof.
  apply (filter_keyed stock_key_of _ _ (stock_key_spec product_id location_id)).
Qed.

Lemma no_stock_row_iff (product_id location_id : Z) (db : Database) :
  no_stock_row product_id location_id db
  <-> forall s, In s (stock_levels db) ->
                stock_key_of s <> (product_id, location_id).
Proof.
  symmetry.
  apply (filter_no_key stock_key_of _ _
           (stock_key_spec product_id location_id)).
Qed.

Lemma conversion_row_keyed (product_id : Z) (from_unit to_unit : string)
  (db : Database) (c : UnitConversion.t) :
  keyed_conversions db ->
  In c (unit_conversions db) ->
  conversion_key_of c = (product_id, from_unit, to_unit) ->
  conversion_row product_id from_unit to_unit db c.
Proof.
  apply (filter_keyed conversion_key_of _ _
           (conversion_key_spec product_id from_unit to_unit)).
Qed.

Lemma no_conversion_row_iff (product_id : Z) (from_unit to_unit : string)
  (db : Database) :
  no_conversion_row product_id from_unit to_unit db
  <-> forall c, In c (unit_conversions db) ->
                conversion_key_of c <> (product_id, from_unit, to_unit).
Proof.
  symmetry.
  apply (filter_no_key conversion_key_of _ _
           (conversion_key_spec product_id from_unit to_unit)).
Qed.

(** ** The stock ledger *)

Section Ledger.

Variables (product_id location_id : Z).

Local Abbreviation select :=
  (ProductService.select_stock_level product_id location_id).
Local Abbreviation key :=
  (ProductService.stock_key product_id location_id).

Lemma get_stock_level_none (db : Database) :
  select db = [] ->
  ProductService.get_stock_level product_id location_id db = (Ok None, db).
Proof.
  intros H. unfold ProductService.get_stock_level, query. now rewrite H.
Qed.

Lemma get_stock_level_one (db : Database) (s : StockLevel.t) :
  select db = [s] ->
  ProductService.get_stock_level product_id location_id db = (Ok (Some s), db).
Proof.
  intros H. unfold ProductService.get_stock_level, query. now rewrite H.
Qed.

Lemma get_stock_level_many (db : Database) (a b : StockLevel.t) rest :
  select db = a :: b :: rest ->
  ProductService.get_stock_level product_id location_id db
  = (Raise MultipleResultsFound, db).
Proof.
  intros H. unfold ProductService.get_stock_level, query. now rewrite H.
Qed.

(** The only row under the key is the one the lookup returned. *)
Lemma select_one_inv (db : Database) (s s' : StockLevel.t) :
  select db = [s] -> In s' (stock_levels db) -> key s' = true -> s' = s.
Proof.
  intros H Hin Hk.
  assert (Hf : In s' (select db))
    by (apply filter_In; split; assumption).
  rewrite H in Hf. destruct Hf as [E | []]. now symmetry.
Qed.

Lemma select_one_in (db : Database) (s : StockLevel.t) :
  select db = [s] -> In s (stock_levels db) /\ key s = true.
Proof.
  intros H. apply (filter_In key). unfold ProductService.select_stock_level in H.
  rewrite H. now left.
Qed.

(** An update that keeps the key columns commutes with the selection. *)
Lemma select_update (f : StockLevel.t -> StockLevel.t) (db : Database) :
  (forall s, key (f s) = key s) ->
  select (ProductService.update_stock_level product_id location_id f db)
  = map f (select db).
Proof.
  intros Hf. unfold ProductService.select_stock_level,
    ProductService.update_stock_level, with_stock_levels. cbn.
  induction (stock_levels db) as [| s rows IH]; [reflexivity |].
  cbn. destruct (key s) eqn:Hk.
  - rewrite Hf, Hk. cbn. now rewrite IH.
  - rewrite Hk. exact IH.
Qed.

(** What each operation does when exactly one row is stored under the key. *)
Lemma reserve_stock_one (db : Database) (s : StockLevel.t) (q : Decimal) :
  select db = [s] ->
  ProductService.reserve_stock product_id location_id q db
  = if dec_lt (StockLevel.quantity s - StockLevel.reserved_quantity s)%Qc q
    then (Raise (InsufficientStockError
                   (Insufficient q (StockLevel.quantity s
                                    - StockLevel.reserved_quantity s)%Qc)),
          db)
    else (Ok true,
          ProductService.update_stock_level product_id location_id
            (fun s' => StockLevel.values (StockLevel.quantity s')
                         (StockLevel.reserved_quantity s + q)%Qc s') db).
Proof.
  intros H. unfold ProductService.reserve_stock, bind.
  rewrite (get_stock_level_one _ _ H).
  destruct (dec_lt _ q); reflexivity.
Qed.

Lemma release_reserved_stock_one (db : Database) (s : StockLevel.t)
  (q : Decimal) :
  select db = [s] ->
  ProductService.release_reserved_stock product_id location_id q db
  = (Ok true,
     ProductService.update_stock_level product_id location_id
       (fun s' => StockLevel.values (StockLevel.quantity s')
                    (py_max 0%Qc (StockLevel.reserved_quantity s - q)%Qc) s')
       db).
Proof.
  intros H. unfold ProductService.release_reserved_stock, bind.
  now rewrite (get_stock_level_one _ _ H).
Qed.

Lemma consume_stock_one (db : Database) (s : StockLevel.t) (q : Decimal) :
  select db = [s] ->
  ProductService.consume_stock product_id location_id q db
  = if dec_lt (StockLevel.quantity s - StockLevel.reserved_quantity s)%Qc q
    then (Raise (InsufficientStockError
                   (Insufficient q (StockLevel.quantity s
                                    - StockLevel.reserved_quantity s)%Qc)),
          db)
    else (Ok true,
          ProductService.update_stock_level product_id location_id
            (StockLevel.values
               (StockLevel.quantity s - q)%Qc
               (py_max 0%Qc (StockLevel.reserved_quantity s - q)%Qc)) db).
Proof.
  intros H. unfold ProductService.consume_stock, bind.
  rewrite (get_stock_level_one _ _ H).
  destruct (dec_lt _ q); reflexivity.
Qed.

Lemma consume_stock_none (db : Database) (q : Decimal) :
  select db = [] ->
  ProductService.consume_stock product_id location_id q db = (Ok false, db).
Proof.
  intros H. unfold ProductService.consume_stock, bind.
  now rewrite (get_stock_level_none _ H).
Qed.

Lemma release_reserved_stock_none (db : Database) (q : Decimal) :
  select db = [] ->
  ProductService.release_reserved_stock product_id location_id q db
  = (Ok false, db).
Proof.
  intros H. unfold ProductService.release_reserved_stock, bind.
  now rewrite (get_stock_level_none _ H).
Qed.

(** With several rows under the key the lookup raises and nothing is
    written, whatever the operation. *)
Lemma run_call_many (db : Database) (c : ledger_call) a b rest :
  select db = a :: b :: rest ->
  run_call product_id location_id c db = (Raise MultipleResultsFound, db).
Proof.
  intros H. destruct c; unfold run_call,
      ProductService.reserve_stock, ProductService.release_reserved_stock,
      ProductService.consume_stock, bind;
    now rewrite (get_stock_level_many _ _ _ _ H).
Qed.

Lemma run_call_none (db : Database) (c : ledger_call) :
  select db = [] -> snd (run_call product_id location_id c db) = db.
Proof.
  intros H. destruct c; unfold run_call,
      ProductService.reserve_stock, ProductService.release_reserved_stock,
      ProductService.consume_stock, bind;
    now rewrite (get_stock_level_none _ H).
Qed.

(** The rows under the key after an update are images of the row that was
    read. *)
Lemma key_invariant_update (db : Database) (s : StockLevel.t)
  (f : StockLevel.t -> StockLevel.t) :
  select db = [s] ->
  (forall s', key (f s') = key s') ->
  reservation_invariant (f s) ->
  key_invariant product_id location_id
    (ProductService.update_stock_level product_id location_id f db).
Proof.
  intros H Hf Hs s' Hin Hk.
  unfold ProductService.update_stock_level, with_stock_levels in Hin.
  cbn in Hin. apply in_map_iff in Hin. destruct Hin as [s0 [E Hin0]].
  destruct (key s0) eqn:Hk0.
  - rewrite (select_one_inv _ _ _ H Hin0 Hk0) in E. now subst s'.
  - subst s'. congruence.
Qed.

(** One call keeps the invariant, provided a reservation or a release does
    not carry a negative quantity. *)
Lemma run_call_invariant (db : Database) (c : ledger_call) :
  signed_call c ->
  key_invariant product_id location_id db ->
  key_invariant product_id location_id
    (snd (run_call product_id location_id c db)).
Proof.
  intros Hq Hinv.
  destruct (select db) as [| s [| s2 rest]] eqn:Hsel.
  - now rewrite run_call_none.
  - destruct (select_one_in _ _ Hsel) as [Hin Hk].
    pose proof (Hinv s Hin Hk) as Hs.
    destruct c as [q | q | q]; cbn [run_call signed_call] in Hq |- *.
    + rewrite (reserve_stock_one _ _ _ Hsel).
      destruct (dec_lt _ q) eqn:Hlt; cbn; [assumption |].
      apply dec_lt_false in Hlt.
      apply (key_invariant_update _ _ _ Hsel); [reflexivity |].
      cbn. dec_arith.
    + rewrite (release_reserved_stock_one _ _ _ Hsel). cbn.
      apply (key_invariant_update _ _ _ Hsel); [reflexivity |].
      cbn. dec_arith.
    + rewrite (consume_stock_one _ _ _ Hsel).
      destruct (dec_lt _ q) eqn:Hlt; cbn; [assumption |].
      apply dec_lt_false in Hlt.
      apply (key_invariant_update _ _ _ Hsel); [reflexivity |].
      cbn. dec_arith.
  - now rewrite (run_call_many _ _ _ _ _ Hsel).
Qed.

End Ledger.

(** C1, as stated, fails: the quantity of a call may be negative.  On a shelf
    with nothing on hand and nothing reserved, releasing -1 returns [True]
    and leaves 1 reserved against 0 on hand, and reserving -1 returns [True]
    and leaves -1 reserved. *)
Lemma reservation_invariant_negative_quantity :
  key_invariant 1 1 empty_shelf
  /\ run_calls 1 1 [Release (dec (-1))] empty_shelf
     = [(Ok true,
         mkDatabase [1]
           [StockLevel.mk 1 1 1 (dec 0) (dec 1) (dec 0) (dec 999999)]
           [] [] [])]
  /\ ~ Forall (fun r => key_invariant 1 1 (snd r))
         (run_calls 1 1 [Release (dec (-1))] empty_shelf)
  /\ run_calls 1 1 [Reserve (dec (-1))] empty_shelf
     = [(Ok true,
         mkDatabase [1]
           [StockLevel.mk 1 1 1 (dec 0) (dec (-1)) (dec 0) (dec 999999)]
           [] [] [])]
  /\ ~ Forall (fun r => key_invariant 1 1 (snd r))
         (run_calls 1 1 [Reserve (dec (-1))] empty_shelf).
Proof.
  split; [| split; [| split; [| split]]].
  - intros s [<- | []] _. split; vm_compute; discriminate.
  - reflexivity.
  - intros H. apply Forall_inv in H.
    destruct (H _ (or_introl eq_refl) eq_refl) as [_ Hle].
    vm_compute in Hle. now apply Hle.
  - reflexivity.
  - intros H. apply Forall_inv in H.
    destruct (H _ (or_introl eq_refl) eq_refl) as [Hle _].
    vm_compute in Hle. now apply Hle.
Qed.

(** C1 (amended): for every sequence of reserve_stock /
    release_reserved_stock / consume_stock calls on one key in which no
    reserve and no release carries a negative quantity, starting from rows
    with [0 <= reserved_quantity <= quantity], the rows under the key satisfy
    [0 <= reserved_quantity <= quantity] after every call, whether the call
    returned or raised. *)
Theorem reservation_invariant_preserved (product_id location_id : Z)
  (calls : list ledger_call) (db : Database) :
  Forall signed_call calls ->
  key_invariant product_id location_id db ->
  Forall (fun r => key_invariant product_id location_id (snd r))
         (run_calls product_id location_id calls db).
Proof.
  intros Hq. revert db.
  induction Hq as [| c rest Hc _ IH]; intros db Hinv; cbn [run_calls].
  - constructor.
  - pose proof (run_call_invariant _ _ _ _ Hc Hinv) as Hstep.
    constructor; [exact Hstep | exact (IH _ Hstep)].
Qed.

Lemma reservation_invariant_preserved_witness :
  Forall (fun r => key_invariant 1 1 (snd r))
         (run_calls 1 1 [Reserve (dec 4); Consume (dec 3); Release (dec 9);
                         Consume (dec 8); Consume (dec (-2))]
                    stocked_shelf).
Proof.
  apply reservation_invariant_preserved.
  - repeat constructor; vm_compute; discriminate.
  - intros s [<- | []] _. split; vm_compute; discriminate.
Defined.

Lemma py_max_over_release (r q : Decimal) :
  (r <= q)%Qc -> py_max 0%Qc (r - q)%Qc = 0%Qc.
Proof.
  intros H. unfold py_max.
  destruct (Qclt_le_dec 0 (r - q)) as [Hlt | _]; [| reflexivity].
  exfalso. dec_arith.
Qed.

Lemma py_max_release (r q : Decimal) :
  (q <= r)%Qc -> py_max 0%Qc (r - q)%Qc = (r - q)%Qc.
Proof.
  intros H. unfold py_max.
  destruct (Qclt_le_dec 0 (r - q)) as [_ | Hle]; [reflexivity |].
  apply Qc_is_canon. apply Qle_antisym; dec_arith.
Qed.

(** C7, as stated, fails: with no row under the key the function returns
    [False], not the [True] it returns when it has released something. *)
Lemma release_reserved_stock_missing_row :
  no_stock_row 1 1 no_shelf
  /\ ProductService.release_reserved_stock 1 1 (dec 1) no_shelf
     = (Ok false, no_shelf)
  /\ fst (ProductService.release_reserved_stock 1 1 (dec 1) no_shelf)
     <> Ok true.
Proof. repeat split. discriminate. Qed.

(** C7 (amended): release_reserved_stock never raises on a key with at most
    one row.  On the row of the key it returns [True] and sets
    [reserved_quantity] to [max(0, reserved_quantity - qty)], which is never
    negative, is zero on over-release and is the plain difference otherwise;
    [quantity] is untouched.  This is said of a new value the
    [Numeric(12, 4)] column holds as it is, such as the one computed from a
    stored value and a quantity of at most four decimals.  With no row under
    the key the method changes nothing and returns [False]. *)
Theorem release_reserved_stock_floor (product_id location_id : Z)
  (qty : Decimal) (db : Database) :
  (forall s,
      stock_row product_id location_id db s ->
      let new_reserved :=
        py_max 0%Qc (StockLevel.reserved_quantity s - qty)%Qc in
      numeric 12 4 new_reserved = true ->
      exists db',
        ProductService.release_reserved_stock product_id location_id qty db
        = (Ok true, db')
        /\ stock_row product_id location_id db'
             (StockLevel.values (StockLevel.quantity s) new_reserved s)
        /\ (0 <= new_reserved)%Qc
        /\ ((StockLevel.reserved_quantity s <= qty)%Qc ->
            new_reserved = 0%Qc)
        /\ ((qty <= StockLevel.reserved_quantity s)%Qc ->
            new_reserved = (StockLevel.reserved_quantity s - qty)%Qc))
  /\ (no_stock_row product_id location_id db ->
      ProductService.release_reserved_stock product_id location_id qty db
      = (Ok false, db)).
Proof.
  split.
  - intros s Hs new_reserved _. eexists. split.
    + exact (release_reserved_stock_one _ _ _ _ _ Hs).
    + split; [| split; [| split]].
      * unfold stock_row. rewrite select_update by reflexivity.
        unfold stock_row in Hs. rewrite Hs. reflexivity.
      * apply py_max_floor.
      * apply py_max_over_release.
      * apply py_max_release.
  - apply release_reserved_stock_none.
Qed.

Lemma release_reserved_stock_floor_witness :
  (exists db',
      ProductService.release_reserved_stock 1 1 (dec 3) stocked_shelf
      = (Ok true, db')
      /\ stock_row 1 1 db'
           (StockLevel.mk 1 1 1 (dec 10) (dec 0) (dec 0) (dec 999999)))
  /\ ProductService.release_reserved_stock 1 1 (dec 3) no_shelf
     = (Ok false, no_shelf).
Proof.
  split.
  - destruct (proj1 (release_reserved_stock_floor 1 1 (dec 3) stocked_shelf)
                _ (eq_refl : stock_row 1 1 stocked_shelf _) eq_refl)
      as [db' [Hrun [Hrow _]]].
    exists db'. split; [exact Hrun | exact Hrow].
  - apply (proj2 (release_reserved_stock_floor 1 1 (dec 3) no_shelf)).
    reflexivity.
Defined.

(** ** Unit conversion *)

Section Conversion.

Variables (product_id : Z) (from_unit to_unit : string).
Variables (quantity : Decimal) (db : Database).

Local Abbreviation convert :=
  (ProductService.convert_units product_id from_unit to_unit quantity db).

Lemma convert_units_direct (c : UnitConversion.t) :
  conversion_row product_id from_unit to_unit db c ->
  convert = (decimal_mul quantity (UnitConversion.conversion_factor c), db).
Proof.
  intros H. unfold ProductService.convert_units, bind, query.
  now rewrite H.
Qed.

Lemma convert_units_reverse (c : UnitConversion.t) :
  no_conversion_row product_id from_unit to_unit db ->
  conversion_row product_id to_unit from_unit db c ->
  convert = (decimal_div quantity (UnitConversion.conversion_factor c), db).
Proof.
  intros H H'. unfold ProductService.convert_units, bind, query.
  rewrite H. cbn. now rewrite H'.
Qed.

Lemma convert_units_no_row :
  no_conversion_row product_id from_unit to_unit db ->
  no_conversion_row product_id to_unit from_unit db ->
  convert = if String.eqb from_unit to_unit
            then (Ok quantity, db)
            else (Raise (InvalidOperationError from_unit to_unit), db).
Proof.
  intros H H'. unfold ProductService.convert_units, bind, query.
  rewrite H. cbn. rewrite H'. cbn.
  destruct (String.eqb from_unit to_unit); reflexivity.
Qed.






End Conversion.

(** C6, as stated, fails: the stored rows are looked up before the units are
    compared, so a row from a unit to itself is applied.  With glass -> glass
    stored at factor 2, converting 3 glasses to glasses returns 6. *)
Lemma convert_units_same_unit_stored_row :
  ProductService.convert_units 1 "glass" "glass" (dec 3) self_conversion
  = (Ok (dec 6), self_conversion)
  /\ dec 6 <> dec 3.
Proof. split; [decimal_eval | discriminate]. Qed.

(** C6 (amended): for every product_id and quantity, convert_units with
    from_unit == to_unit returns quantity unchanged when no conversion row
    from that unit to itself is stored for the product, whatever the other
    rows; when such a row is stored, its factor is applied like that of any
    direct row: the answer is that of Decimal's [quantity * factor]. *)
Theorem convert_units_same_unit (product_id : Z) (unit : string)
  (quantity : Decimal) (db : Database) :
  (no_conversion_row product_id unit unit db ->
   ProductService.convert_units product_id unit unit quantity db
   = (Ok quantity, db))
  /\ (forall c,
         conversion_row product_id unit unit db c ->
         ProductService.convert_units product_id unit unit quantity db
         = (decimal_mul quantity (UnitConversion.conversion_factor c), db)).
Proof.
  split.
  - intros H. rewrite (convert_units_no_row _ _ _ _ _ H H).
    now rewrite String.eqb_refl.
  - intros c. apply convert_units_direct.
Qed.

Lemma convert_units_same_unit_witness :
  ProductService.convert_units 1 "bottle" "bottle" (dec 3) six_glasses
  = (Ok (dec 3), six_glasses)
  /\ ProductService.convert_units 1 "glass" "glass" (dec 3) self_conversion
     = (decimal_mul (dec 3) (dec 2), self_conversion).
Proof.
  split.
  - apply (proj1 (convert_units_same_unit 1 "bottle" (dec 3) six_glasses)).
    reflexivity.
  - apply (proj2 (convert_units_same_unit 1 "glass" (dec 3) self_conversion)
             (UnitConversion.mk 1 1 "glass" "glass" (dec 2))).
    reflexivity.
Defined.



(** Twelve glasses are two bottles, and a third of a bottle has 28
    digits. *)
Lemma convert_units_rounds :
  ProductService.convert_units 1 "glass" "bottle" (dec 12) six_glasses
  = (Ok (dec 2), six_glasses)
  /\ ProductService.convert_units 1 "glass" "bottle" (dec 2) six_glasses
     = (Ok (Q2Qc (3333333333333333333333333333
                  # 10000000000000000000000000000)), six_glasses).
Proof. split; decimal_eval. Qed.

(** C9, as stated, fails at factor zero: bottle -> glass stored with factor
    0 and nothing stored from glass to bottle; 5 bottles convert to 0
    glasses, and converting back divides 0 by 0, which raises. *)
Lemma round_trip_zero_factor :
  conversion_row 1 "bottle" "glass" zero_factor
    (UnitConversion.mk 1 1 "bottle" "glass" (dec 0))
  /\ no_conversion_row 1 "glass" "bottle" zero_factor
  /\ round_trip 1 "bottle" "glass" (dec 5) zero_factor
     = (Raise DecimalInvalidOperation, zero_factor).
Proof. repeat split. Qed.

Section RoundTrip.

Variables (product_id : Z) (unit_a unit_b : string).
Variables (c : UnitConversion.t) (db : Database).

Hypothesis direct : conversion_row product_id unit_a unit_b db c.
Hypothesis no_reverse : no_conversion_row product_id unit_b unit_a db.
Hypothesis nonzero : UnitConversion.conversion_factor c <> 0%Qc.

Local Abbreviation f := (UnitConversion.conversion_factor c).

Lemma round_trip_unfold (q : Decimal) :
  round_trip product_id unit_a unit_b q db
  = match context_round (q * f)%Qc with
    | Ok there => (context_round (there / f)%Qc, db)
    | Raise e => (Raise e, db)
    end.
Proof.
  unfold round_trip, bind.
  rewrite (convert_units_direct _ _ _ q _ c direct). unfold decimal_mul.
  destruct (context_round (q * f)%Qc) as [there | e]; [| reflexivity].
  rewrite (convert_units_reverse _ _ _ there _ c no_reverse direct).
  now rewrite decimal_div_nonzero.
Qed.

(** Whatever the quantity, the way there and back overflows or returns
    within the tolerance. *)
Lemma round_trip_cases (q : Decimal) :
  round_trip product_id unit_a unit_b q db = (Raise DecimalOverflow, db)
  \/ exists r,
       round_trip product_id unit_a unit_b q db = (Ok r, db)
       /\ (Qabs (r - q) <= round_trip_tolerance q f)%Q.
Proof.
  rewrite round_trip_unfold.
  destruct (context_round (q * f)%Qc) as [there | e] eqn:H1.
  - destruct (context_round (there / f)%Qc) as [back | e] eqn:H2.
    + right. exists back. split; [reflexivity |].
      exact (round_trip_error q f there back nonzero H1 H2).
    + left. now rewrite (context_round_raises _ _ H2).
  - left. now rewrite (context_round_raises _ _ H1).
Qed.

Lemma round_trip_moderate (q : Decimal) :
  moderate q -> moderate f ->
  exists r,
    round_trip product_id unit_a unit_b q db = (Ok r, db)
    /\ (Qabs (r - q) <= (11 # 10) * pow10 (- 27) * Qabs q)%Q.
Proof.
  intros Hq Hf. rewrite round_trip_unfold.
  destruct (round_trip_returns q f Hq Hf) as [there [back [H1 [H2 E]]]].
  rewrite H1, H2. now exists back.
Qed.

Lemma round_trip_exact (q : Decimal) :
  context_round (q * f)%Qc = Ok (q * f)%Qc ->
  context_round q = Ok q ->
  round_trip product_id unit_a unit_b q db = (Ok q, db).
Proof.
  intros H1 H2. rewrite round_trip_unfold, H1.
  replace (q * f / f)%Qc with q
    by (unfold Decimal in *; field; exact nonzero).
  now rewrite H2.
Qed.

(** A product of 10^1000001 or more is beyond the exponent range. *)
Lemma round_trip_overflow (q : Decimal) :
  (pow10 1000001 <= Qabs (q * f))%Q ->
  round_trip product_id unit_a unit_b q db = (Raise DecimalOverflow, db).
Proof.
  intros H. rewrite round_trip_unfold.
  rewrite context_round_overflow; [reflexivity |].
  now rewrite this_mult.
Qed.

End RoundTrip.

(** The way back need not give the very quantity:
    9.999999999999999999999999999 bottles are 30.00000000000000000000000000
    glasses, 28 digits both, and these are 10 bottles. *)
Lemma round_trip_rounds :
  round_trip 1 "bottle" "glass"
    (Q2Qc (9999999999999999999999999999 # 1000000000000000000000000000))
    three_glasses
  = (Ok (dec 10), three_glasses).
Proof. decimal_eval. Qed.

(** C9 (amended): if the conversion row from unit A to unit B of a product
    is stored with a non-zero factor f and no row is stored from B to A,
    then converting A -> B multiplies by f and converting back B -> A
    divides by the same f through the reverse lookup, each rounded to the 28
    digits of the decimal context, and for every quantity q the way there
    and back returns q within rounding tolerance:
    - it returns q itself when q and q * f have 28 digits or fewer;
    - it returns r with |r - q| <= 1.1e-27 * |q| when q and f lie between
      1e-1000 and 1e1000 in magnitude;
    - whatever q, it returns r with
      |r - q| <= 1.1e-27 * |q| + 1e-1000026 * (1 + 1 / |f|), the second
      term being what an underflow can cost, unless the context overflows
      (decimal.Overflow). *)
Theorem round_trip_nonzero_factor (product_id : Z) (unit_a unit_b : string)
  (c : UnitConversion.t) (db : Database) (q : Decimal) :
  conversion_row product_id unit_a unit_b db c ->
  no_conversion_row product_id unit_b unit_a db ->
  UnitConversion.conversion_factor c <> 0%Qc ->
  let f := UnitConversion.conversion_factor c in
  ProductService.convert_units product_id unit_a unit_b q db
  = (decimal_mul q f, db)
  /\ (forall there,
         ProductService.convert_units product_id unit_b unit_a there db
         = (decimal_div there f, db))
  /\ (context_round (q * f)%Qc = Ok (q * f)%Qc ->
      context_round q = Ok q ->
      round_trip product_id unit_a unit_b q db = (Ok q, db))
  /\ (moderate q -> moderate f ->
      exists r,
        round_trip product_id unit_a unit_b q db = (Ok r, db)
        /\ (Qabs (r - q) <= (11 # 10) * pow10 (- 27) * Qabs q)%Q)
  /\ (round_trip product_id unit_a unit_b q db = (Raise DecimalOverflow, db)
      \/ exists r,
           round_trip product_id unit_a unit_b q db = (Ok r, db)
           /\ (Qabs (r - q) <= round_trip_tolerance q f)%Q).
Proof.
  intros Hab Hba Hf f.
  split; [exact (convert_units_direct _ _ _ q _ c Hab) |].
  split; [intros there; exact (convert_units_reverse _ _ _ there _ c Hba Hab) |].
  split; [now apply round_trip_exact |].
  split; [now apply round_trip_moderate |].
  now apply round_trip_cases.
Qed.

Lemma round_trip_nonzero_factor_witness :
  round_trip 1 "bottle" "glass" (dec 5) six_glasses = (Ok (dec 5), six_glasses).
Proof.
  apply (round_trip_nonzero_factor 1 "bottle" "glass"
           (UnitConversion.mk 1 1 "bottle" "glass" (dec 6)) six_glasses (dec 5)).
  - reflexivity.
  - reflexivity.
  - discriminate.
  - decimal_eval.
  - decimal_eval.
Defined.

(** ** The transaction state machine *)

Lemma terminal_status_not_pending (st : TransactionStatus) :
  terminal_status st -> status_eqb st PENDING = false.
Proof. intros [-> | [-> | ->]]; reflexivity. Qed.

Lemma status_eqb_pending (st : TransactionStatus) :
  status_eqb st PENDING = true <-> st = PENDING.
Proof. destruct st; cbn; split; congruence. Qed.

Section StateMachine.

Variables (now : datetime) (transaction_id : Z).

Lemma get_transaction_id (db : Database) (t : SaleTransaction.t) :
  TransactionService.get_transaction transaction_id db = Some t ->
  SaleTransaction.id t = transaction_id.
Proof.
  intros H. apply find_some in H. destruct H as [_ H]. now apply Z.eqb_eq.
Qed.

(** Saving an object under the key it was read with makes it the row that
    key returns. *)
Lemma get_transaction_save (db : Database) (t t' : SaleTransaction.t) :
  TransactionService.get_transaction transaction_id db = Some t ->
  SaleTransaction.id t' = transaction_id ->
  TransactionService.get_transaction transaction_id
    (TransactionService.save_transaction t' db)
  = Some t'.
Proof.
  unfold TransactionService.get_transaction,
    TransactionService.save_transaction, with_sale_transactions. cbn.
  intros H Hid. rewrite Hid.
  induction (sale_transactions db) as [| r rows IH]; [discriminate |].
  cbn in H |- *. destruct (SaleTransaction.id r =? transaction_id) eqn:E.
  - cbn. rewrite Hid, Z.eqb_refl. reflexivity.
  - cbn. rewrite E. exact (IH H).
Qed.

Lemma confirm_transaction_missing (db : Database) :
  TransactionService.get_transaction transaction_id db = None ->
  TransactionService.confirm_transaction now transaction_id db
  = (Raise (ValueError (TransactionDoesNotExist transaction_id)), db).
Proof.
  intros H. unfold TransactionService.confirm_transaction, bind, query.
  now rewrite H.
Qed.

Lemma confirm_transaction_not_pending (db : Database)
  (t : SaleTransaction.t) :
  TransactionService.get_transaction transaction_id db = Some t ->
  status_eqb (SaleTransaction.status t) PENDING = false ->
  TransactionService.confirm_transaction now transaction_id db
  = (Raise (ValueError (CannotConfirm (SaleTransaction.status t))), db).
Proof.
  intros H Hst. unfold TransactionService.confirm_transaction, bind, query.
  rewrite H. cbn. now rewrite Hst.
Qed.

Lemma cancel_transaction_not_pending (db : Database)
  (t : SaleTransaction.t) :
  TransactionService.get_transaction transaction_id db = Some t ->
  status_eqb (SaleTransaction.status t) PENDING = false ->
  TransactionService.cancel_transaction now transaction_id db
  = (Raise (ValueError (CannotCancel (SaleTransaction.status t))), db).
Proof.
  intros H Hst. unfold TransactionService.cancel_transaction, bind, query.
  rewrite H. cbn. now rewrite Hst.
Qed.

(** Confirming a pending transaction, by the outcome of [consume_stock]. *)
Lemma confirm_transaction_pending (db : Database) (t : SaleTransaction.t) :
  TransactionService.get_transaction transaction_id db = Some t ->
  SaleTransaction.status t = PENDING ->
  TransactionService.confirm_transaction now transaction_id db
  = match ProductService.consume_stock
            (SaleTransaction.product_id t) (SaleTransaction.location_id t)
            (SaleTransaction.converted_quantity t) db with
    | (Ok _, db') =>
        (Raise ValidationError,
         TransactionService.save_transaction
           (SaleTransaction.processed CONFIRMED now t) db')
    | (Raise (InsufficientStockError msg), db') =>
        (Raise (InsufficientStockError msg),
         TransactionService.save_transaction
           (SaleTransaction.processed FAILED now t) db')
    | (Raise e, db') => (Raise e, db')
    end.
Proof.
  intros H Hst.
  unfold TransactionService.confirm_transaction, bind, query, try_except,
    commit, ret, raise.
  rewrite H. cbv beta iota.
  rewrite (proj2 (status_eqb_pending _) Hst). cbv beta iota delta [negb].
  destruct (ProductService.consume_stock
              (SaleTransaction.product_id t) (SaleTransaction.location_id t)
              (SaleTransaction.converted_quantity t) db) as [[b | e] db'];
    [reflexivity |].
  destruct e; reflexivity.
Qed.

End StateMachine.

(** C2: once the status of a transaction is confirmed, cancelled or failed,
    confirm_transaction and cancel_transaction on it raise the ValueError
    "Cannot confirm/cancel transaction with status .." and leave the whole
    database as it was, the status of the transaction and the stock
    quantities included, so that every further call meets the same state.
    In particular, when a confirm has consumed converted_quantity = 4 from
    10 on hand (the call that goes through the consumption is the one that
    ends in the [ValidationError] of [from_orm], after its commits), 6 are
    on hand and the transaction is on record as confirmed, and every later
    confirm raises and leaves 6 on hand. *)
Theorem terminal_status_absorbing :
  (forall (db : Database) (now : datetime) (transaction_id : Z)
          (t : SaleTransaction.t),
      TransactionService.get_transaction transaction_id db = Some t ->
      terminal_status (SaleTransaction.status t) ->
      TransactionService.confirm_transaction now transaction_id db
      = (Raise (ValueError (CannotConfirm (SaleTransaction.status t))), db)
      /\ TransactionService.cancel_transaction now transaction_id db
         = (Raise (ValueError (CannotCancel (SaleTransaction.status t))), db))
  /\ (forall (db db' : Database) (now : datetime) (transaction_id : Z)
             (t : SaleTransaction.t) (s : StockLevel.t),
         TransactionService.get_transaction transaction_id db = Some t ->
         SaleTransaction.status t = PENDING ->
         SaleTransaction.converted_quantity t = dec 4 ->
         stock_row (SaleTransaction.product_id t)
                   (SaleTransaction.location_id t) db s ->
         StockLevel.quantity s = dec 10 ->
         TransactionService.confirm_transaction now transaction_id db
         = (Raise ValidationError, db') ->
         exists (s' : StockLevel.t) (r : SaleTransaction.t),
           stock_row (SaleTransaction.product_id t)
                     (SaleTransaction.location_id t) db' s'
           /\ StockLevel.quantity s' = dec 6
           /\ TransactionService.get_transaction transaction_id db' = Some r
           /\ SaleTransaction.status r = CONFIRMED
           /\ forall later : datetime,
               TransactionService.confirm_transaction later transaction_id db'
               = (Raise (ValueError (CannotConfirm CONFIRMED)), db')).
Proof.
  split.
  - intros db now transaction_id t Hget Hst.
    apply terminal_status_not_pending in Hst. split.
    + now apply confirm_transaction_not_pending.
    + now apply cancel_transaction_not_pending.
  - intros db db' now transaction_id t s Hget Hst Hconv Hrow Hq Hrun.
    rewrite (confirm_transaction_pending _ _ _ _ Hget Hst) in Hrun.
    rewrite (consume_stock_one _ _ _ _ _ Hrow) in Hrun.
    destruct (dec_lt _ _); [discriminate |].
    injection Hrun as <-.
    set (s' := StockLevel.values
                 (StockLevel.quantity s - SaleTransaction.converted_quantity t)%Qc
                 (py_max 0%Qc (StockLevel.reserved_quantity s
                               - SaleTransaction.converted_quantity t)%Qc) s).
    assert (Hget' :
             TransactionService.get_transaction transaction_id
               (TransactionService.save_transaction
                  (SaleTransaction.processed CONFIRMED now t)
                  (ProductService.update_stock_level
                     (SaleTransaction.product_id t)
                     (SaleTransaction.location_id t)
                     (StockLevel.values
                        (StockLevel.quantity s
                         - SaleTransaction.converted_quantity t)%Qc
                        (py_max 0%Qc
                           (StockLevel.reserved_quantity s
                            - SaleTransaction.converted_quantity t)%Qc)) db))
             = Some (SaleTransaction.processed CONFIRMED now t)).
    { apply get_transaction_save with (t := t); [exact Hget |].
      exact (get_transaction_id _ _ _ Hget). }
    exists s', (SaleTransaction.processed CONFIRMED now t).
    split; [| split; [| split; [| split]]].
    + unfold stock_row.
      change (ProductService.select_stock_level
                (SaleTransaction.product_id t) (SaleTransaction.location_id t)
                (ProductService.update_stock_level
                   (SaleTransaction.product_id t)
                   (SaleTransaction.location_id t)
                   (StockLevel.values
                      (StockLevel.quantity s
                       - SaleTransaction.converted_quantity t)%Qc
                      (py_max 0%Qc
                         (StockLevel.reserved_quantity s
                          - SaleTransaction.converted_quantity t)%Qc)) db)
              = [s']).
      rewrite select_update by reflexivity.
      unfold stock_row in Hrow. now rewrite Hrow.
    + subst s'. cbn. rewrite Hq, Hconv. reflexivity.
    + exact Hget'.
    + reflexivity.
    + intros later.
      exact (confirm_transaction_not_pending later _ _ _ Hget' eq_refl).
Qed.

Lemma terminal_status_absorbing_witness :
  (TransactionService.confirm_transaction 7 1 (shop FAILED 4)
   = (Raise (ValueError (CannotConfirm FAILED)), shop FAILED 4)
   /\ TransactionService.cancel_transaction 7 1 (shop FAILED 4)
      = (Raise (ValueError (CannotCancel FAILED)), shop FAILED 4))
  /\ exists (s' : StockLevel.t) (r : SaleTransaction.t),
      stock_row 1 1
        (snd (TransactionService.confirm_transaction 7 1 (shop PENDING 4))) s'
      /\ StockLevel.quantity s' = dec 6
      /\ TransactionService.get_transaction 1
           (snd (TransactionService.confirm_transaction 7 1 (shop PENDING 4)))
         = Some r
      /\ SaleTransaction.status r = CONFIRMED
      /\ forall later : datetime,
          TransactionService.confirm_transaction later 1
            (snd (TransactionService.confirm_transaction 7 1 (shop PENDING 4)))
          = (Raise (ValueError (CannotConfirm CONFIRMED)),
             snd (TransactionService.confirm_transaction 7 1
                    (shop PENDING 4))).
Proof.
  split.
  - apply (proj1 terminal_status_absorbing (shop FAILED 4) 7 1 (sale FAILED 4)).
    + reflexivity.
    + right. right. reflexivity.
  - apply (proj2 terminal_status_absorbing (shop PENDING 4) _ 7 1
             (sale PENDING 4)
             (StockLevel.mk 1 1 1 (dec 10) (dec 0) (dec 0) (dec 999999)));
      reflexivity.
Defined.

(** C3: confirm_transaction on a pending transaction whose
    converted_quantity exceeds the available stock of its row
    (quantity - reserved_quantity) raises InsufficientStockError to the
    caller, and the committed database holds the transaction with status
    failed and processed_at stamped with the time of the call; the stock rows
    are as before. *)
Theorem confirm_insufficient_stock (db : Database) (now : datetime)
  (transaction_id : Z) (t : SaleTransaction.t) (s : StockLevel.t) :
  TransactionService.get_transaction transaction_id db = Some t ->
  SaleTransaction.status t = PENDING ->
  stock_row (SaleTransaction.product_id t) (SaleTransaction.location_id t)
            db s ->
  (StockLevel.quantity s - StockLevel.reserved_quantity s
   < SaleTransaction.converted_quantity t)%Qc ->
  let failed := SaleTransaction.processed FAILED now t in
  let db' := TransactionService.save_transaction failed db in
  TransactionService.confirm_transaction now transaction_id db
  = (Raise (InsufficientStockError
              (Insufficient (SaleTransaction.converted_quantity t)
                 (StockLevel.quantity s - StockLevel.reserved_quantity s)%Qc)),
     db')
  /\ TransactionService.get_transaction transaction_id db' = Some failed
  /\ SaleTransaction.status failed = FAILED
  /\ SaleTransaction.processed_at failed = Some now
  /\ stock_levels db' = stock_levels db.
Proof.
  intros Hget Hst Hrow Hlt failed db'.
  split; [| split; [| repeat split]].
  - rewrite (confirm_transaction_pending _ _ _ _ Hget Hst).
    rewrite (consume_stock_one _ _ _ _ _ Hrow).
    now rewrite (proj2 (dec_lt_true _ _) Hlt).
  - apply get_transaction_save with (t := t); [exact Hget |].
    exact (get_transaction_id _ _ _ Hget).
Qed.

Lemma confirm_insufficient_stock_witness :
  TransactionService.confirm_transaction 7 1 (shop PENDING 11)
  = (Raise (InsufficientStockError
              (Insufficient (dec 11) (dec 10 - dec 0)%Qc)),
     TransactionService.save_transaction
       (SaleTransaction.processed FAILED 7 (sale PENDING 11))
       (shop PENDING 11))
  /\ TransactionService.get_transaction 1
       (TransactionService.save_transaction
          (SaleTransaction.processed FAILED 7 (sale PENDING 11))
          (shop PENDING 11))
     = Some (SaleTransaction.processed FAILED 7 (sale PENDING 11))
  /\ SaleTransaction.status
       (SaleTransaction.processed FAILED 7 (sale PENDING 11)) = FAILED
  /\ SaleTransaction.processed_at
       (SaleTransaction.processed FAILED 7 (sale PENDING 11)) = Some 7
  /\ stock_levels
       (TransactionService.save_transaction
          (SaleTransaction.processed FAILED 7 (sale PENDING 11))
          (shop PENDING 11))
     = stock_levels (shop PENDING 11).
Proof.
  apply (confirm_insufficient_stock (shop PENDING 11) 7 1 (sale PENDING 11)
           (StockLevel.mk 1 1 1 (dec 10) (dec 0) (dec 0) (dec 999999)));
    reflexivity.
Defined.

(** C10, on the code: when no StockLevel row is stored under the key of a
    pending transaction, consume_stock returns [False] without raising and
    writes nothing; confirm_transaction on that transaction then marks the
    transaction confirmed, stamps processed_at and commits, the stock table
    is as it was, and the call ends in the [ValidationError] of [from_orm]
    instead of returning the confirmed transaction.  A missing stock row is
    never reported as insufficient stock. *)
Theorem confirm_without_stock_row (db : Database) (now : datetime)
  (transaction_id : Z) (t : SaleTransaction.t) :
  TransactionService.get_transaction transaction_id db = Some t ->
  SaleTransaction.status t = PENDING ->
  no_stock_row (SaleTransaction.product_id t) (SaleTransaction.location_id t)
               db ->
  let confirmed := SaleTransaction.processed CONFIRMED now t in
  let db' := TransactionService.save_transaction confirmed db in
  ProductService.consume_stock
    (SaleTransaction.product_id t) (SaleTransaction.location_id t)
    (SaleTransaction.converted_quantity t) db
  = (Ok false, db)
  /\ TransactionService.confirm_transaction now transaction_id db
     = (Raise ValidationError, db')
  /\ TransactionService.get_transaction transaction_id db' = Some confirmed
  /\ SaleTransaction.status confirmed = CONFIRMED
  /\ SaleTransaction.processed_at confirmed = Some now
  /\ stock_levels db' = stock_levels db.
Proof.
  intros Hget Hst Hrow confirmed db'.
  pose proof (consume_stock_none _ _ _
                (SaleTransaction.converted_quantity t) Hrow) as Hconsume.
  split; [exact Hconsume |]. split; [| split; [| repeat split]].
  - rewrite (confirm_transaction_pending _ _ _ _ Hget Hst).
    now rewrite Hconsume.
  - apply get_transaction_save with (t := t); [exact Hget |].
    exact (get_transaction_id _ _ _ Hget).
Qed.

Lemma confirm_without_stock_row_witness :
  ProductService.consume_stock 1 1 (dec 4) shop_without_stock
  = (Ok false, shop_without_stock)
  /\ TransactionService.confirm_transaction 7 1 shop_without_stock
     = (Raise ValidationError,
        TransactionService.save_transaction
          (SaleTransaction.processed CONFIRMED 7 (sale PENDING 4))
          shop_without_stock)
  /\ TransactionService.get_transaction 1
       (TransactionService.save_transaction
          (SaleTransaction.processed CONFIRMED 7 (sale PENDING 4))
          shop_without_stock)
     = Some (SaleTransaction.processed CONFIRMED 7 (sale PENDING 4))
  /\ SaleTransaction.status
       (SaleTransaction.processed CONFIRMED 7 (sale PENDING 4)) = CONFIRMED
  /\ SaleTransaction.processed_at
       (SaleTransaction.processed CONFIRMED 7 (sale PENDING 4)) = Some 7
  /\ stock_levels
       (TransactionService.save_transaction
          (SaleTransaction.processed CONFIRMED 7 (sale PENDING 4))
          shop_without_stock)
     = stock_levels shop_without_stock.
Proof.
  apply (confirm_without_stock_row shop_without_stock 7 1 (sale PENDING 4));
    reflexivity.
Defined.

(** ** Creation of sale transactions *)

Section Create.

Variables (transaction_data : SaleTransactionCreate.t) (user_id : option Z).

Local Abbreviation event_id :=
  (SaleTransactionCreate.event_id transaction_data).

Lemma create_sale_transaction_existing (db : Database)
  (existing : SaleTransaction.t) :
  TransactionService.select_by_event_id event_id db = [existing] ->
  TransactionService.create_sale_transaction transaction_data user_id db
  = (Raise ValidationError, db).
Proof.
  intros H. unfold TransactionService.create_sale_transaction, bind, query.
  now rewrite H.
Qed.

Lemma create_sale_transaction_many (db : Database) a b rest :
  TransactionService.select_by_event_id event_id db = a :: b :: rest ->
  TransactionService.create_sale_transaction transaction_data user_id db
  = (Raise MultipleResultsFound, db).
Proof.
  intros H. unfold TransactionService.create_sale_transaction, bind, query.
  now rewrite H.
Qed.

Lemma create_sale_transaction_unknown_product (db : Database) :
  TransactionService.select_by_event_id event_id db = [] ->
  TransactionService.get_product
    (SaleTransactionCreate.product_id transaction_data) db = false ->
  TransactionService.create_sale_transaction transaction_data user_id db
  = (Raise (ValueError
              (ProductDoesNotExist
                 (SaleTransactionCreate.product_id transaction_data))), db).
Proof.
  intros H Hp. unfold TransactionService.create_sale_transaction, bind, query.
  rewrite H. unfold scalar_one_or_none. cbv beta iota. now rewrite Hp.
Qed.

Lemma create_sale_transaction_new (db : Database) :
  TransactionService.select_by_event_id event_id db = [] ->
  TransactionService.get_product
    (SaleTransactionCreate.product_id transaction_data) db = true ->
  let transaction :=
    new_transaction transaction_data user_id
      (next_id (map SaleTransaction.id (sale_transactions db))) in
  TransactionService.create_sale_transaction transaction_data user_id db
  = (Raise ValidationError,
     with_sale_transactions (sale_transactions db ++ [transaction]) db).
Proof.
  intros H Hp. unfold TransactionService.create_sale_transaction, bind, query.
  rewrite H. unfold scalar_one_or_none. cbv beta iota. rewrite Hp.
  reflexivity.
Qed.

(** No call returns: each ends in an exception. *)
Lemma create_sale_transaction_raises (db : Database) :
  exists e,
    fst (TransactionService.create_sale_transaction transaction_data user_id db)
    = Raise e.
Proof.
  destruct (TransactionService.select_by_event_id event_id db)
    as [| x [| x2 rest]] eqn:Hsel.
  - destruct (TransactionService.get_product
                (SaleTransactionCreate.product_id transaction_data) db)
      eqn:Hp.
    + rewrite (create_sale_transaction_new _ Hsel Hp). now eexists.
    + rewrite (create_sale_transaction_unknown_product _ Hsel Hp).
      now eexists.
  - rewrite (create_sale_transaction_existing _ _ Hsel). now eexists.
  - rewrite (create_sale_transaction_many _ _ _ _ Hsel). now eexists.
Qed.

(** After the insertion the event identifier selects exactly the new
    row. *)
Lemma select_by_event_id_inserted (db : Database) (id : Z) :
  TransactionService.select_by_event_id event_id db = [] ->
  TransactionService.select_by_event_id event_id
    (with_sale_transactions
       (sale_transactions db ++ [new_transaction transaction_data user_id id])
       db)
  = [new_transaction transaction_data user_id id].
Proof.
  intros Hsel.
  unfold TransactionService.select_by_event_id, with_sale_transactions
    in Hsel |- *.
  cbn [sale_transactions]. rewrite filter_app, Hsel. cbn.
  now rewrite String.eqb_refl.
Qed.

End Create.

(** C4, on the code: the first create_sale_transaction for an event_id (of
    a product in the catalog) inserts the pending record under a fresh id,
    commits it, and ends in the [ValidationError] of [from_orm]; a second
    call with the same event_id (whatever the rest of the payload and the
    user) finds that record and ends in the same exception.  Neither call
    returns a transaction.  The second call writes nothing: the record is
    the only one of its event and keeps its fields, and no call touches a
    stock row.  (The record is said to hold the amounts of the payload for a
    payload whose amounts its numeric columns hold as they are.) *)
Theorem create_sale_transaction_twice
  (transaction_data again : SaleTransactionCreate.t)
  (user_id user_id' : option Z) (db : Database) :
  storable_sale transaction_data = true ->
  TransactionService.select_by_event_id
    (SaleTransactionCreate.event_id transaction_data) db = [] ->
  TransactionService.get_product
    (SaleTransactionCreate.product_id transaction_data) db = true ->
  SaleTransactionCreate.event_id again
  = SaleTransactionCreate.event_id transaction_data ->
  let record :=
    new_transaction transaction_data user_id
      (next_id (map SaleTransaction.id (sale_transactions db))) in
  let db1 := with_sale_transactions (sale_transactions db ++ [record]) db in
  TransactionService.create_sale_transaction transaction_data user_id db
  = (Raise ValidationError, db1)
  /\ TransactionService.create_sale_transaction again user_id' db1
     = (Raise ValidationError, db1)
  /\ TransactionService.select_by_event_id
       (SaleTransactionCreate.event_id transaction_data) db1 = [record]
  /\ stock_levels db1 = stock_levels db.
Proof.
  intros _ Hsel Hp Hev record db1.
  pose proof (select_by_event_id_inserted transaction_data user_id db
                (next_id (map SaleTransaction.id (sale_transactions db))) Hsel)
    as Hsel1.
  fold record in Hsel1. fold db1 in Hsel1.
  split; [exact (create_sale_transaction_new _ _ _ Hsel Hp) |].
  split; [| split; [exact Hsel1 | reflexivity]].
  apply create_sale_transaction_existing with (existing := record).
  now rewrite Hev.
Qed.

Lemma create_sale_transaction_twice_witness :
  TransactionService.create_sale_transaction (sale_data "e1" 1 4) None
    stocked_shelf
  = (Raise ValidationError,
     with_sale_transactions [new_transaction (sale_data "e1" 1 4) None 1]
       stocked_shelf)
  /\ TransactionService.create_sale_transaction (sale_data "e1" 1 9) (Some 3)
       (with_sale_transactions [new_transaction (sale_data "e1" 1 4) None 1]
          stocked_shelf)
     = (Raise ValidationError,
        with_sale_transactions [new_transaction (sale_data "e1" 1 4) None 1]
          stocked_shelf)
  /\ TransactionService.select_by_event_id "e1"
       (with_sale_transactions [new_transaction (sale_data "e1" 1 4) None 1]
          stocked_shelf)
     = [new_transaction (sale_data "e1" 1 4) None 1]
  /\ stock_levels
       (with_sale_transactions [new_transaction (sale_data "e1" 1 4) None 1]
          stocked_shelf)
     = stock_levels stocked_shelf.
Proof.
  apply (create_sale_transaction_twice (sale_data "e1" 1 4)
           (sale_data "e1" 1 9) None (Some 3) stocked_shelf);
    reflexivity.
Defined.

(** ** Reconciliation *)

Lemma same_catalog_refl (db : Database) : same_catalog db db.
Proof. now repeat split. Qed.

Lemma same_catalog_trans (db1 db2 db3 : Database) :
  same_catalog db1 db2 -> same_catalog db2 db3 -> same_catalog db1 db3.
Proof.
  intros [H1 [H2 H3]] [H1' [H2' H3']]. repeat split; congruence.
Qed.

#[local] Hint Resolve same_catalog_refl : core.

(** [consume_stock] writes stock rows only. *)
Lemma consume_stock_effect (product_id location_id : Z) (q : Decimal)
  (db : Database) :
  let db' := snd (ProductService.consume_stock product_id location_id q db) in
  same_catalog db db' /\ sale_transactions db' = sale_transactions db.
Proof.
  destruct (ProductService.select_stock_level product_id location_id db)
    as [| s [| s2 rest]] eqn:Hsel; cbv zeta.
  - rewrite (consume_stock_none _ _ _ _ Hsel). cbn. auto.
  - rewrite (consume_stock_one _ _ _ _ _ Hsel).
    destruct (dec_lt _ q); cbn; auto. now repeat split.
  - change (ProductService.consume_stock product_id location_id q)
      with (run_call product_id location_id (Consume q)).
    rewrite (run_call_many _ _ _ _ _ _ _ Hsel). cbn. auto.
Qed.

Lemma event_recorded_save (e : string) (t t' : SaleTransaction.t)
  (db : Database) :
  In t (sale_transactions db) ->
  SaleTransaction.event_id t' = SaleTransaction.event_id t ->
  event_recorded e (TransactionService.save_transaction t' db) ->
  event_recorded e db.
Proof.
  intros Hin Hev [r [Hr He]].
  unfold TransactionService.save_transaction, with_sale_transactions in Hr.
  cbn in Hr. apply in_map_iff in Hr. destruct Hr as [r0 [E Hr0]].
  destruct (SaleTransaction.id r0 =? SaleTransaction.id t').
  - exists t. split; [exact Hin | congruence].
  - exists r0. split; [exact Hr0 | congruence].
Qed.

(** [confirm_transaction] writes stock rows and the row it confirms; it
    records no new event. *)
Lemma confirm_transaction_effect (now : datetime) (transaction_id : Z)
  (db : Database) :
  let db' :=
    snd (TransactionService.confirm_transaction now transaction_id db) in
  same_catalog db db'
  /\ forall e, event_recorded e db' -> event_recorded e db.
Proof.
  cbv zeta.
  destruct (TransactionService.get_transaction transaction_id db)
    as [t |] eqn:Hget.
  - destruct (status_eqb (SaleTransaction.status t) PENDING) eqn:Hst.
    + apply status_eqb_pending in Hst.
      rewrite (confirm_transaction_pending _ _ _ _ Hget Hst).
      pose proof (consume_stock_effect
                    (SaleTransaction.product_id t)
                    (SaleTransaction.location_id t)
                    (SaleTransaction.converted_quantity t) db) as Heff.
      cbv zeta in Heff.
      destruct (ProductService.consume_stock _ _ _ db) as [[b | ex] db1].
      * cbn in Heff |- *. destruct Heff as [Hcat Htx]. split.
        -- destruct Hcat as [? [? ?]]. now repeat split.
        -- intros e He.
           apply (event_recorded_save e t) in He; [| | reflexivity].
           ++ destruct He as [r [Hr He]]. exists r. split; congruence.
           ++ rewrite Htx. apply find_some in Hget. tauto.
      * assert (Hplain :
                 same_catalog db db1
                 /\ forall e, event_recorded e db1 -> event_recorded e db).
        { cbn in Heff. destruct Heff as [Hcat Htx]. split; [exact Hcat |].
          intros e [r [Hr He]]. exists r. split; congruence. }
        destruct ex; cbn; try exact Hplain.
        cbn in Heff. destruct Heff as [Hcat Htx]. split.
        -- destruct Hcat as [? [? ?]]. now repeat split.
        -- intros e He.
           apply (event_recorded_save e t) in He; [| | reflexivity].
           ++ destruct He as [r [Hr He]]. exists r. split; congruence.
           ++ rewrite Htx. apply find_some in Hget. tauto.
    + rewrite (confirm_transaction_not_pending _ _ _ _ Hget Hst). cbn.
      split; auto.
  - rewrite (confirm_transaction_missing _ _ _ Hget). cbn. split; auto.
Qed.

(** [create_sale_transaction] records at most the event of its payload. *)
Lemma create_sale_transaction_effect
  (transaction_data : SaleTransactionCreate.t) (user_id : option Z)
  (db : Database) :
  let db' :=
    snd (TransactionService.create_sale_transaction transaction_data user_id
           db) in
  same_catalog db db'
  /\ forall e,
      event_recorded e db' ->
      event_recorded e db \/ e = SaleTransactionCreate.event_id transaction_data.
Proof.
  cbv zeta.
  destruct (TransactionService.select_by_event_id
              (SaleTransactionCreate.event_id transaction_data) db)
    as [| x [| x2 rest]] eqn:Hsel.
  - destruct (TransactionService.get_product
                (SaleTransactionCreate.product_id transaction_data) db)
      eqn:Hp.
    + rewrite (create_sale_transaction_new _ _ _ Hsel Hp). cbn.
      split; [now repeat split |].
      intros e [r [Hr He]]. apply in_app_or in Hr.
      destruct Hr as [Hr | [<- | []]].
      * left. now exists r.
      * right. now rewrite <- He.
    + rewrite (create_sale_transaction_unknown_product _ _ _ Hsel Hp). cbn.
      split; auto.
  - rewrite (create_sale_transaction_existing _ _ _ _ Hsel). cbn.
    split; auto.
  - rewrite (create_sale_transaction_many _ _ _ _ _ _ Hsel). cbn.
    split; auto.
Qed.

Lemma reconcile_item_effect (now : datetime)
  (transaction_data : SaleTransactionCreate.t) (db : Database) :
  let db' :=
    snd (TransactionService.reconcile_item now transaction_data db) in
  same_catalog db db'
  /\ forall e,
      event_recorded e db' ->
      event_recorded e db \/ e = SaleTransactionCreate.event_id transaction_data.
Proof.
  cbv zeta.
  pose proof (create_sale_transaction_effect transaction_data None db)
    as Hcreate.
  cbv zeta in Hcreate.
  unfold TransactionService.reconcile_item, bind, ret.
  destruct (TransactionService.create_sale_transaction transaction_data None db)
    as [[t | ex] db1]; cbn [snd] in Hcreate; cbv beta iota;
    [| exact Hcreate].
  destruct (status_eqb (SaleTransaction.status t) PENDING);
    [| exact Hcreate].
  pose proof (confirm_transaction_effect now (SaleTransaction.id t) db1)
    as Hconfirm.
  cbv zeta in Hconfirm.
  destruct Hcreate as [Hc1 He1].
  destruct (TransactionService.confirm_transaction now (SaleTransaction.id t)
              db1) as [[r | ex] db2]; cbn [snd] in Hconfirm; cbv beta iota;
    cbn [snd]; destruct Hconfirm as [Hc2 He2];
    (split;
     [exact (same_catalog_trans _ _ _ Hc1 Hc2)
     | intros e He; apply He1; now apply He2]).
Qed.

Lemma select_by_event_id_unrecorded (e : string) (db : Database) :
  ~ event_recorded e db -> TransactionService.select_by_event_id e db = [].
Proof.
  intros H.
  destruct (TransactionService.select_by_event_id e db) as [| x rest] eqn:Hsel;
    [reflexivity |].
  exfalso. apply H. exists x.
  assert (Hin : In x (TransactionService.select_by_event_id e db))
    by (rewrite Hsel; now left).
  apply filter_In in Hin. destruct Hin as [Hin Heq].
  split; [exact Hin | now apply String.eqb_eq].
Qed.

Lemma count_cons (b o : bool) (outcomes : list bool) :
  count b (o :: outcomes)
  = (if Bool.eqb o b then 1 else 0) + count b outcomes.
Proof.
  unfold count. cbn [count_occ].
  destruct (bool_dec o b) as [E | N].
  - subst. rewrite Bool.eqb_reflx. lia.
  - destruct o, b; cbn; try lia; now contradiction N.
Qed.

Lemma count_total (outcomes : list bool) :
  count true outcomes + count false outcomes = Z.of_nat (List.length outcomes).
Proof.
  induction outcomes as [| o rest IH]; [reflexivity |].
  rewrite !count_cons. cbn [List.length]. destruct o; cbn [Bool.eqb]; lia.
Qed.

Lemma item_outcomes_length (utcnow : nat -> datetime)
  (transactions : list SaleTransactionCreate.t) :
  forall (n : nat) (db : Database),
    List.length (item_outcomes utcnow n transactions db) = List.length transactions.
Proof.
  induction transactions as [| d rest IH]; intros n db; cbn; [reflexivity |].
  now rewrite IH.
Qed.

(** The loop never raises; its counters are those of the outcomes. *)
Lemma reconcile_loop_counts (utcnow : nat -> datetime)
  (transactions : list SaleTransactionCreate.t) :
  forall (n : nat) (c : TransactionService.counters) (db : Database),
    TransactionService.reconcile_loop utcnow n transactions c db
    = (Ok (TransactionService.mkCounters
             (TransactionService.processed_count c
              + Z.of_nat (List.length transactions))
             (TransactionService.success_count c
              + count true (item_outcomes utcnow n transactions db))
             (TransactionService.failed_count c
              + count false (item_outcomes utcnow n transactions db))),
       after_items utcnow n transactions db).
Proof.
  induction transactions as [| d rest IH]; intros n c db.
  - cbn. unfold ret. destruct c. cbn. do 2 f_equal; f_equal; lia.
  - cbn [TransactionService.reconcile_loop item_outcomes after_items].
    unfold bind at 1. unfold try_except, bind, ret.
    destruct (TransactionService.reconcile_item (utcnow n) d db)
      as [[u | ex] db1]; cbn [fst snd returned]; rewrite IH;
      cbn [TransactionService.processed_count
             TransactionService.success_count
             TransactionService.failed_count];
      rewrite !count_cons; cbn [Bool.eqb List.length];
      do 2 f_equal; f_equal; lia.
Qed.

(** Batches run front to back: the outcomes of a batch followed by another
    are those of the first, then those of the second in the database the
    first has left. *)
Lemma item_outcomes_app (utcnow : nat -> datetime)
  (first second : list SaleTransactionCreate.t) :
  forall (n : nat) (db : Database),
    item_outcomes utcnow n (first ++ second) db
    = item_outcomes utcnow n first db
      ++ item_outcomes utcnow (n + List.length first) second
           (after_items utcnow n first db).
Proof.
  induction first as [| d rest IH]; intros n db; cbn.
  - now rewrite Nat.add_0_r.
  - rewrite IH. now rewrite Nat.add_succ_r.
Qed.

Lemma after_items_catalog (utcnow : nat -> datetime)
  (transactions : list SaleTransactionCreate.t) :
  forall (n : nat) (db : Database),
    same_catalog db (after_items utcnow n transactions db).
Proof.
  induction transactions as [| d rest IH]; intros n db; cbn [after_items].
  - apply same_catalog_refl.
  - eapply same_catalog_trans; [| apply IH].
    apply (reconcile_item_effect (utcnow n) d db).
Qed.

(** What [reconcile_transactions] returns and leaves behind. *)
Lemma reconcile_transactions_run (utcnow : nat -> datetime)
  (terminal_id : string) (start_time end_time : datetime)
  (transactions : list SaleTransactionCreate.t) (db : Database) :
  let log_id := next_id (map ReconciliationLog.id (reconciliation_logs db)) in
  let opened :=
    snd (TransactionService.open_log start_time end_time terminal_id db) in
  let outcomes := item_outcomes utcnow 0 transactions opened in
  let processed := Z.of_nat (List.length transactions) in
  let notes :=
    Some (Processed processed (count true outcomes) (count false outcomes)) in
  TransactionService.reconcile_transactions utcnow terminal_id start_time
    end_time transactions db
  = (Ok (ReconciliationResult.mk log_id processed (count true outcomes)
           (count false outcomes) "completed" notes),
     TransactionService.save_log
       (ReconciliationLog.mk log_id start_time end_time terminal_id processed
          (count true outcomes) (count false outcomes) "completed" notes)
       (after_items utcnow 0 transactions opened)).
Proof.
  cbv zeta.
  unfold TransactionService.reconcile_transactions.
  unfold bind at 1. unfold TransactionService.open_log at 1.
  unfold bind at 1. rewrite reconcile_loop_counts.
  reflexivity.
Qed.

(** The body of the loop never completes: the create it starts with ends in
    an exception. *)
Lemma reconcile_item_raises (now : datetime)
  (transaction_data : SaleTransactionCreate.t) (db : Database) :
  returned (fst (TransactionService.reconcile_item now transaction_data db))
  = false.
Proof.
  unfold TransactionService.reconcile_item, bind.
  destruct (create_sale_transaction_raises transaction_data None db)
    as [e He].
  destruct (TransactionService.create_sale_transaction transaction_data None db)
    as [[t | e'] db1]; cbn in He; [discriminate | reflexivity].
Qed.

Lemma item_outcomes_all_failed (utcnow : nat -> datetime)
  (transactions : list SaleTransactionCreate.t) :
  forall (n : nat) (db : Database),
    item_outcomes utcnow n transactions db
    = repeat false (List.length transactions).
Proof.
  induction transactions as [| d rest IH]; intros n db; cbn; [reflexivity |].
  now rewrite reconcile_item_raises, IH.
Qed.

Lemma count_repeat_false (n : nat) :
  count true (repeat false n) = 0 /\ count false (repeat false n) = Z.of_nat n.
Proof.
  induction n as [| n [IHt IHf]]; [split; reflexivity |].
  cbn [repeat]. rewrite !count_cons. cbn [Bool.eqb]. lia.
Qed.

(** C5, on the code: reconcile_transactions handles the items of the batch
    one after the other in submitted order, each in the database the
    previous one left; it never raises; processed_count is the number of
    items, failed_count the number of items on which the body raised,
    success_count the number on which it completed,
    processed_count = success_count + failed_count, and the log it commits
    has status completed and the same counters.  But the body raises on
    every item, since the create_sale_transaction it starts with never
    returns: success_count is 0 and failed_count is the number of items,
    whatever the batch. *)
Theorem reconcile_transactions_counts (utcnow : nat -> datetime)
  (terminal_id : string) (start_time end_time : datetime)
  (transactions : list SaleTransactionCreate.t) (db : Database) :
  let opened :=
    snd (TransactionService.open_log start_time end_time terminal_id db) in
  let outcomes := item_outcomes utcnow 0 transactions opened in
  let run :=
    TransactionService.reconcile_transactions utcnow terminal_id start_time
      end_time transactions db in
  exists result : ReconciliationResult.t,
    fst run = Ok result
    /\ ReconciliationResult.processed_count result
       = Z.of_nat (List.length transactions)
    /\ ReconciliationResult.success_count result = count true outcomes
    /\ ReconciliationResult.failed_count result = count false outcomes
    /\ ReconciliationResult.processed_count result
       = ReconciliationResult.success_count result
         + ReconciliationResult.failed_count result
    /\ ReconciliationResult.status result = "completed"%string
    /\ In (ReconciliationLog.mk
             (ReconciliationResult.reconciliation_id result)
             start_time end_time terminal_id
             (ReconciliationResult.processed_count result)
             (ReconciliationResult.success_count result)
             (ReconciliationResult.failed_count result)
             "completed"
             (ReconciliationResult.notes result))
          (reconciliation_logs (snd run))
    /\ (forall first second : list SaleTransactionCreate.t,
           transactions = first ++ second ->
           outcomes
           = item_outcomes utcnow 0 first opened
             ++ item_outcomes utcnow (List.length first) second
                  (after_items utcnow 0 first opened))
    /\ outcomes = repeat false (List.length transactions)
    /\ ReconciliationResult.success_count result = 0
    /\ ReconciliationResult.failed_count result
       = Z.of_nat (List.length transactions).
Proof.
  intros opened outcomes run.
  pose proof (reconcile_transactions_run utcnow terminal_id start_time
                end_time transactions db) as Hrun.
  cbv zeta in Hrun. fold opened in Hrun. fold outcomes in Hrun.
  fold run in Hrun.
  assert (Hout : outcomes = repeat false (List.length transactions))
    by apply item_outcomes_all_failed.
  destruct (count_repeat_false (List.length transactions)) as [Ht Hf].
  eexists. split; [rewrite Hrun; reflexivity |].
  cbn [ReconciliationResult.processed_count
         ReconciliationResult.success_count ReconciliationResult.failed_count
         ReconciliationResult.status ReconciliationResult.notes
         ReconciliationResult.reconciliation_id].
  split; [reflexivity |]. split; [reflexivity |]. split; [reflexivity |].
  split.
  { rewrite count_total. unfold outcomes.
    now rewrite item_outcomes_length. }
  split; [reflexivity |].
  split.
  { rewrite Hrun. cbn [snd].
    unfold TransactionService.save_log, with_reconciliation_logs.
    cbn [reconciliation_logs].
    destruct (after_items_catalog utcnow transactions 0 opened)
      as [_ [_ Hlogs]].
    rewrite Hlogs. unfold opened, TransactionService.open_log,
      with_reconciliation_logs.
    cbn [snd reconciliation_logs].
    apply in_map_iff.
    exists (ReconciliationLog.mk
              (next_id (map ReconciliationLog.id (reconciliation_logs db)))
              start_time end_time terminal_id 0 0 0 "running" None).
    split.
    - cbn [ReconciliationLog.id]. now rewrite Z.eqb_refl.
    - apply in_or_app. right. now left. }
  split.
  { intros first second ->. unfold outcomes.
    now rewrite item_outcomes_app. }
  split; [exact Hout |].
  rewrite Hout. split; [exact Ht | exact Hf].
Qed.

(** The batch of the example: five items, the third of a product that is
    not in the catalog.  All five are counted as failed. *)
Lemma reconcile_transactions_counts_witness :
  exists result : ReconciliationResult.t,
    fst (TransactionService.reconcile_transactions
           (fun n => 100 + Z.of_nat n) "T1" 0 60
           [sale_data "e1" 1 4; sale_data "e2" 1 4; sale_data "e3" 99 1;
            sale_data "e4" 1 1; sale_data "e5" 1 1]
           stocked_shelf)
    = Ok result
    /\ ReconciliationResult.processed_count result = 5
    /\ ReconciliationResult.failed_count result = 5
    /\ ReconciliationResult.success_count result = 0
    /\ ReconciliationResult.status result = "completed"%string.
Proof.
  destruct (reconcile_transactions_counts
              (fun n => 100 + Z.of_nat n) "T1" 0 60
              [sale_data "e1" 1 4; sale_data "e2" 1 4; sale_data "e3" 99 1;
               sale_data "e4" 1 1; sale_data "e5" 1 1]
              stocked_shelf)
    as [result [Hrun [Hp [_ [_ [_ [Hst [_ [_ [_ [Hs Hf]]]]]]]]]]].
  exists result. split; [exact Hrun |].
  split; [exact Hp |]. split; [exact Hf |]. split; [exact Hs | exact Hst].
Defined.

(** * Further properties of the services *)

(** ** The ledger: what a call writes *)

Lemma with_stock_levels_same (db : Database) :
  with_stock_levels (stock_levels db) db = db.
Proof. now destruct db. Qed.

Lemma map_update_proj {B : Type} (g : StockLevel.t -> B)
  (test : StockLevel.t -> bool) (f : StockLevel.t -> StockLevel.t)
  (rows : list StockLevel.t) :
  (forall s, g (f s) = g s) ->
  map g (map (fun s => if test s then f s else s) rows) = map g rows.
Proof.
  intros Hg. rewrite map_map. apply map_ext. intros s.
  destruct (test s); [apply Hg | reflexivity].
Qed.

Lemma filter_update_others (test : StockLevel.t -> bool)
  (f : StockLevel.t -> StockLevel.t) (rows : list StockLevel.t) :
  (forall s, test (f s) = test s) ->
  filter (fun s => negb (test s))
         (map (fun s => if test s then f s else s) rows)
  = filter (fun s => negb (test s)) rows.
Proof.
  intros Hf. induction rows as [| s rows IH]; [reflexivity |].
  cbn. destruct (test s) eqn:Hs.
  - rewrite Hf, Hs. exact IH.
  - rewrite Hs. cbn. now rewrite IH.
Qed.

(** The database a ledger call leaves is the one it found, or that one with
    the rows under the key given new [quantity] and [reserved_quantity]. *)
Lemma run_call_shape (product_id location_id : Z) (c : ledger_call)
  (db : Database) :
  snd (run_call product_id location_id c db) = db
  \/ exists f,
      (forall s, exists q r, f s = StockLevel.values q r s)
      /\ snd (run_call product_id location_id c db)
         = ProductService.update_stock_level product_id location_id f db.
Proof.
  destruct (ProductService.select_stock_level product_id location_id db)
    as [| s [| s2 rest]] eqn:Hsel.
  - left. now apply run_call_none.
  - destruct c as [q | q | q]; cbn [run_call].
    + rewrite (reserve_stock_one _ _ _ _ _ Hsel).
      destruct (dec_lt _ q); [now left | right].
      eexists. split; [| reflexivity]. intros s'. now eexists; eexists.
    + rewrite (release_reserved_stock_one _ _ _ _ _ Hsel). right.
      eexists. split; [| reflexivity]. intros s'. now eexists; eexists.
    + rewrite (consume_stock_one _ _ _ _ _ Hsel).
      destruct (dec_lt _ q); [now left | right].
      eexists. split; [| reflexivity]. intros s'. now eexists; eexists.
  - left. now rewrite (run_call_many _ _ _ _ _ _ _ Hsel).
Qed.

Lemma run_call_raise_unchanged (product_id location_id : Z) (c : ledger_call)
  (db : Database) (e : exn) :
  fst (run_call product_id location_id c db) = Raise e ->
  run_call product_id location_id c db = (Raise e, db).
Proof.
  destruct (ProductService.select_stock_level product_id location_id db)
    as [| s [| s2 rest]] eqn:Hsel.
  - destruct c as [q | q | q]; cbn [run_call].
    + unfold ProductService.reserve_stock, bind.
      rewrite (get_stock_level_none _ _ _ Hsel). cbn. now intros [= ->].
    + rewrite (release_reserved_stock_none _ _ _ _ Hsel). discriminate.
    + rewrite (consume_stock_none _ _ _ _ Hsel). discriminate.
  - destruct c as [q | q | q]; cbn [run_call].
    + rewrite (reserve_stock_one _ _ _ _ _ Hsel).
      destruct (dec_lt _ q); cbn; [now intros [= ->] | discriminate].
    + rewrite (release_reserved_stock_one _ _ _ _ _ Hsel). discriminate.
    + rewrite (consume_stock_one _ _ _ _ _ Hsel).
      destruct (dec_lt _ q); cbn; [now intros [= ->] | discriminate].
  - rewrite (run_call_many _ _ _ _ _ _ _ Hsel). cbn. now intros [= ->].
Qed.

(** X1: a reserve_stock, release_reserved_stock or consume_stock call that
    raises has written nothing: the database is the one it was called on. *)
Theorem ledger_raise_unchanged (product_id location_id : Z) (c : ledger_call)
  (db : Database) (e : exn) :
  fst (run_call product_id location_id c db) = Raise e ->
  run_call product_id location_id c db = (Raise e, db).
Proof. exact (run_call_raise_unchanged product_id location_id c db e). Qed.

Lemma ledger_raise_unchanged_witness :
  run_call 1 1 (Consume (dec 11)) stocked_shelf
  = (Raise (InsufficientStockError (Insufficient (dec 11) (dec 10 - dec 0)%Qc)),
     stocked_shelf).
Proof. apply ledger_raise_unchanged. reflexivity. Defined.

Lemma run_call_frame (product_id location_id : Z) (c : ledger_call)
  (db : Database) :
  let db' := snd (run_call product_id location_id c db) in
  filter (fun s => negb (ProductService.stock_key product_id location_id s))
         (stock_levels db')
  = filter (fun s => negb (ProductService.stock_key product_id location_id s))
           (stock_levels db)
  /\ map StockLevel.id (stock_levels db') = map StockLevel.id (stock_levels db)
  /\ map stock_key_of (stock_levels db') = map stock_key_of (stock_levels db)
  /\ map StockLevel.min_stock_level (stock_levels db')
     = map StockLevel.min_stock_level (stock_levels db)
  /\ map StockLevel.max_stock_level (stock_levels db')
     = map StockLevel.max_stock_level (stock_levels db)
  /\ products db' = products db
  /\ unit_conversions db' = unit_conversions db
  /\ sale_transactions db' = sale_transactions db
  /\ reconciliation_logs db' = reconciliation_logs db.
Proof.
  cbv zeta.
  destruct (run_call_shape product_id location_id c db) as [-> | [f [Hf ->]]].
  - now repeat split.
  - unfold ProductService.update_stock_level, with_stock_levels.
    cbn [stock_levels products unit_conversions sale_transactions
           reconciliation_logs].
    split.
    { apply filter_update_others. intros s.
      destruct (Hf s) as [q [r ->]]. reflexivity. }
    repeat split; apply map_update_proj; intros s;
      destruct (Hf s) as [q [r ->]]; reflexivity.
Qed.

(** X2: a ledger call on one key writes nothing but the [quantity] and
    [reserved_quantity] of the rows under that key: the rows under every
    other key, the number and order of the rows, their identifiers and
    keys, and the other tables are as before. *)
Theorem ledger_frame (product_id location_id : Z) (c : ledger_call)
  (db : Database) :
  let db' := snd (run_call product_id location_id c db) in
  filter (fun s => negb (ProductService.stock_key product_id location_id s))
         (stock_levels db')
  = filter (fun s => negb (ProductService.stock_key product_id location_id s))
           (stock_levels db)
  /\ map StockLevel.id (stock_levels db') = map StockLevel.id (stock_levels db)
  /\ map stock_key_of (stock_levels db') = map stock_key_of (stock_levels db)
  /\ map StockLevel.min_stock_level (stock_levels db')
     = map StockLevel.min_stock_level (stock_levels db)
  /\ map StockLevel.max_stock_level (stock_levels db')
     = map StockLevel.max_stock_level (stock_levels db)
  /\ products db' = products db
  /\ unit_conversions db' = unit_conversions db
  /\ sale_transactions db' = sale_transactions db
  /\ reconciliation_logs db' = reconciliation_logs db.
Proof. exact (run_call_frame product_id location_id c db). Qed.

Lemma cancel_transaction_missing (now : datetime) (transaction_id : Z)
  (db : Database) :
  TransactionService.get_transaction transaction_id db = None ->
  TransactionService.cancel_transaction now transaction_id db
  = (Raise (ValueError (TransactionDoesNotExist transaction_id)), db).
Proof.
  intros H. unfold TransactionService.cancel_transaction, bind, query.
  now rewrite H.
Qed.

(** Cancelling a pending transaction, by the outcome of
    [release_reserved_stock]. *)
Lemma cancel_transaction_pending (now : datetime) (transaction_id : Z)
  (db : Database) (t : SaleTransaction.t) :
  TransactionService.get_transaction transaction_id db = Some t ->
  SaleTransaction.status t = PENDING ->
  TransactionService.cancel_transaction now transaction_id db
  = match ProductService.release_reserved_stock
            (SaleTransaction.product_id t) (SaleTransaction.location_id t)
            (SaleTransaction.converted_quantity t) db with
    | (Ok _, db') =>
        (Raise ValidationError,
         TransactionService.save_transaction
           (SaleTransaction.processed CANCELLED now t) db')
    | (Raise e, db') => (Raise e, db')
    end.
Proof.
  intros H Hst.
  unfold TransactionService.cancel_transaction, bind, query, commit, ret,
    raise.
  rewrite H. cbv beta iota.
  rewrite (proj2 (status_eqb_pending _) Hst). cbv beta iota delta [negb].
  destruct (ProductService.release_reserved_stock
              (SaleTransaction.product_id t) (SaleTransaction.location_id t)
              (SaleTransaction.converted_quantity t) db) as [[b | e] db'];
    reflexivity.
Qed.

Lemma release_keeps_quantity (product_id location_id : Z) (q : Decimal)
  (db : Database) :
  map StockLevel.quantity
    (stock_levels
       (snd (ProductService.release_reserved_stock product_id location_id q
               db)))
  = map StockLevel.quantity (stock_levels db).
Proof.
  destruct (ProductService.select_stock_level product_id location_id db)
    as [| s [| s2 rest]] eqn:Hsel.
  - now rewrite (release_reserved_stock_none _ _ _ _ Hsel).
  - rewrite (release_reserved_stock_one _ _ _ _ _ Hsel). cbn.
    now apply map_update_proj.
  - change (ProductService.release_reserved_stock product_id location_id q)
      with (run_call product_id location_id (Release q)).
    now rewrite (run_call_many _ _ _ _ _ _ _ Hsel).
Qed.

(** X3: reserve_stock, release_reserved_stock and cancel_transaction never
    change the on-hand [quantity] of any stock row, whatever their arguments
    and outcome. *)
Theorem on_hand_untouched (product_id location_id : Z) (q : Decimal)
  (now : datetime) (transaction_id : Z) (db : Database) :
  map StockLevel.quantity
    (stock_levels
       (snd (ProductService.reserve_stock product_id location_id q db)))
  = map StockLevel.quantity (stock_levels db)
  /\ map StockLevel.quantity
       (stock_levels
          (snd (ProductService.release_reserved_stock product_id location_id
                  q db)))
     = map StockLevel.quantity (stock_levels db)
  /\ map StockLevel.quantity
       (stock_levels
          (snd (TransactionService.cancel_transaction now transaction_id db)))
     = map StockLevel.quantity (stock_levels db).
Proof.
  split; [| split].
  - destruct (ProductService.select_stock_level product_id location_id db)
      as [| s [| s2 rest]] eqn:Hsel.
    + change (ProductService.reserve_stock product_id location_id q)
        with (run_call product_id location_id (Reserve q)).
      now rewrite run_call_none.
    + rewrite (reserve_stock_one _ _ _ _ _ Hsel).
      destruct (dec_lt _ q); [reflexivity |]. cbn.
      now apply map_update_proj.
    + change (ProductService.reserve_stock product_id location_id q)
        with (run_call product_id location_id (Reserve q)).
      now rewrite (run_call_many _ _ _ _ _ _ _ Hsel).
  - apply release_keeps_quantity.
  - destruct (TransactionService.get_transaction transaction_id db)
      as [t |] eqn:Hget.
    + destruct (status_eqb (SaleTransaction.status t) PENDING) eqn:Hst.
      * apply status_eqb_pending in Hst.
        rewrite (cancel_transaction_pending _ _ _ _ Hget Hst).
        pose proof (release_keeps_quantity
                      (SaleTransaction.product_id t)
                      (SaleTransaction.location_id t)
                      (SaleTransaction.converted_quantity t) db) as Hrel.
        destruct (ProductService.release_reserved_stock _ _ _ db)
          as [[b | e] db']; exact Hrel.
      * now rewrite (cancel_transaction_not_pending _ _ _ _ Hget Hst).
    + now rewrite (cancel_transaction_missing _ _ _ Hget).
Qed.

(** X4: on the row of a key whose reserved quantity is not negative, a
    reservation that succeeds followed by the release of the same quantity
    gives back the database the reservation started from.  This is said of
    a reserved quantity that the [Numeric(12, 4)] column holds as it is,
    before and after the reservation. *)
Theorem reserve_then_release (product_id location_id : Z) (q : Decimal)
  (db : Database) (s : StockLevel.t) :
  stock_row product_id location_id db s ->
  (0 <= StockLevel.reserved_quantity s)%Qc ->
  (q <= StockLevel.quantity s - StockLevel.reserved_quantity s)%Qc ->
  numeric 12 4 (StockLevel.reserved_quantity s) = true ->
  numeric 12 4 (StockLevel.reserved_quantity s + q)%Qc = true ->
  (ProductService.reserve_stock product_id location_id q ;;
   ProductService.release_reserved_stock product_id location_id q) db
  = (Ok true, db).
Proof.
  intros Hrow Hres Hq _ _. unfold bind at 1.
  rewrite (reserve_stock_one _ _ _ _ _ Hrow).
  rewrite (proj2 (dec_lt_false _ _) Hq).
  set (db1 := ProductService.update_stock_level _ _ _ db).
  assert (Hrow1 : stock_row product_id location_id db1
                    (StockLevel.values (StockLevel.quantity s)
                       (StockLevel.reserved_quantity s + q)%Qc s)).
  { unfold stock_row, db1. rewrite select_update by reflexivity.
    unfold stock_row in Hrow. now rewrite Hrow. }
  rewrite (release_reserved_stock_one _ _ _ _ _ Hrow1). f_equal.
  cbn [StockLevel.reserved_quantity StockLevel.values].
  assert (Hback : py_max 0%Qc (StockLevel.reserved_quantity s + q - q)%Qc
                  = StockLevel.reserved_quantity s).
  { replace (StockLevel.reserved_quantity s + q - q)%Qc
      with (StockLevel.reserved_quantity s - 0)%Qc
      by (unfold Decimal in *; ring).
    rewrite py_max_release by exact Hres. unfold Decimal in *. ring. }
  rewrite Hback.
  unfold db1, ProductService.update_stock_level, with_stock_levels.
  cbn [stock_levels products unit_conversions sale_transactions
         reconciliation_logs].
  rewrite map_map.
  rewrite <- (with_stock_levels_same db) at 6.
  unfold with_stock_levels. f_equal.
  rewrite <- (map_id (stock_levels db)) at 2.
  apply map_ext_in. intros s' Hin.
  destruct (ProductService.stock_key product_id location_id s') eqn:Hk.
  - cbn.
    change (ProductService.stock_key product_id location_id
              (StockLevel.values (StockLevel.quantity s')
                 (StockLevel.reserved_quantity s + q)%Qc s'))
      with (ProductService.stock_key product_id location_id s').
    rewrite Hk, (select_one_inv _ _ _ _ _ Hrow Hin Hk).
    now destruct s.
  - now rewrite Hk.
Qed.

Lemma reserve_then_release_witness :
  (ProductService.reserve_stock 1 1 (dec 4) ;;
   ProductService.release_reserved_stock 1 1 (dec 4)) stocked_shelf
  = (Ok true, stocked_shelf).
Proof.
  apply (reserve_then_release 1 1 (dec 4) stocked_shelf
           (StockLevel.mk 1 1 1 (dec 10) (dec 0) (dec 0) (dec 999999)));
    [reflexivity | vm_compute; discriminate | vm_compute; discriminate
    | reflexivity | reflexivity].
Defined.

(** X5: consume_stock counts every reservation against the caller, its own
    included.  After a successful reservation of [q], consuming the same [q]
    succeeds when twice [q] was available before the reservation, and
    otherwise raises InsufficientStockError and leaves the reservation in
    place.  This is said of values written that the [Numeric(12, 4)]
    columns hold as they are. *)
Theorem reserve_then_consume (product_id location_id : Z) (q : Decimal)
  (db : Database) (s : StockLevel.t) :
  stock_row product_id location_id db s ->
  (q <= StockLevel.quantity s - StockLevel.reserved_quantity s)%Qc ->
  numeric 12 4 (StockLevel.reserved_quantity s + q)%Qc = true ->
  numeric 12 4 (StockLevel.quantity s - q)%Qc = true ->
  numeric 12 4
    (py_max 0%Qc (StockLevel.reserved_quantity s + q - q)%Qc) = true ->
  let reserved :=
    ProductService.update_stock_level product_id location_id
      (fun s' =>
         StockLevel.values (StockLevel.quantity s')
           (StockLevel.reserved_quantity s + q)%Qc s') db in
  let both :=
    (ProductService.reserve_stock product_id location_id q ;;
     ProductService.consume_stock product_id location_id q) db in
  ((StockLevel.quantity s - StockLevel.reserved_quantity s < q + q)%Qc ->
   both
   = (Raise (InsufficientStockError
               (Insufficient q
                  (StockLevel.quantity s
                   - (StockLevel.reserved_quantity s + q))%Qc)),
      reserved))
  /\ ((q + q <= StockLevel.quantity s - StockLevel.reserved_quantity s)%Qc ->
      fst both = Ok true
      /\ stock_row product_id location_id (snd both)
           (StockLevel.values
              (StockLevel.quantity s - q)%Qc
              (py_max 0%Qc (StockLevel.reserved_quantity s + q - q)%Qc) s)).
Proof.
  intros Hrow Hq _ _ _ reserved both.
  assert (Hrow1 : stock_row product_id location_id reserved
                    (StockLevel.values (StockLevel.quantity s)
                       (StockLevel.reserved_quantity s + q)%Qc s)).
  { unfold stock_row, reserved. rewrite select_update by reflexivity.
    unfold stock_row in Hrow. now rewrite Hrow. }
  assert (Hboth :
           both
           = ProductService.consume_stock product_id location_id q reserved).
  { unfold both, bind. rewrite (reserve_stock_one _ _ _ _ _ Hrow).
    now rewrite (proj2 (dec_lt_false _ _) Hq). }
  rewrite Hboth, (consume_stock_one _ _ _ _ _ Hrow1).
  cbn [StockLevel.quantity StockLevel.reserved_quantity StockLevel.values].
  split.
  - intros Hshort.
    assert (Hlt : dec_lt (StockLevel.quantity s
                          - (StockLevel.reserved_quantity s + q))%Qc q = true)
      by (apply dec_lt_true; dec_arith).
    now rewrite Hlt.
  - intros Henough.
    assert (Hlt : dec_lt (StockLevel.quantity s
                          - (StockLevel.reserved_quantity s + q))%Qc q = false)
      by (apply dec_lt_false; dec_arith).
    rewrite Hlt. split; [reflexivity |]. cbn [snd].
    unfold stock_row. rewrite select_update by reflexivity.
    unfold stock_row in Hrow1. rewrite Hrow1. reflexivity.
Qed.

Lemma reserve_then_consume_witness :
  (ProductService.reserve_stock 1 1 (dec 6) ;;
   ProductService.consume_stock 1 1 (dec 6)) stocked_shelf
  = (Raise (InsufficientStockError
              (Insufficient (dec 6) (dec 10 - (dec 0 + dec 6))%Qc)),
     ProductService.update_stock_level 1 1
       (fun s' =>
          StockLevel.values (StockLevel.quantity s') (dec 0 + dec 6)%Qc s')
       stocked_shelf).
Proof.
  apply (proj1 (reserve_then_consume 1 1 (dec 6) stocked_shelf
                  (StockLevel.mk 1 1 1 (dec 10) (dec 0) (dec 0) (dec 999999))
                  eq_refl ltac:(vm_compute; discriminate)
                  eq_refl eq_refl eq_refl)).
  reflexivity.
Defined.

(** X6: reserve_stock returns [True] exactly when the key has its row and
    the quantity does not exceed [quantity - reserved_quantity]; it then
    adds the quantity to [reserved_quantity] (said of a sum the
    [Numeric(12, 4)] column holds as it is).  With no row under the key it
    raises InsufficientStockError("Stock level not found"), where
    release_reserved_stock and consume_stock return [False]; with too little
    available it raises InsufficientStockError as well. *)
Theorem reserve_stock_outcome (product_id location_id : Z) (q : Decimal)
  (db : Database) :
  (fst (ProductService.reserve_stock product_id location_id q db) = Ok true
   <-> exists s,
        stock_row product_id location_id db s
        /\ (q <= StockLevel.quantity s - StockLevel.reserved_quantity s)%Qc)
  /\ (no_stock_row product_id location_id db ->
      ProductService.reserve_stock product_id location_id q db
      = (Raise (InsufficientStockError StockLevelNotFound), db))
  /\ (forall s,
         stock_row product_id location_id db s ->
         ((StockLevel.quantity s - StockLevel.reserved_quantity s < q)%Qc ->
          ProductService.reserve_stock product_id location_id q db
          = (Raise (InsufficientStockError
                      (Insufficient q
                         (StockLevel.quantity s
                          - StockLevel.reserved_quantity s)%Qc)), db))
         /\ ((q <= StockLevel.quantity s - StockLevel.reserved_quantity s)%Qc ->
             numeric 12 4 (StockLevel.reserved_quantity s + q)%Qc = true ->
             stock_row product_id location_id
               (snd (ProductService.reserve_stock product_id location_id q db))
               (StockLevel.values (StockLevel.quantity s)
                  (StockLevel.reserved_quantity s + q)%Qc s))).
Proof.
  assert (Hnone :
           no_stock_row product_id location_id db ->
           ProductService.reserve_stock product_id location_id q db
           = (Raise (InsufficientStockError StockLevelNotFound), db)).
  { intros H. unfold ProductService.reserve_stock, bind.
    now rewrite (get_stock_level_none _ _ _ H). }
  split; [| split; [exact Hnone |]].
  - destruct (ProductService.select_stock_level product_id location_id db)
      as [| s [| s2 rest]] eqn:Hsel.
    + rewrite (Hnone Hsel). cbn. split; [discriminate |].
      intros [s [Hs _]]. unfold stock_row in Hs. congruence.
    + rewrite (reserve_stock_one _ _ _ _ _ Hsel).
      destruct (dec_lt _ q) eqn:Hlt; cbn.
      * split; [discriminate |]. intros [s' [Hs' Hq]].
        unfold stock_row in Hs'. rewrite Hsel in Hs'. injection Hs' as <-.
        apply dec_lt_true in Hlt. exfalso. exact (Qclt_not_le _ _ Hlt Hq).
      * split; [intros _ | reflexivity]. exists s.
        split; [exact Hsel | now apply dec_lt_false].
    + change (ProductService.reserve_stock product_id location_id q)
        with (run_call product_id location_id (Reserve q)).
      rewrite (run_call_many _ _ _ _ _ _ _ Hsel). cbn.
      split; [discriminate |]. intros [s' [Hs' _]].
      unfold stock_row in Hs'. congruence.
  - intros s Hs. rewrite (reserve_stock_one _ _ _ _ _ Hs). split.
    + intros Hlt. now rewrite (proj2 (dec_lt_true _ _) Hlt).
    + intros Hq _. rewrite (proj2 (dec_lt_false _ _) Hq). cbn [snd].
      unfold stock_row. rewrite select_update by reflexivity.
      unfold stock_row in Hs. now rewrite Hs.
Qed.

Lemma reserve_stock_outcome_witness :
  ProductService.reserve_stock 1 1 (dec 4) no_shelf
  = (Raise (InsufficientStockError StockLevelNotFound), no_shelf)
  /\ ProductService.reserve_stock 1 1 (dec 11) stocked_shelf
     = (Raise (InsufficientStockError
                 (Insufficient (dec 11) (dec 10 - dec 0)%Qc)), stocked_shelf)
  /\ stock_row 1 1
       (snd (ProductService.reserve_stock 1 1 (dec 4) stocked_shelf))
       (StockLevel.mk 1 1 1 (dec 10) (dec 0 + dec 4)%Qc (dec 0) (dec 999999)).
Proof.
  split; [| split].
  - apply (proj1 (proj2 (reserve_stock_outcome 1 1 (dec 4) no_shelf))).
    reflexivity.
  - apply (proj1 (proj2 (proj2 (reserve_stock_outcome 1 1 (dec 11)
                                  stocked_shelf))
                    (StockLevel.mk 1 1 1 (dec 10) (dec 0) (dec 0) (dec 999999))
                    eq_refl)).
    reflexivity.
  - apply (proj2 (proj2 (proj2 (reserve_stock_outcome 1 1 (dec 4)
                                  stocked_shelf))
                    (StockLevel.mk 1 1 1 (dec 10) (dec 0) (dec 0) (dec 999999))
                    eq_refl)).
    + vm_compute. discriminate.
    + reflexivity.
Defined.

(** ** Declaring stock: create_stock_level *)

Lemma next_id_fresh (ids : list Z) (x : Z) : In x ids -> x < next_id ids.
Proof.
  unfold next_id. induction ids as [| y ids IH]; [intros [] |].
  cbn [fold_right In]. intros [-> | Hin]; [lia |]. specialize (IH Hin). lia.
Qed.

Lemma filter_map_commute {A : Type} (test : A -> bool) (g : A -> A)
  (rows : list A) :
  (forall s, test (g s) = test s) ->
  filter test (map g rows) = map g (filter test rows).
Proof.
  intros Hg. induction rows as [| s rows IH]; [reflexivity |].
  cbn. rewrite Hg. destruct (test s); cbn; now rewrite IH.
Qed.

Section CreateStockLevel.

Variable stock_data : StockLevelCreate.t.

Local Abbreviation product_id := (StockLevelCreate.product_id stock_data).
Local Abbreviation location_id := (StockLevelCreate.location_id stock_data).

Lemma create_stock_level_update (db : Database) (existing : StockLevel.t) :
  stock_row product_id location_id db existing ->
  ProductService.create_stock_level stock_data db
  = (Ok (ProductService.stock_values stock_data existing),
     ProductService.update_stock_level_by_id (StockLevel.id existing)
       (ProductService.stock_values stock_data) db).
Proof.
  intros H. unfold ProductService.create_stock_level, bind, query.
  unfold stock_row in H. now rewrite H.
Qed.

Lemma create_stock_level_insert (db : Database) :
  no_stock_row product_id location_id db ->
  let stock :=
    StockLevel.mk (next_id (map StockLevel.id (stock_levels db)))
      product_id location_id
      (StockLevelCreate.quantity stock_data)
      (StockLevelCreate.reserved_quantity stock_data)
      (StockLevelCreate.min_stock_level stock_data)
      (StockLevelCreate.max_stock_level stock_data) in
  ProductService.create_stock_level stock_data db
  = (Ok stock, with_stock_levels (stock_levels db ++ [stock]) db).
Proof.
  intros H. unfold ProductService.create_stock_level, bind, query.
  unfold no_stock_row in H. now rewrite H.
Qed.

Lemma create_stock_level_many (db : Database) a b rest :
  ProductService.select_stock_level product_id location_id db
  = a :: b :: rest ->
  ProductService.create_stock_level stock_data db
  = (Raise MultipleResultsFound, db).
Proof.
  intros H. unfold ProductService.create_stock_level, bind, query.
  now rewrite H.
Qed.

(** After a create that returned, the key selects exactly the returned
    row. *)
Lemma create_stock_level_selects (db db1 : Database) (r : StockLevel.t) :
  ProductService.create_stock_level stock_data db = (Ok r, db1) ->
  stock_row product_id location_id db1 r.
Proof.
  intros H.
  destruct (ProductService.select_stock_level product_id location_id db)
    as [| e [| e2 rest]] eqn:Hsel.
  - rewrite (create_stock_level_insert _ Hsel) in H. injection H as <- <-.
    unfold stock_row, ProductService.select_stock_level, with_stock_levels.
    cbn [stock_levels]. rewrite filter_app.
    unfold ProductService.select_stock_level in Hsel. rewrite Hsel.
    cbn. unfold ProductService.stock_key. cbn. now rewrite !Z.eqb_refl.
  - rewrite (create_stock_level_update _ _ Hsel) in H. injection H as <- <-.
    unfold stock_row, ProductService.select_stock_level,
      ProductService.update_stock_level_by_id, with_stock_levels.
    cbn [stock_levels].
    rewrite filter_map_commute
      by (intros s; destruct (StockLevel.id s =? StockLevel.id e);
          reflexivity).
    unfold ProductService.select_stock_level in Hsel. rewrite Hsel.
    cbn. now rewrite Z.eqb_refl.
  - rewrite (create_stock_level_many _ _ _ _ Hsel) in H. discriminate.
Qed.

End CreateStockLevel.

Lemma create_stock_level_row (stock_data : StockLevelCreate.t)
  (db db1 : Database) (r : StockLevel.t) :
  ProductService.create_stock_level stock_data db = (Ok r, db1) ->
  ProductService.get_stock_level
    (StockLevelCreate.product_id stock_data)
    (StockLevelCreate.location_id stock_data) db1
  = (Ok (Some r), db1)
  /\ StockLevel.product_id r = StockLevelCreate.product_id stock_data
  /\ StockLevel.location_id r = StockLevelCreate.location_id stock_data
  /\ StockLevel.quantity r = StockLevelCreate.quantity stock_data
  /\ StockLevel.reserved_quantity r
     = StockLevelCreate.reserved_quantity stock_data
  /\ StockLevel.min_stock_level r = StockLevelCreate.min_stock_level stock_data
  /\ StockLevel.max_stock_level r
     = StockLevelCreate.max_stock_level stock_data.
Proof.
  intros H.
  pose proof (create_stock_level_selects _ _ _ _ H) as Hrow.
  split; [now apply get_stock_level_one |].
  destruct (select_one_in _ _ _ _ Hrow) as [_ Hkey].
  apply stock_key_spec in Hkey. injection Hkey as Hp Hl.
  split; [exact Hp |]. split; [exact Hl |].
  destruct (ProductService.select_stock_level
              (StockLevelCreate.product_id stock_data)
              (StockLevelCreate.location_id stock_data) db)
    as [| e [| e2 rest]] eqn:Hsel.
  - rewrite (create_stock_level_insert _ _ Hsel) in H. injection H as <- _.
    now repeat split.
  - rewrite (create_stock_level_update _ _ _ Hsel) in H. injection H as <- _.
    now repeat split.
  - rewrite (create_stock_level_many _ _ _ _ _ Hsel) in H. discriminate.
Qed.

(** X7: when create_stock_level returns, the row it returns carries the key
    and the four quantities of the payload, and it is the one row
    get_stock_level finds under that key afterwards, whether the call
    inserted it or updated the row that was there.  This is said of a
    payload whose quantities the [Numeric(12, 4)] columns hold as they
    are. *)
Theorem create_stock_level_lookup (stock_data : StockLevelCreate.t)
  (db db1 : Database) (r : StockLevel.t) :
  storable_stock stock_data = true ->
  ProductService.create_stock_level stock_data db = (Ok r, db1) ->
  ProductService.get_stock_level
    (StockLevelCreate.product_id stock_data)
    (StockLevelCreate.location_id stock_data) db1
  = (Ok (Some r), db1)
  /\ StockLevel.product_id r = StockLevelCreate.product_id stock_data
  /\ StockLevel.location_id r = StockLevelCreate.location_id stock_data
  /\ StockLevel.quantity r = StockLevelCreate.quantity stock_data
  /\ StockLevel.reserved_quantity r
     = StockLevelCreate.reserved_quantity stock_data
  /\ StockLevel.min_stock_level r = StockLevelCreate.min_stock_level stock_data
  /\ StockLevel.max_stock_level r
     = StockLevelCreate.max_stock_level stock_data.
Proof. intros _. exact (create_stock_level_row stock_data db db1 r). Qed.

Lemma create_stock_level_lookup_witness :
  ProductService.get_stock_level 1 1
    (snd (ProductService.create_stock_level (declaration 25 3) stocked_shelf))
  = (Ok (Some (StockLevel.mk 1 1 1 (dec 25) (dec 3) (dec 0) (dec 999999))),
     snd (ProductService.create_stock_level (declaration 25 3) stocked_shelf))
  /\ ProductService.get_stock_level 1 1
       (snd (ProductService.create_stock_level (declaration 25 3) no_shelf))
     = (Ok (Some (StockLevel.mk 1 1 1 (dec 25) (dec 3) (dec 0) (dec 999999))),
        snd (ProductService.create_stock_level (declaration 25 3) no_shelf)).
Proof.
  split.
  - exact (proj1 (create_stock_level_lookup (declaration 25 3) stocked_shelf
                    _ _ eq_refl eq_refl)).
  - exact (proj1 (create_stock_level_lookup (declaration 25 3) no_shelf
                    _ _ eq_refl eq_refl)).
Defined.

(** X8: create_stock_level is idempotent: a second call with the same
    payload returns the same row and leaves the database as the first call
    left it. *)
Theorem create_stock_level_idempotent (stock_data : StockLevelCreate.t)
  (db db1 : Database) (r : StockLevel.t) :
  ProductService.create_stock_level stock_data db = (Ok r, db1) ->
  ProductService.create_stock_level stock_data db1 = (Ok r, db1).
Proof.
  intros H.
  pose proof (create_stock_level_selects _ _ _ _ H) as Hrow.
  rewrite (create_stock_level_update _ _ _ Hrow).
  assert (Hr : ProductService.stock_values stock_data r = r).
  { destruct (create_stock_level_row _ _ _ _ H)
      as [_ [_ [_ [Hq [Hre [Hmin Hmax]]]]]].
    unfold ProductService.stock_values.
    rewrite <- Hq, <- Hre, <- Hmin, <- Hmax. now destruct r. }
  rewrite Hr. f_equal.
  assert (Hrows :
           forall s, In s (stock_levels db1) ->
                     StockLevel.id s = StockLevel.id r ->
                     ProductService.stock_values stock_data s = s).
  { destruct (ProductService.select_stock_level
                (StockLevelCreate.product_id stock_data)
                (StockLevelCreate.location_id stock_data) db)
      as [| e [| e2 rest]] eqn:Hsel.
    - rewrite (create_stock_level_insert _ _ Hsel) in H.
      injection H as Hr' <-. cbn [stock_levels with_stock_levels].
      intros s Hin Hid. apply in_app_or in Hin.
      destruct Hin as [Hin | [<- | []]].
      + exfalso. apply (in_map StockLevel.id) in Hin.
        apply next_id_fresh in Hin. rewrite Hid, <- Hr' in Hin.
        cbn in Hin. lia.
      + now rewrite Hr'.
    - rewrite (create_stock_level_update _ _ _ Hsel) in H.
      injection H as Hr' <-.
      unfold ProductService.update_stock_level_by_id, with_stock_levels.
      cbn [stock_levels]. intros s Hin Hid.
      apply in_map_iff in Hin. destruct Hin as [s0 [<- _]].
      destruct (StockLevel.id s0 =? StockLevel.id e) eqn:E.
      + reflexivity.
      + exfalso. rewrite <- Hr' in Hid. cbn in Hid.
        apply Z.eqb_neq in E. now apply E.
    - rewrite (create_stock_level_many _ _ _ _ _ Hsel) in H. discriminate. }
  unfold ProductService.update_stock_level_by_id.
  assert (Hmap :
           map (fun s => if StockLevel.id s =? StockLevel.id r
                         then ProductService.stock_values stock_data s
                         else s) (stock_levels db1)
           = stock_levels db1).
  { rewrite <- (map_id (stock_levels db1)) at 2.
    apply map_ext_in. intros s Hin.
    destruct (StockLevel.id s =? StockLevel.id r) eqn:E; [| reflexivity].
    apply Hrows; [exact Hin | now apply Z.eqb_eq]. }
  rewrite Hmap. apply with_stock_levels_same.
Qed.

Lemma create_stock_level_idempotent_witness :
  ProductService.create_stock_level (declaration 25 3)
    (snd (ProductService.create_stock_level (declaration 25 3) no_shelf))
  = (Ok (StockLevel.mk 1 1 1 (dec 25) (dec 3) (dec 0) (dec 999999)),
     snd (ProductService.create_stock_level (declaration 25 3) no_shelf)).
Proof.
  apply (create_stock_level_idempotent (declaration 25 3) no_shelf).
  reflexivity.
Defined.

(** ** Unit conversion with both directions stored *)

(** X9: a direct row always wins over the reverse one.  When rows are
    stored in both directions between two units, each direction multiplies
    by the factor of its own row, and converting A -> B -> A multiplies the
    quantity by one factor and the result by the other, each product
    rounded by Decimal's [*]. *)
Theorem round_trip_both_rows (product_id : Z) (unit_a unit_b : string)
  (ab ba : UnitConversion.t) (db : Database) (q : Decimal) :
  conversion_row product_id unit_a unit_b db ab ->
  conversion_row product_id unit_b unit_a db ba ->
  ProductService.convert_units product_id unit_b unit_a q db
  = (decimal_mul q (UnitConversion.conversion_factor ba), db)
  /\ round_trip product_id unit_a unit_b q db
     = match decimal_mul q (UnitConversion.conversion_factor ab) with
       | Ok there =>
           (decimal_mul there (UnitConversion.conversion_factor ba), db)
       | Raise e => (Raise e, db)
       end.
Proof.
  intros Hab Hba. split.
  - now apply convert_units_direct.
  - unfold round_trip, bind.
    rewrite (convert_units_direct _ _ _ q _ ab Hab).
    destruct (decimal_mul q (UnitConversion.conversion_factor ab))
      as [there | e]; [| reflexivity].
    now rewrite (convert_units_direct _ _ _ _ _ ba Hba).
Qed.

Lemma round_trip_both_rows_witness :
  ProductService.convert_units 1 "glass" "bottle" (dec 5) two_way
  = (Ok (dec 10), two_way)
  /\ round_trip 1 "bottle" "glass" (dec 5) two_way = (Ok (dec 60), two_way).
Proof.
  destruct (round_trip_both_rows 1 "bottle" "glass"
              (UnitConversion.mk 1 1 "bottle" "glass" (dec 6))
              (UnitConversion.mk 2 1 "glass" "bottle" (dec 2)) two_way (dec 5)
              eq_refl eq_refl) as [Hback Hround].
  split.
  - rewrite Hback. decimal_eval.
  - rewrite Hround. decimal_eval.
Defined.

(** ** Confirming and cancelling *)

Lemma select_stock_level_save (product_id location_id : Z)
  (x : SaleTransaction.t) (db : Database) :
  ProductService.select_stock_level product_id location_id
    (TransactionService.save_transaction x db)
  = ProductService.select_stock_level product_id location_id db.
Proof. reflexivity. Qed.

Section Transitions.

Variables (now : datetime) (transaction_id : Z) (db : Database).
Variable t : SaleTransaction.t.

Hypothesis Hget : TransactionService.get_transaction transaction_id db = Some t.
Hypothesis Hpending : SaleTransaction.status t = PENDING.

Local Abbreviation product_id := (SaleTransaction.product_id t).
Local Abbreviation location_id := (SaleTransaction.location_id t).
Local Abbreviation converted := (SaleTransaction.converted_quantity t).

Lemma confirm_transaction_consumes (s : StockLevel.t) :
  stock_row product_id location_id db s ->
  (converted <= StockLevel.quantity s - StockLevel.reserved_quantity s)%Qc ->
  TransactionService.confirm_transaction now transaction_id db
  = (Raise ValidationError,
     TransactionService.save_transaction
       (SaleTransaction.processed CONFIRMED now t)
       (ProductService.update_stock_level product_id location_id
          (StockLevel.values
             (StockLevel.quantity s - converted)%Qc
             (py_max 0%Qc (StockLevel.reserved_quantity s - converted)%Qc))
          db)).
Proof.
  intros Hrow Hq.
  rewrite (confirm_transaction_pending _ _ _ _ Hget Hpending).
  rewrite (consume_stock_one _ _ _ _ _ Hrow).
  now rewrite (proj2 (dec_lt_false _ _) Hq).
Qed.

Lemma cancel_transaction_releases (s : StockLevel.t) :
  stock_row product_id location_id db s ->
  TransactionService.cancel_transaction now transaction_id db
  = (Raise ValidationError,
     TransactionService.save_transaction
       (SaleTransaction.processed CANCELLED now t)
       (ProductService.update_stock_level product_id location_id
          (fun s' =>
             StockLevel.values (StockLevel.quantity s')
               (py_max 0%Qc (StockLevel.reserved_quantity s - converted)%Qc)
               s')
          db)).
Proof.
  intros Hrow.
  rewrite (cancel_transaction_pending _ _ _ _ Hget Hpending).
  now rewrite (release_reserved_stock_one _ _ _ _ _ Hrow).
Qed.

Lemma cancel_transaction_no_row :
  no_stock_row product_id location_id db ->
  TransactionService.cancel_transaction now transaction_id db
  = (Raise ValidationError,
     TransactionService.save_transaction
       (SaleTransaction.processed CANCELLED now t) db).
Proof.
  intros Hrow.
  rewrite (cancel_transaction_pending _ _ _ _ Hget Hpending).
  now rewrite (release_reserved_stock_none _ _ _ _ Hrow).
Qed.

End Transitions.

(** The three ways a confirm of a pending transaction ends, and the two
    ways a cancel does. *)
Lemma confirm_pending_cases (now : datetime) (transaction_id : Z)
  (db : Database) (t : SaleTransaction.t) :
  TransactionService.get_transaction transaction_id db = Some t ->
  SaleTransaction.status t = PENDING ->
  let confirm :=
    TransactionService.confirm_transaction now transaction_id db in
  (exists db1,
      confirm
      = (Raise ValidationError,
         TransactionService.save_transaction
           (SaleTransaction.processed CONFIRMED now t) db1)
      /\ sale_transactions db1 = sale_transactions db)
  \/ (exists msg,
         confirm
         = (Raise (InsufficientStockError msg),
            TransactionService.save_transaction
              (SaleTransaction.processed FAILED now t) db))
  \/ confirm = (Raise MultipleResultsFound, db).
Proof.
  intros Hget Hst. cbv zeta.
  rewrite (confirm_transaction_pending _ _ _ _ Hget Hst).
  destruct (ProductService.select_stock_level
              (SaleTransaction.product_id t) (SaleTransaction.location_id t)
              db) as [| s [| s2 rest]] eqn:Hsel.
  - rewrite (consume_stock_none _ _ _ _ Hsel). left. now exists db.
  - rewrite (consume_stock_one _ _ _ _ _ Hsel).
    destruct (dec_lt _ _).
    + right. left. now eexists.
    + left. now eexists.
  - change (ProductService.consume_stock
              (SaleTransaction.product_id t) (SaleTransaction.location_id t)
              (SaleTransaction.converted_quantity t))
      with (run_call (SaleTransaction.product_id t)
              (SaleTransaction.location_id t)
              (Consume (SaleTransaction.converted_quantity t))).
    rewrite (run_call_many _ _ _ _ _ _ _ Hsel). now right; right.
Qed.

Lemma cancel_pending_cases (now : datetime) (transaction_id : Z)
  (db : Database) (t : SaleTransaction.t) :
  TransactionService.get_transaction transaction_id db = Some t ->
  SaleTransaction.status t = PENDING ->
  let cancel :=
    TransactionService.cancel_transaction now transaction_id db in
  (exists db1,
      cancel
      = (Raise ValidationError,
         TransactionService.save_transaction
           (SaleTransaction.processed CANCELLED now t) db1)
      /\ sale_transactions db1 = sale_transactions db)
  \/ cancel = (Raise MultipleResultsFound, db).
Proof.
  intros Hget Hst. cbv zeta.
  rewrite (cancel_transaction_pending _ _ _ _ Hget Hst).
  destruct (ProductService.select_stock_level
              (SaleTransaction.product_id t) (SaleTransaction.location_id t)
              db) as [| s [| s2 rest]] eqn:Hsel.
  - rewrite (release_reserved_stock_none _ _ _ _ Hsel). left. now exists db.
  - rewrite (release_reserved_stock_one _ _ _ _ _ Hsel). left. now eexists.
  - change (ProductService.release_reserved_stock
              (SaleTransaction.product_id t) (SaleTransaction.location_id t)
              (SaleTransaction.converted_quantity t))
      with (run_call (SaleTransaction.product_id t)
              (SaleTransaction.location_id t)
              (Release (SaleTransaction.converted_quantity t))).
    rewrite (run_call_many _ _ _ _ _ _ _ Hsel). now right.
Qed.

(** Neither transition returns: each ends in an exception. *)
Lemma confirm_transaction_raises (now : datetime) (transaction_id : Z)
  (db : Database) :
  exists e,
    fst (TransactionService.confirm_transaction now transaction_id db)
    = Raise e.
Proof.
  destruct (TransactionService.get_transaction transaction_id db)
    as [t |] eqn:Hget.
  - destruct (status_eqb (SaleTransaction.status t) PENDING) eqn:Hst.
    + apply status_eqb_pending in Hst.
      destruct (confirm_pending_cases now _ _ _ Hget Hst)
        as [[db1 [-> _]] | [[msg ->] | ->]]; now eexists.
    + rewrite (confirm_transaction_not_pending _ _ _ _ Hget Hst).
      now eexists.
  - rewrite (confirm_transaction_missing _ _ _ Hget). now eexists.
Qed.

Lemma cancel_transaction_raises (now : datetime) (transaction_id : Z)
  (db : Database) :
  exists e,
    fst (TransactionService.cancel_transaction now transaction_id db)
    = Raise e.
Proof.
  destruct (TransactionService.get_transaction transaction_id db)
    as [t |] eqn:Hget.
  - destruct (status_eqb (SaleTransaction.status t) PENDING) eqn:Hst.
    + apply status_eqb_pending in Hst.
      destruct (cancel_pending_cases now _ _ _ Hget Hst)
        as [[db1 [-> _]] | ->]; now eexists.
    + rewrite (cancel_transaction_not_pending _ _ _ _ Hget Hst).
      now eexists.
  - rewrite (cancel_transaction_missing _ _ _ Hget). now eexists.
Qed.

Lemma get_transaction_saved (transaction_id : Z) (db db1 : Database)
  (t t' : SaleTransaction.t) :
  TransactionService.get_transaction transaction_id db = Some t ->
  sale_transactions db1 = sale_transactions db ->
  SaleTransaction.id t' = SaleTransaction.id t ->
  TransactionService.get_transaction transaction_id
    (TransactionService.save_transaction t' db1)
  = Some t'.
Proof.
  intros Hget Htx Hid.
  apply get_transaction_save with (t := t).
  - unfold TransactionService.get_transaction in Hget |- *. now rewrite Htx.
  - rewrite Hid. exact (get_transaction_id _ _ _ Hget).
Qed.

(** X10: confirm_transaction on a pending transaction whose
    converted_quantity does not exceed the available stock of its row takes
    exactly converted_quantity off the row's [quantity], lowers its
    [reserved_quantity] by the same amount but not below zero, leaves the
    rows under every other key as they were, and commits the transaction
    confirmed and stamped; it then ends in the [ValidationError] of
    [from_orm] instead of returning the transaction.  This is said of new
    values that the [Numeric(12, 4)] columns hold as they are. *)
Theorem confirm_consumes_exactly (now : datetime) (transaction_id : Z)
  (db : Database) (t : SaleTransaction.t) (s : StockLevel.t) :
  TransactionService.get_transaction transaction_id db = Some t ->
  SaleTransaction.status t = PENDING ->
  stock_row (SaleTransaction.product_id t) (SaleTransaction.location_id t)
            db s ->
  (SaleTransaction.converted_quantity t
   <= StockLevel.quantity s - StockLevel.reserved_quantity s)%Qc ->
  numeric 12 4
    (StockLevel.quantity s - SaleTransaction.converted_quantity t)%Qc = true ->
  numeric 12 4
    (py_max 0%Qc
       (StockLevel.reserved_quantity s
        - SaleTransaction.converted_quantity t)%Qc) = true ->
  let confirmed := SaleTransaction.processed CONFIRMED now t in
  let run := TransactionService.confirm_transaction now transaction_id db in
  fst run = Raise ValidationError
  /\ TransactionService.get_transaction transaction_id (snd run)
     = Some confirmed
  /\ stock_row (SaleTransaction.product_id t) (SaleTransaction.location_id t)
       (snd run)
       (StockLevel.values
          (StockLevel.quantity s - SaleTransaction.converted_quantity t)%Qc
          (py_max 0%Qc
             (StockLevel.reserved_quantity s
              - SaleTransaction.converted_quantity t)%Qc) s)
  /\ filter (fun s' =>
               negb (ProductService.stock_key (SaleTransaction.product_id t)
                       (SaleTransaction.location_id t) s'))
            (stock_levels (snd run))
     = filter (fun s' =>
                 negb (ProductService.stock_key (SaleTransaction.product_id t)
                         (SaleTransaction.location_id t) s'))
              (stock_levels db).
Proof.
  intros Hget Hst Hrow Hq _ _ confirmed run. unfold run.
  rewrite (confirm_transaction_consumes _ _ _ _ Hget Hst _ Hrow Hq).
  cbn [fst snd]. split; [reflexivity |]. split; [| split].
  - apply get_transaction_save with (t := t); [exact Hget |].
    exact (get_transaction_id _ _ _ Hget).
  - unfold stock_row. rewrite select_stock_level_save.
    rewrite select_update by reflexivity.
    unfold stock_row in Hrow. now rewrite Hrow.
  - cbn. now apply filter_update_others.
Qed.

Lemma confirm_consumes_exactly_witness :
  let run := TransactionService.confirm_transaction 7 1 (shop PENDING 4) in
  fst run = Raise ValidationError
  /\ TransactionService.get_transaction 1 (snd run)
     = Some (SaleTransaction.processed CONFIRMED 7 (sale PENDING 4))
  /\ stock_row 1 1 (snd run)
       (StockLevel.mk 1 1 1 (dec 10 - dec 4)%Qc
          (py_max 0%Qc (dec 0 - dec 4)%Qc) (dec 0) (dec 999999)).
Proof.
  destruct (confirm_consumes_exactly 7 1 (shop PENDING 4) (sale PENDING 4)
              (StockLevel.mk 1 1 1 (dec 10) (dec 0) (dec 0) (dec 999999))
              eq_refl eq_refl eq_refl ltac:(vm_compute; discriminate)
              eq_refl eq_refl)
    as [Hrun [Hget [Hrow _]]].
  split; [exact Hrun |]. split; [exact Hget | exact Hrow].
Defined.

(** X11: confirm_transaction and cancel_transaction never return: every
    call ends in an exception, and the exception tells what has been
    written.  A confirm that ends in [ValidationError] found the
    transaction pending and has committed it as confirmed; one that ends in
    any other exception has changed no stock row.  A cancel that ends in
    [ValidationError] found the transaction pending and has committed it as
    cancelled; one that ends in any other exception has changed nothing at
    all.  A cancel never raises InsufficientStockError. *)
Theorem transition_exception_tells (now : datetime) (transaction_id : Z)
  (db : Database) :
  let confirm :=
    TransactionService.confirm_transaction now transaction_id db in
  let cancel :=
    TransactionService.cancel_transaction now transaction_id db in
  (exists e, fst confirm = Raise e)
  /\ (exists e, fst cancel = Raise e)
  /\ (fst confirm = Raise ValidationError ->
      exists t,
        TransactionService.get_transaction transaction_id db = Some t
        /\ SaleTransaction.status t = PENDING
        /\ TransactionService.get_transaction transaction_id (snd confirm)
           = Some (SaleTransaction.processed CONFIRMED now t))
  /\ (fst cancel = Raise ValidationError ->
      exists t,
        TransactionService.get_transaction transaction_id db = Some t
        /\ SaleTransaction.status t = PENDING
        /\ TransactionService.get_transaction transaction_id (snd cancel)
           = Some (SaleTransaction.processed CANCELLED now t))
  /\ (forall e,
         fst confirm = Raise e -> e <> ValidationError ->
         stock_levels (snd confirm) = stock_levels db)
  /\ (forall e,
         fst cancel = Raise e ->
         (e <> ValidationError -> cancel = (Raise e, db))
         /\ forall msg, e <> InsufficientStockError msg).
Proof.
  intros confirm cancel.
  split; [apply confirm_transaction_raises |].
  split; [apply cancel_transaction_raises |].
  unfold confirm, cancel. clear confirm cancel.
  destruct (TransactionService.get_transaction transaction_id db)
    as [t |] eqn:Hget.
  - destruct (status_eqb (SaleTransaction.status t) PENDING) eqn:Hst.
    + apply status_eqb_pending in Hst.
      split; [| split; [| split]].
      * destruct (confirm_pending_cases now _ _ _ Hget Hst)
          as [[db1 [-> Htx]] | [[msg ->] | ->]]; cbn [fst snd];
          [| discriminate | discriminate].
        intros _. exists t. split; [reflexivity |]. split; [exact Hst |].
        now apply get_transaction_saved with (db := db) (t := t).
      * destruct (cancel_pending_cases now _ _ _ Hget Hst)
          as [[db1 [-> Htx]] | ->]; cbn [fst snd]; [| discriminate].
        intros _. exists t. split; [reflexivity |]. split; [exact Hst |].
        now apply get_transaction_saved with (db := db) (t := t).
      * intros e.
        destruct (confirm_pending_cases now _ _ _ Hget Hst)
          as [[db1 [-> Htx]] | [[msg ->] | ->]]; cbn [fst snd].
        -- intros [= <-] Hne. now contradiction Hne.
        -- reflexivity.
        -- reflexivity.
      * intros e.
        destruct (cancel_pending_cases now _ _ _ Hget Hst)
          as [[db1 [-> Htx]] | ->]; cbn [fst snd]; intros [= <-].
        -- split; [intros Hne; now contradiction Hne | discriminate].
        -- split; [reflexivity | discriminate].
    + rewrite (confirm_transaction_not_pending _ _ _ _ Hget Hst).
      rewrite (cancel_transaction_not_pending _ _ _ _ Hget Hst). cbn.
      split; [discriminate |]. split; [discriminate |].
      split; [reflexivity |].
      intros e [= <-]. split; [reflexivity | discriminate].
  - rewrite (confirm_transaction_missing _ _ _ Hget).
    rewrite (cancel_transaction_missing _ _ _ Hget). cbn.
    split; [discriminate |]. split; [discriminate |].
    split; [reflexivity |].
    intros e [= <-]. split; [reflexivity | discriminate].
Qed.

Lemma transition_exception_tells_witness :
  stock_levels (snd (TransactionService.confirm_transaction 7 1
                       (shop PENDING 11)))
  = stock_levels (shop PENDING 11)
  /\ TransactionService.cancel_transaction 7 2 (shop PENDING 11)
     = (Raise (ValueError (TransactionDoesNotExist 2)), shop PENDING 11).
Proof.
  split.
  - apply (proj1 (proj2 (proj2 (proj2 (proj2
             (transition_exception_tells 7 1 (shop PENDING 11))))))
             (InsufficientStockError
                (Insufficient (dec 11) (dec 10 - dec 0)%Qc)));
      [reflexivity | discriminate].
  - apply (proj2 (proj2 (proj2 (proj2 (proj2
             (transition_exception_tells 7 2 (shop PENDING 11))))))
             (ValueError (TransactionDoesNotExist 2)));
      [reflexivity | discriminate].
Defined.

(** X12: cancel_transaction on a pending transaction commits it cancelled
    and stamped, and then ends in the [ValidationError] of [from_orm]
    instead of returning it.  It lowers the [reserved_quantity] of the row
    of its key by converted_quantity, not below zero (said of a new value
    the [Numeric(12, 4)] column holds as it is), although
    create_sale_transaction reserved nothing for it; with no row under the
    key it cancels all the same and touches no stock. *)
Theorem cancel_pending (now : datetime) (transaction_id : Z)
  (db : Database) (t : SaleTransaction.t) :
  TransactionService.get_transaction transaction_id db = Some t ->
  SaleTransaction.status t = PENDING ->
  let cancelled := SaleTransaction.processed CANCELLED now t in
  let run := TransactionService.cancel_transaction now transaction_id db in
  (no_stock_row (SaleTransaction.product_id t) (SaleTransaction.location_id t)
     db ->
   run
   = (Raise ValidationError,
      TransactionService.save_transaction cancelled db))
  /\ (forall s,
         stock_row (SaleTransaction.product_id t)
                   (SaleTransaction.location_id t) db s ->
         numeric 12 4
           (py_max 0%Qc
              (StockLevel.reserved_quantity s
               - SaleTransaction.converted_quantity t)%Qc) = true ->
         fst run = Raise ValidationError
         /\ TransactionService.get_transaction transaction_id (snd run)
            = Some cancelled
         /\ stock_row (SaleTransaction.product_id t)
              (SaleTransaction.location_id t) (snd run)
              (StockLevel.values (StockLevel.quantity s)
                 (py_max 0%Qc
                    (StockLevel.reserved_quantity s
                     - SaleTransaction.converted_quantity t)%Qc) s)).
Proof.
  intros Hget Hst cancelled run. unfold run. split.
  - now apply cancel_transaction_no_row.
  - intros s Hrow _.
    rewrite (cancel_transaction_releases _ _ _ _ Hget Hst _ Hrow).
    cbn [fst snd]. split; [reflexivity |]. split.
    + apply get_transaction_save with (t := t); [exact Hget |].
      exact (get_transaction_id _ _ _ Hget).
    + unfold stock_row. rewrite select_stock_level_save.
      rewrite select_update by reflexivity.
      unfold stock_row in Hrow. now rewrite Hrow.
Qed.

Lemma cancel_pending_witness :
  TransactionService.cancel_transaction 7 1 shop_without_stock
  = (Raise ValidationError,
     TransactionService.save_transaction
       (SaleTransaction.processed CANCELLED 7 (sale PENDING 4))
       shop_without_stock)
  /\ stock_row 1 1
       (snd (TransactionService.cancel_transaction 7 1 (shop PENDING 4)))
       (StockLevel.mk 1 1 1 (dec 10) (py_max 0%Qc (dec 0 - dec 4)%Qc)
          (dec 0) (dec 999999)).
Proof.
  split.
  - apply (proj1 (cancel_pending 7 1 shop_without_stock (sale PENDING 4)
                    eq_refl eq_refl)).
    reflexivity.
  - apply (proj2 (cancel_pending 7 1 (shop PENDING 4) (sale PENDING 4)
                    eq_refl eq_refl)
             (StockLevel.mk 1 1 1 (dec 10) (dec 0) (dec 0) (dec 999999))).
    + reflexivity.
    + reflexivity.
Defined.

(** ** Looking transactions up *)

Lemma find_by_id_appended (rows : list SaleTransaction.t)
  (r : SaleTransaction.t) :
  ~ In (SaleTransaction.id r) (map SaleTransaction.id rows) ->
  find (fun t => SaleTransaction.id t =? SaleTransaction.id r) (rows ++ [r])
  = Some r.
Proof.
  induction rows as [| x rows IH]; intros Hfresh; cbn.
  - now rewrite Z.eqb_refl.
  - destruct (SaleTransaction.id x =? SaleTransaction.id r) eqn:E.
    + exfalso. apply Hfresh. left. now apply Z.eqb_eq.
    + apply IH. intros Hin. apply Hfresh. now right.
Qed.

Lemma next_id_not_in (ids : list Z) : ~ In (next_id ids) ids.
Proof. intros H. apply next_id_fresh in H. lia. Qed.

(** X13: get_transaction_by_event_id answers [None] for an event
    identifier that is on no record; for one that is on a record it ends in
    the [ValidationError] of [from_orm] and never returns the record (in
    MultipleResultsFound when the event is on several records).  It writes
    nothing.  In particular the event of a transaction that
    create_sale_transaction has just stored is not given back. *)
Theorem get_transaction_by_event_id_answers
  (transaction_data : SaleTransactionCreate.t) (user_id : option Z)
  (db : Database) (other : string) :
  TransactionService.select_by_event_id
    (SaleTransactionCreate.event_id transaction_data) db = [] ->
  TransactionService.get_product
    (SaleTransactionCreate.product_id transaction_data) db = true ->
  let db1 :=
    snd (TransactionService.create_sale_transaction transaction_data user_id
           db) in
  TransactionService.get_transaction_by_event_id
    (SaleTransactionCreate.event_id transaction_data) db
  = (Ok None, db)
  /\ TransactionService.get_transaction_by_event_id
       (SaleTransactionCreate.event_id transaction_data) db1
     = (Raise ValidationError, db1)
  /\ (~ event_recorded other db1 ->
      TransactionService.get_transaction_by_event_id other db1
      = (Ok None, db1))
  /\ (forall t,
         TransactionService.select_by_event_id other db1 = [t] ->
         TransactionService.get_transaction_by_event_id other db1
         = (Raise ValidationError, db1))
  /\ (forall a b rest,
         TransactionService.select_by_event_id other db1 = a :: b :: rest ->
         TransactionService.get_transaction_by_event_id other db1
         = (Raise MultipleResultsFound, db1)).
Proof.
  intros Hsel Hp db1.
  unfold TransactionService.get_transaction_by_event_id, bind, query.
  split; [now rewrite Hsel |]. split; [| split; [| split]].
  - unfold db1. rewrite (create_sale_transaction_new _ _ _ Hsel Hp).
    cbn [snd]. now rewrite select_by_event_id_inserted.
  - intros Hother. now rewrite (select_by_event_id_unrecorded _ _ Hother).
  - intros t Ht. now rewrite Ht.
  - intros a b rest Hmany. now rewrite Hmany.
Qed.

Lemma get_transaction_by_event_id_answers_witness :
  TransactionService.get_transaction_by_event_id "e1" stocked_shelf
  = (Ok None, stocked_shelf)
  /\ TransactionService.get_transaction_by_event_id "e1"
       (snd (TransactionService.create_sale_transaction (sale_data "e1" 1 4)
               None stocked_shelf))
     = (Raise ValidationError,
        snd (TransactionService.create_sale_transaction (sale_data "e1" 1 4)
               None stocked_shelf)).
Proof.
  destruct (get_transaction_by_event_id_answers (sale_data "e1" 1 4)
              None stocked_shelf "e2" eq_refl eq_refl)
    as [Hbefore [Hafter _]].
  split; [exact Hbefore | exact Hafter].
Defined.

Lemma create_sale_transaction_by_id (transaction_data : SaleTransactionCreate.t)
  (user_id : option Z) (db : Database) :
  NoDup (map SaleTransaction.id (sale_transactions db)) ->
  TransactionService.select_by_event_id
    (SaleTransactionCreate.event_id transaction_data) db = [] ->
  TransactionService.get_product
    (SaleTransactionCreate.product_id transaction_data) db = true ->
  let id := next_id (map SaleTransaction.id (sale_transactions db)) in
  let db1 :=
    snd (TransactionService.create_sale_transaction transaction_data user_id
           db) in
  ~ In id (map SaleTransaction.id (sale_transactions db))
  /\ TransactionService.get_transaction id db1
     = Some (new_transaction transaction_data user_id id)
  /\ NoDup (map SaleTransaction.id (sale_transactions db1)).
Proof.
  intros Hnd Hsel Hp id db1. unfold db1.
  rewrite (create_sale_transaction_new _ _ _ Hsel Hp). cbn [snd].
  split; [apply next_id_not_in |].
  unfold TransactionService.get_transaction, with_sale_transactions.
  cbn [sale_transactions]. split.
  - apply (find_by_id_appended (sale_transactions db)
             (new_transaction transaction_data user_id id)).
    cbn. apply next_id_not_in.
  - rewrite map_app. cbn.
    apply NoDup_app; [exact Hnd | repeat constructor; intros [] |].
    intros x Hx [<- | []]. now apply next_id_not_in in Hx.
Qed.

(** X14: when the primary keys of the sale transactions are distinct, the
    record create_sale_transaction inserts is stored under a key that was
    not in use, [db.get] on that key gives the record (which is how
    confirm_transaction would reach it), and the keys are still distinct
    afterwards.  This is said of a payload whose amounts the numeric
    columns of the record hold as they are. *)
Theorem create_sale_transaction_stores (transaction_data : SaleTransactionCreate.t)
  (user_id : option Z) (db : Database) :
  storable_sale transaction_data = true ->
  NoDup (map SaleTransaction.id (sale_transactions db)) ->
  TransactionService.select_by_event_id
    (SaleTransactionCreate.event_id transaction_data) db = [] ->
  TransactionService.get_product
    (SaleTransactionCreate.product_id transaction_data) db = true ->
  let id := next_id (map SaleTransaction.id (sale_transactions db)) in
  let db1 :=
    snd (TransactionService.create_sale_transaction transaction_data user_id
           db) in
  ~ In id (map SaleTransaction.id (sale_transactions db))
  /\ TransactionService.get_transaction id db1
     = Some (new_transaction transaction_data user_id id)
  /\ NoDup (map SaleTransaction.id (sale_transactions db1)).
Proof.
  intros _. exact (create_sale_transaction_by_id transaction_data user_id db).
Qed.

Lemma create_sale_transaction_stores_witness :
  TransactionService.get_transaction 2
    (snd (TransactionService.create_sale_transaction (sale_data "e2" 1 4) None
            (shop CONFIRMED 4)))
  = Some (new_transaction (sale_data "e2" 1 4) None 2).
Proof.
  refine (proj1 (proj2 (create_sale_transaction_stores (sale_data "e2" 1 4) None
                          (shop CONFIRMED 4) eq_refl _ eq_refl eq_refl))).
  repeat constructor. intros [].
Defined.

(** X15: create_sale_transaction never returns.  It raises the ValueError
    "Product with id .. does not exist" exactly when the event identifier
    is on no record and the product is not in the catalog: the idempotency
    lookup comes first, so a payload naming an unknown product meets the
    record of its event when there is one.  When it ends in any exception
    but [ValidationError] it has written nothing; when it ends in
    [ValidationError] it has either found the one record of the event and
    written nothing, or inserted one pending record of the event under a
    fresh key. *)
Theorem create_sale_transaction_never_returns
  (transaction_data : SaleTransactionCreate.t) (user_id : option Z)
  (db : Database) :
  let run :=
    TransactionService.create_sale_transaction transaction_data user_id db in
  (exists e, fst run = Raise e)
  /\ (fst run
      = Raise (ValueError
                 (ProductDoesNotExist
                    (SaleTransactionCreate.product_id transaction_data)))
      <-> TransactionService.select_by_event_id
            (SaleTransactionCreate.event_id transaction_data) db = []
          /\ TransactionService.get_product
               (SaleTransactionCreate.product_id transaction_data) db = false)
  /\ (forall e, fst run = Raise e -> e <> ValidationError -> snd run = db)
  /\ (fst run = Raise ValidationError ->
      (snd run = db
       /\ exists t,
           TransactionService.select_by_event_id
             (SaleTransactionCreate.event_id transaction_data) db = [t])
      \/ (TransactionService.select_by_event_id
            (SaleTransactionCreate.event_id transaction_data) db = []
          /\ exists r,
              snd run
              = with_sale_transactions (sale_transactions db ++ [r]) db
              /\ SaleTransaction.id r
                 = next_id (map SaleTransaction.id (sale_transactions db))
              /\ SaleTransaction.event_id r
                 = SaleTransactionCreate.event_id transaction_data
              /\ SaleTransaction.status r = PENDING)).
Proof.
  intros run. split; [apply create_sale_transaction_raises |].
  unfold run. clear run.
  destruct (TransactionService.select_by_event_id
              (SaleTransactionCreate.event_id transaction_data) db)
    as [| x [| x2 rest]] eqn:Hsel.
  - destruct (TransactionService.get_product
                (SaleTransactionCreate.product_id transaction_data) db)
      eqn:Hp.
    + rewrite (create_sale_transaction_new _ _ _ Hsel Hp). cbn [fst snd].
      split; [| split].
      * split; [discriminate | intros [_ H]; discriminate].
      * intros e [= <-] Hne. now contradiction Hne.
      * intros _. right. split; [reflexivity |].
        eexists. split; [reflexivity |]. now repeat split.
    + rewrite (create_sale_transaction_unknown_product _ _ _ Hsel Hp).
      cbn [fst snd]. split; [now split |]. split; [reflexivity |].
      discriminate.
  - rewrite (create_sale_transaction_existing _ _ _ _ Hsel). cbn [fst snd].
    split; [| split].
    + split; [discriminate | intros [H _]; discriminate].
    + reflexivity.
    + intros _. left. split; [reflexivity | now exists x].
  - rewrite (create_sale_transaction_many _ _ _ _ _ _ Hsel). cbn [fst snd].
    split; [| split].
    + split; [discriminate | intros [H _]; discriminate].
    + reflexivity.
    + discriminate.
Qed.

Lemma create_sale_transaction_never_returns_witness :
  fst (TransactionService.create_sale_transaction (sale_data "e9" 99 1) None
         stocked_shelf)
  = Raise (ValueError (ProductDoesNotExist 99))
  /\ snd (TransactionService.create_sale_transaction (sale_data "e9" 99 1)
            None stocked_shelf)
     = stocked_shelf.
Proof.
  split.
  - apply (proj2 (proj1 (proj2 (create_sale_transaction_never_returns
                                  (sale_data "e9" 99 1) None stocked_shelf)))).
    split; reflexivity.
  - apply (proj1 (proj2 (proj2 (create_sale_transaction_never_returns
                                  (sale_data "e9" 99 1) None stocked_shelf)))
             (ValueError (ProductDoesNotExist 99)));
      [reflexivity | discriminate].
Defined.

(** ** The list of pending transactions *)

Lemma pending_after_save (location_id : option Z) (x : SaleTransaction.t)
  (rows : list SaleTransaction.t) :
  status_eqb (SaleTransaction.status x) PENDING = false ->
  filter (fun t => status_eqb (SaleTransaction.status t) PENDING
                   && TransactionService.location_filter location_id t)
         (map (fun t => if SaleTransaction.id t =? SaleTransaction.id x
                        then x else t) rows)
  = filter (fun t => negb (SaleTransaction.id t =? SaleTransaction.id x))
      (filter (fun t => status_eqb (SaleTransaction.status t) PENDING
                        && TransactionService.location_filter location_id t)
              rows).
Proof.
  intros Hx. induction rows as [| r rows IH]; [reflexivity |].
  cbn [map filter].
  destruct (SaleTransaction.id r =? SaleTransaction.id x) eqn:E.
  - rewrite Hx. cbn [andb].
    destruct (status_eqb (SaleTransaction.status r) PENDING
              && TransactionService.location_filter location_id r).
    + cbn [filter]. rewrite E. exact IH.
    + exact IH.
  - destruct (status_eqb (SaleTransaction.status r) PENDING
              && TransactionService.location_filter location_id r).
    + cbn [filter]. rewrite E. cbn [negb]. now rewrite IH.
    + exact IH.
Qed.

Lemma consume_stock_raises (product_id location_id : Z) (q : Decimal)
  (db : Database) (e : exn) :
  fst (ProductService.consume_stock product_id location_id q db) = Raise e ->
  (exists msg, e = InsufficientStockError msg) \/ e = MultipleResultsFound.
Proof.
  destruct (ProductService.select_stock_level product_id location_id db)
    as [| s [| s2 rest]] eqn:Hsel.
  - rewrite (consume_stock_none _ _ _ _ Hsel). discriminate.
  - rewrite (consume_stock_one _ _ _ _ _ Hsel).
    destruct (dec_lt _ q); cbn; [| discriminate].
    intros [= <-]. left. now eexists.
  - change (ProductService.consume_stock product_id location_id q)
      with (run_call product_id location_id (Consume q)).
    rewrite (run_call_many _ _ _ _ _ _ _ Hsel). cbn. intros [= <-].
    now right.
Qed.

Lemma release_reserved_stock_raises (product_id location_id : Z)
  (q : Decimal) (db : Database) (e : exn) :
  fst (ProductService.release_reserved_stock product_id location_id q db)
  = Raise e ->
  e = MultipleResultsFound.
Proof.
  destruct (ProductService.select_stock_level product_id location_id db)
    as [| s [| s2 rest]] eqn:Hsel.
  - rewrite (release_reserved_stock_none _ _ _ _ Hsel). discriminate.
  - rewrite (release_reserved_stock_one _ _ _ _ _ Hsel). discriminate.
  - change (ProductService.release_reserved_stock product_id location_id q)
      with (run_call product_id location_id (Release q)).
    rewrite (run_call_many _ _ _ _ _ _ _ Hsel). cbn. now intros [= <-].
Qed.

(** What get_pending_transactions answers, by the rows its statement
    selects. *)
Lemma get_pending_transactions_cases (location_id : option Z)
  (db : Database) :
  TransactionService.get_pending_transactions location_id db
  = match TransactionService.select_pending location_id db with
    | [] => (Ok [], db)
    | _ :: _ => (Raise ValidationError, db)
    end.
Proof.
  unfold TransactionService.get_pending_transactions, bind, query.
  now destruct (TransactionService.select_pending location_id db).
Qed.

(** X16: once confirm_transaction or cancel_transaction has dealt with a
    pending transaction (any outcome but the MultipleResultsFound of a
    doubled stock key), the statement of get_pending_transactions selects
    what it selected before without the transaction of that [id], for every
    location filter.  get_pending_transactions itself returns the empty
    list when nothing is selected and otherwise ends in the
    [ValidationError] of [from_orm]: it never returns a transaction. *)
Theorem processed_leaves_pending_list (now : datetime) (transaction_id : Z)
  (db : Database) (t : SaleTransaction.t) (location_id : option Z) :
  TransactionService.get_transaction transaction_id db = Some t ->
  SaleTransaction.status t = PENDING ->
  let remaining :=
    filter (fun x => negb (SaleTransaction.id x =? transaction_id))
           (TransactionService.select_pending location_id db) in
  (fst (TransactionService.confirm_transaction now transaction_id db)
   <> Raise MultipleResultsFound ->
   TransactionService.select_pending location_id
     (snd (TransactionService.confirm_transaction now transaction_id db))
   = remaining)
  /\ (fst (TransactionService.cancel_transaction now transaction_id db)
      <> Raise MultipleResultsFound ->
      TransactionService.select_pending location_id
        (snd (TransactionService.cancel_transaction now transaction_id db))
      = remaining)
  /\ (forall db',
         (TransactionService.select_pending location_id db' = [] ->
          TransactionService.get_pending_transactions location_id db'
          = (Ok [], db'))
         /\ (TransactionService.select_pending location_id db' <> [] ->
             TransactionService.get_pending_transactions location_id db'
             = (Raise ValidationError, db'))).
Proof.
  intros Hget Hst remaining.
  pose proof (get_transaction_id _ _ _ Hget) as Hid.
  assert (Hsaved :
           forall st db1,
             sale_transactions db1 = sale_transactions db ->
             status_eqb st PENDING = false ->
             TransactionService.select_pending location_id
               (TransactionService.save_transaction
                  (SaleTransaction.processed st now t) db1)
             = remaining).
  { intros st db1 Htx Hterm.
    unfold TransactionService.select_pending,
      TransactionService.save_transaction, with_sale_transactions.
    cbn [sale_transactions]. rewrite Htx.
    rewrite pending_after_save by exact Hterm.
    cbn [SaleTransaction.id SaleTransaction.processed].
    now rewrite Hid. }
  split; [| split].
  - destruct (confirm_pending_cases now _ _ _ Hget Hst)
      as [[db1 [-> Htx]] | [[msg ->] | ->]]; cbn [fst snd].
    + intros _. now apply Hsaved.
    + intros _. now apply Hsaved.
    + intros Hne. now contradiction Hne.
  - destruct (cancel_pending_cases now _ _ _ Hget Hst)
      as [[db1 [-> Htx]] | ->]; cbn [fst snd].
    + intros _. now apply Hsaved.
    + intros Hne. now contradiction Hne.
  - intros db'. rewrite get_pending_transactions_cases.
    destruct (TransactionService.select_pending location_id db').
    + split; [reflexivity | intros H; now contradiction H].
    + split; [discriminate | reflexivity].
Qed.

Lemma processed_leaves_pending_list_witness :
  TransactionService.select_pending None
    (snd (TransactionService.confirm_transaction 7 1 (shop PENDING 4)))
  = []
  /\ TransactionService.select_pending (Some 1)
       (snd (TransactionService.cancel_transaction 7 1 (shop PENDING 4)))
     = [].
Proof.
  split.
  - apply (proj1 (processed_leaves_pending_list 7 1 (shop PENDING 4)
                    (sale PENDING 4) None eq_refl eq_refl)).
    discriminate.
  - apply (proj1 (proj2 (processed_leaves_pending_list 7 1 (shop PENDING 4)
                           (sale PENDING 4) (Some 1) eq_refl eq_refl))).
    discriminate.
Defined.

(** X17: a transaction create_sale_transaction has just inserted is pending,
    with no processing time, and it is selected by the statement of
    get_pending_transactions when the call carries no location, the
    location 0 (which Python's [if location_id:] takes for none) or the
    location of the sale, and under no other location; under the former
    get_pending_transactions then ends in [ValidationError].  This is said
    of a payload whose amounts the numeric columns of the record hold as
    they are. *)
Theorem created_is_pending (transaction_data : SaleTransactionCreate.t)
  (user_id : option Z) (db : Database) (location_id : option Z) :
  storable_sale transaction_data = true ->
  TransactionService.select_by_event_id
    (SaleTransactionCreate.event_id transaction_data) db = [] ->
  TransactionService.get_product
    (SaleTransactionCreate.product_id transaction_data) db = true ->
  let db1 :=
    snd (TransactionService.create_sale_transaction transaction_data user_id
           db) in
  let r :=
    new_transaction transaction_data user_id
      (next_id (map SaleTransaction.id (sale_transactions db))) in
  let listed :=
    location_id = None \/ location_id = Some 0
    \/ location_id
       = Some (SaleTransactionCreate.location_id transaction_data) in
  In r (sale_transactions db1)
  /\ SaleTransaction.status r = PENDING
  /\ SaleTransaction.processed_at r = None
  /\ (In r (TransactionService.select_pending location_id db1) <-> listed)
  /\ (listed ->
      TransactionService.get_pending_transactions location_id db1
      = (Raise ValidationError, db1)).
Proof.
  intros _ Hsel Hp db1 r listed.
  assert (Hlisted :
           In r (TransactionService.select_pending location_id db1)
           <-> listed).
  { unfold db1, TransactionService.select_pending.
    rewrite (create_sale_transaction_new _ _ _ Hsel Hp). cbn [snd].
    fold r. rewrite filter_In.
    cbn [sale_transactions with_sale_transactions].
    unfold r at 2 3.
    cbn [SaleTransaction.status new_transaction status_eqb andb].
    split.
    - intros [_ Hloc]. destruct location_id as [l |]; [| now left].
      cbn in Hloc. destruct (l =? 0) eqn:E.
      + right. left. apply Z.eqb_eq in E. now subst.
      + right. right. apply Z.eqb_eq in Hloc. now subst.
    - intros Hloc. split; [apply in_or_app; right; now left |].
      destruct Hloc as [-> | [-> | ->]]; [reflexivity | reflexivity |].
      cbn. destruct (SaleTransactionCreate.location_id transaction_data =? 0);
        [reflexivity | apply Z.eqb_refl]. }
  split.
  { unfold db1. rewrite (create_sale_transaction_new _ _ _ Hsel Hp).
    cbn [snd sale_transactions with_sale_transactions].
    apply in_or_app. right. now left. }
  split; [reflexivity |]. split; [reflexivity |].
  split; [exact Hlisted |].
  intros Hl. apply Hlisted in Hl.
  rewrite get_pending_transactions_cases.
  destruct (TransactionService.select_pending location_id db1);
    [destruct Hl | reflexivity].
Qed.

Lemma created_is_pending_witness :
  In (new_transaction (sale_data "e2" 1 4) None 2)
     (TransactionService.select_pending (Some 0)
        (snd (TransactionService.create_sale_transaction (sale_data "e2" 1 4)
                None (shop CONFIRMED 4))))
  /\ TransactionService.get_pending_transactions (Some 0)
       (snd (TransactionService.create_sale_transaction (sale_data "e2" 1 4)
               None (shop CONFIRMED 4)))
     = (Raise ValidationError,
        snd (TransactionService.create_sale_transaction (sale_data "e2" 1 4)
               None (shop CONFIRMED 4))).
Proof.
  destruct (created_is_pending (sale_data "e2" 1 4) None (shop CONFIRMED 4)
              (Some 0) eq_refl eq_refl eq_refl)
    as [_ [_ [_ [Hin Hlist]]]].
  split.
  - apply Hin. right. now left.
  - apply Hlist. right. now left.
Defined.

(** ** Keys are kept unique by the services themselves *)

Section AtMostOne.

Context {A K : Type} (key_of : A -> K) (test : A -> bool) (k : K).
Hypothesis test_spec : forall x, test x = true <-> key_of x = k.

Lemma filter_at_most_one (rows : list A) :
  NoDup (map key_of rows) ->
  filter test rows = [] \/ exists r, filter test rows = [r].
Proof.
  intros Hnd.
  destruct (filter test rows) as [| r rest] eqn:Hsel; [now left | right].
  exists r. assert (Hin : In r (filter test rows)) by (rewrite Hsel; now left).
  apply filter_In in Hin. destruct Hin as [Hin Hr].
  rewrite <- Hsel.
  apply (filter_keyed key_of test k test_spec); [exact Hnd | exact Hin |].
  now apply test_spec.
Qed.

End AtMostOne.

Lemma keyed_stock_at_most_one (product_id location_id : Z) (db : Database) :
  keyed_stock_levels db ->
  no_stock_row product_id location_id db
  \/ exists s, stock_row product_id location_id db s.
Proof.
  apply (filter_at_most_one stock_key_of _ _
           (stock_key_spec product_id location_id)).
Qed.

Lemma event_id_spec (e : string) (t : SaleTransaction.t) :
  String.eqb (SaleTransaction.event_id t) e = true
  <-> SaleTransaction.event_id t = e.
Proof. apply String.eqb_eq. Qed.

Lemma keyed_event_at_most_one (e : string) (db : Database) :
  NoDup (map SaleTransaction.event_id (sale_transactions db)) ->
  TransactionService.select_by_event_id e db = []
  \/ exists t, TransactionService.select_by_event_id e db = [t].
Proof.
  apply (filter_at_most_one SaleTransaction.event_id _ _ (event_id_spec e)).
Qed.

Lemma save_transaction_ids (x : SaleTransaction.t) (db : Database) :
  map SaleTransaction.id
    (sale_transactions (TransactionService.save_transaction x db))
  = map SaleTransaction.id (sale_transactions db).
Proof.
  unfold TransactionService.save_transaction, with_sale_transactions.
  cbn [sale_transactions]. rewrite map_map. apply map_ext. intros r.
  destruct (SaleTransaction.id r =? SaleTransaction.id x) eqn:E;
    [| reflexivity].
  symmetry. now apply Z.eqb_eq.
Qed.

Lemma NoDup_map_injective {A B : Type} (f : A -> B) (rows : list A)
  (x y : A) :
  NoDup (map f rows) -> In x rows -> In y rows -> f x = f y -> x = y.
Proof.
  induction rows as [| r rows IH]; intros Hnd Hx Hy Hf; [destruct Hx |].
  cbn in Hnd. apply NoDup_cons_iff in Hnd. destruct Hnd as [Hr Hnd].
  destruct Hx as [-> | Hx], Hy as [-> | Hy].
  - reflexivity.
  - exfalso. apply Hr. rewrite Hf. now apply in_map.
  - exfalso. apply Hr. rewrite <- Hf. now apply in_map.
  - now apply IH.
Qed.

(** Saving the processed form of the row a key gave replaces that row and no
    other, when the keys are distinct. *)
Lemma save_transaction_events (st : TransactionStatus) (now : datetime)
  (t : SaleTransaction.t) (db : Database) :
  NoDup (map SaleTransaction.id (sale_transactions db)) ->
  In t (sale_transactions db) ->
  map SaleTransaction.event_id
    (sale_transactions
       (TransactionService.save_transaction
          (SaleTransaction.processed st now t) db))
  = map SaleTransaction.event_id (sale_transactions db).
Proof.
  intros Hnd Hin.
  unfold TransactionService.save_transaction, with_sale_transactions.
  cbn [sale_transactions]. rewrite map_map. apply map_ext_in. intros r Hr.
  cbn [SaleTransaction.id SaleTransaction.processed].
  destruct (SaleTransaction.id r =? SaleTransaction.id t) eqn:E;
    [| reflexivity].
  apply Z.eqb_eq in E.
  now rewrite (NoDup_map_injective SaleTransaction.id _ r t Hnd Hr Hin E).
Qed.

Lemma well_keyed_stock_change (db db' : Database) :
  map stock_key_of (stock_levels db') = map stock_key_of (stock_levels db) ->
  sale_transactions db' = sale_transactions db ->
  well_keyed db -> well_keyed db'.
Proof.
  intros Hk Htx [H1 [H2 H3]]. unfold well_keyed, keyed_stock_levels in *.
  now rewrite Hk, Htx.
Qed.

Lemma well_keyed_save (st : TransactionStatus) (now : datetime)
  (t : SaleTransaction.t) (db : Database) :
  In t (sale_transactions db) ->
  well_keyed db ->
  well_keyed (TransactionService.save_transaction
                (SaleTransaction.processed st now t) db).
Proof.
  intros Hin [H1 [H2 H3]]. unfold well_keyed. split; [exact H1 |].
  rewrite save_transaction_ids, save_transaction_events by assumption.
  now split.
Qed.

Lemma run_call_well_keyed (product_id location_id : Z) (c : ledger_call)
  (db : Database) :
  well_keyed db ->
  well_keyed (snd (run_call product_id location_id c db))
  /\ fst (run_call product_id location_id c db) <> Raise MultipleResultsFound.
Proof.
  intros Hwk. split.
  - destruct (run_call_frame product_id location_id c db)
      as [_ [_ [Hk [_ [_ [_ [_ [Htx _]]]]]]]].
    exact (well_keyed_stock_change _ _ Hk Htx Hwk).
  - destruct (keyed_stock_at_most_one product_id location_id db (proj1 Hwk))
      as [Hnone | [s Hs]].
    + destruct c as [q | q | q]; cbn [run_call].
      * unfold ProductService.reserve_stock, bind.
        rewrite (get_stock_level_none _ _ _ Hnone). discriminate.
      * rewrite (release_reserved_stock_none _ _ _ _ Hnone). discriminate.
      * rewrite (consume_stock_none _ _ _ _ Hnone). discriminate.
    + destruct c as [q | q | q]; cbn [run_call].
      * rewrite (reserve_stock_one _ _ _ _ _ Hs).
        destruct (dec_lt _ q); discriminate.
      * rewrite (release_reserved_stock_one _ _ _ _ _ Hs). discriminate.
      * rewrite (consume_stock_one _ _ _ _ _ Hs).
        destruct (dec_lt _ q); discriminate.
Qed.

Lemma create_stock_level_well_keyed (stock_data : StockLevelCreate.t)
  (db : Database) :
  well_keyed db ->
  well_keyed (snd (ProductService.create_stock_level stock_data db))
  /\ fst (ProductService.create_stock_level stock_data db)
     <> Raise MultipleResultsFound.
Proof.
  intros Hwk.
  destruct (keyed_stock_at_most_one
              (StockLevelCreate.product_id stock_data)
              (StockLevelCreate.location_id stock_data) db (proj1 Hwk))
    as [Hnone | [s Hs]].
  - rewrite (create_stock_level_insert _ _ Hnone). cbn [fst snd].
    split; [| discriminate].
    destruct Hwk as [H1 [H2 H3]]. unfold well_keyed, keyed_stock_levels.
    cbn [stock_levels sale_transactions with_stock_levels].
    split; [| now split].
    rewrite map_app. cbn.
    apply NoDup_app; [exact H1 | repeat constructor; intros [] |].
    intros k Hk [<- | []].
    apply in_map_iff in Hk. destruct Hk as [s [Hkey Hin]].
    exact (proj1 (no_stock_row_iff _ _ _) Hnone s Hin Hkey).
  - rewrite (create_stock_level_update _ _ _ Hs). cbn [fst snd].
    split; [| discriminate].
    apply (well_keyed_stock_change db); [| reflexivity | exact Hwk].
    unfold ProductService.update_stock_level_by_id, with_stock_levels.
    cbn [stock_levels]. now apply map_update_proj.
Qed.

Lemma create_sale_transaction_well_keyed
  (transaction_data : SaleTransactionCreate.t) (user_id : option Z)
  (db : Database) :
  well_keyed db ->
  well_keyed (snd (TransactionService.create_sale_transaction
                     transaction_data user_id db))
  /\ fst (TransactionService.create_sale_transaction transaction_data user_id
            db) <> Raise MultipleResultsFound.
Proof.
  intros Hwk.
  destruct (keyed_event_at_most_one
              (SaleTransactionCreate.event_id transaction_data) db
              (proj2 (proj2 Hwk))) as [Hnone | [t Ht]].
  - destruct (TransactionService.get_product
                (SaleTransactionCreate.product_id transaction_data) db)
      eqn:Hp.
    + pose proof (create_sale_transaction_new _ user_id _ Hnone Hp) as Hrun.
      cbv zeta in Hrun. split; [| rewrite Hrun; discriminate].
      destruct (create_sale_transaction_by_id transaction_data user_id db
                  (proj1 (proj2 Hwk)) Hnone Hp) as [_ [_ Hids]].
      rewrite Hrun in *. cbn [snd] in *.
      destruct Hwk as [H1 [H2 H3]]. split; [exact H1 |].
      split; [exact Hids |].
      cbn [sale_transactions with_sale_transactions]. rewrite map_app. cbn.
      apply NoDup_app; [exact H3 | repeat constructor; intros [] |].
      intros e He [<- | []].
      apply in_map_iff in He. destruct He as [x [Hx Hin]].
      assert (Hsel : In x (TransactionService.select_by_event_id
                             (SaleTransactionCreate.event_id transaction_data)
                             db)).
      { apply filter_In. split; [exact Hin | now apply String.eqb_eq]. }
      rewrite Hnone in Hsel. destruct Hsel.
    + rewrite (create_sale_transaction_unknown_product _ _ _ Hnone Hp).
      cbn [fst snd]. split; [exact Hwk | discriminate].
  - rewrite (create_sale_transaction_existing _ _ _ _ Ht). cbn [fst snd].
    split; [exact Hwk | discriminate].
Qed.

Lemma filter_map_commute_in {A : Type} (test : A -> bool) (g : A -> A)
  (rows : list A) :
  (forall s, In s rows -> test (g s) = test s) ->
  filter test (map g rows) = map g (filter test rows).
Proof.
  induction rows as [| s rows IH]; intros Hg; [reflexivity |].
  cbn. rewrite (Hg s (or_introl eq_refl)).
  destruct (test s); cbn; rewrite IH; try reflexivity;
    intros x Hx; apply Hg; now right.
Qed.

(** Confirming or cancelling in a well-keyed database: what the sale
    transactions become. *)
Lemma transition_well_keyed (now : datetime) (transaction_id : Z)
  (db : Database) (confirm : bool) :
  well_keyed db ->
  let run :=
    if confirm
    then TransactionService.confirm_transaction now transaction_id db
    else TransactionService.cancel_transaction now transaction_id db in
  well_keyed (snd run)
  /\ fst run <> Raise MultipleResultsFound
  /\ match TransactionService.get_transaction transaction_id db with
     | Some t =>
         if status_eqb (SaleTransaction.status t) PENDING
         then exists st,
             status_eqb st PENDING = false
             /\ sale_transactions (snd run)
                = sale_transactions
                    (TransactionService.save_transaction
                       (SaleTransaction.processed st now t) db)
         else sale_transactions (snd run) = sale_transactions db
     | None => sale_transactions (snd run) = sale_transactions db
     end.
Proof.
  intros Hwk run. unfold run. clear run.
  destruct (TransactionService.get_transaction transaction_id db)
    as [t |] eqn:Hget.
  2:{ destruct confirm;
        [rewrite (confirm_transaction_missing _ _ _ Hget)
        | rewrite (cancel_transaction_missing _ _ _ Hget)];
        cbn [fst snd]; (split; [exact Hwk |]);
        (split; [discriminate | reflexivity]). }
  destruct (status_eqb (SaleTransaction.status t) PENDING) eqn:Hst.
  2:{ destruct confirm;
        [rewrite (confirm_transaction_not_pending _ _ _ _ Hget Hst)
        | rewrite (cancel_transaction_not_pending _ _ _ _ Hget Hst)];
        cbn [fst snd]; (split; [exact Hwk |]);
        (split; [discriminate | reflexivity]). }
  apply status_eqb_pending in Hst.
  assert (Hin : In t (sale_transactions db))
    by (apply find_some in Hget; tauto).
  assert (Hsave :
           forall st db1,
             sale_transactions db1 = sale_transactions db ->
             sale_transactions
               (TransactionService.save_transaction
                  (SaleTransaction.processed st now t) db1)
             = sale_transactions
                 (TransactionService.save_transaction
                    (SaleTransaction.processed st now t) db)).
  { intros st db1 Htx.
    unfold TransactionService.save_transaction, with_sale_transactions.
    cbn [sale_transactions]. now rewrite Htx. }
  destruct confirm.
  - rewrite (confirm_transaction_pending _ _ _ _ Hget Hst).
    pose proof (run_call_well_keyed (SaleTransaction.product_id t)
                  (SaleTransaction.location_id t)
                  (Consume (SaleTransaction.converted_quantity t)) db Hwk)
      as [Hwk1 Hne].
    pose proof (run_call_frame (SaleTransaction.product_id t)
                  (SaleTransaction.location_id t)
                  (Consume (SaleTransaction.converted_quantity t)) db)
      as [_ [_ [_ [_ [_ [_ [_ [Htx _]]]]]]]].
    pose proof (consume_stock_raises (SaleTransaction.product_id t)
                  (SaleTransaction.location_id t)
                  (SaleTransaction.converted_quantity t) db) as Hkind.
    cbn [run_call] in Hwk1, Hne, Htx.
    destruct (ProductService.consume_stock _ _ _ db) as [[b | ex] db1];
      cbn [fst snd] in Hwk1, Hne, Htx, Hkind |- *.
    + split; [apply well_keyed_save; [now rewrite Htx | exact Hwk1] |].
      split; [discriminate |]. exists CONFIRMED.
      split; [reflexivity | now apply Hsave].
    + destruct (Hkind ex eq_refl) as [[msg ->] | ->];
        [| now contradiction Hne].
      cbn [fst snd].
      split; [apply well_keyed_save; [now rewrite Htx | exact Hwk1] |].
      split; [discriminate |]. exists FAILED.
      split; [reflexivity | now apply Hsave].
  - rewrite (cancel_transaction_pending _ _ _ _ Hget Hst).
    pose proof (run_call_well_keyed (SaleTransaction.product_id t)
                  (SaleTransaction.location_id t)
                  (Release (SaleTransaction.converted_quantity t)) db Hwk)
      as [Hwk1 Hne].
    pose proof (run_call_frame (SaleTransaction.product_id t)
                  (SaleTransaction.location_id t)
                  (Release (SaleTransaction.converted_quantity t)) db)
      as [_ [_ [_ [_ [_ [_ [_ [Htx _]]]]]]]].
    pose proof (release_reserved_stock_raises (SaleTransaction.product_id t)
                  (SaleTransaction.location_id t)
                  (SaleTransaction.converted_quantity t) db) as Hkind.
    cbn [run_call] in Hwk1, Hne, Htx.
    destruct (ProductService.release_reserved_stock _ _ _ db)
      as [[b | ex] db1]; cbn [fst snd] in Hwk1, Hne, Htx, Hkind |- *.
    + split; [apply well_keyed_save; [now rewrite Htx | exact Hwk1] |].
      split; [discriminate |]. exists CANCELLED.
      split; [reflexivity | now apply Hsave].
    + rewrite (Hkind ex eq_refl) in Hne. now contradiction Hne.
Qed.

Lemma not_pending_terminal (st : TransactionStatus) :
  status_eqb st PENDING = false <-> terminal_status st.
Proof.
  unfold terminal_status. destruct st; cbn; split; try tauto; try discriminate.
  intros [H | [H | H]]; discriminate.
Qed.

(** The body of the loop leaves what its create_sale_transaction leaves:
    the create ends in an exception, and nothing is confirmed. *)
Lemma reconcile_item_snd (now : datetime)
  (transaction_data : SaleTransactionCreate.t) (db : Database) :
  snd (TransactionService.reconcile_item now transaction_data db)
  = snd (TransactionService.create_sale_transaction transaction_data None db).
Proof.
  unfold TransactionService.reconcile_item, bind.
  destruct (create_sale_transaction_raises transaction_data None db)
    as [e He].
  destruct (TransactionService.create_sale_transaction transaction_data None db)
    as [[t | e'] db1]; cbn in He; [discriminate | reflexivity].
Qed.

Lemma on_record_spec (d : SaleTransactionCreate.t) (db : Database) :
  on_record d db = false
  <-> TransactionService.select_by_event_id
        (SaleTransactionCreate.event_id d) db = [].
Proof.
  unfold on_record.
  destruct (TransactionService.select_by_event_id
              (SaleTransactionCreate.event_id d) db);
    split; congruence.
Qed.

(** What a create makes of the tables: at most one record, pending and of
    the event of the payload, after the ones that were there. *)
Lemma create_sale_transaction_inserts (d : SaleTransactionCreate.t)
  (u : option Z) (db : Database) :
  let db' := snd (TransactionService.create_sale_transaction d u db) in
  stock_levels db' = stock_levels db
  /\ products db' = products db
  /\ exists inserted,
      sale_transactions db' = sale_transactions db ++ inserted
      /\ Forall (fun r =>
                   SaleTransaction.status r = PENDING
                   /\ SaleTransaction.processed_at r = None
                   /\ SaleTransaction.event_id r
                      = SaleTransactionCreate.event_id d)
                inserted
      /\ (settled d db -> inserted = []).
Proof.
  cbv zeta.
  destruct (TransactionService.select_by_event_id
              (SaleTransactionCreate.event_id d) db)
    as [| x [| x2 rest]] eqn:Hsel.
  - destruct (TransactionService.get_product
                (SaleTransactionCreate.product_id d) db) eqn:Hp.
    + rewrite (create_sale_transaction_new _ _ _ Hsel Hp). cbn [snd].
      split; [reflexivity |]. split; [reflexivity |].
      eexists. split; [reflexivity |]. split.
      * constructor; [now repeat split | constructor].
      * intros [Hrec | Hno]; [| congruence].
        apply (proj2 (on_record_spec d db)) in Hsel. congruence.
    + rewrite (create_sale_transaction_unknown_product _ _ _ Hsel Hp).
      cbn [snd]. split; [reflexivity |]. split; [reflexivity |].
      exists []. now rewrite app_nil_r.
  - rewrite (create_sale_transaction_existing _ _ _ _ Hsel). cbn [snd].
    split; [reflexivity |]. split; [reflexivity |].
    exists []. now rewrite app_nil_r.
  - rewrite (create_sale_transaction_many _ _ _ _ _ _ Hsel). cbn [snd].
    split; [reflexivity |]. split; [reflexivity |].
    exists []. now rewrite app_nil_r.
Qed.

Lemma create_sale_transaction_settled (d : SaleTransactionCreate.t)
  (u : option Z) (db : Database) :
  settled d db ->
  snd (TransactionService.create_sale_transaction d u db) = db.
Proof.
  intros Hset.
  destruct (TransactionService.select_by_event_id
              (SaleTransactionCreate.event_id d) db)
    as [| x [| x2 rest]] eqn:Hsel.
  - destruct Hset as [Hrec | Hp].
    + apply (proj2 (on_record_spec d db)) in Hsel. congruence.
    + now rewrite (create_sale_transaction_unknown_product _ _ _ Hsel Hp).
  - now rewrite (create_sale_transaction_existing _ _ _ _ Hsel).
  - now rewrite (create_sale_transaction_many _ _ _ _ _ _ Hsel).
Qed.

Lemma on_record_app (d : SaleTransactionCreate.t) (db db' : Database)
  (inserted : list SaleTransaction.t) :
  sale_transactions db' = sale_transactions db ++ inserted ->
  on_record d db = true -> on_record d db' = true.
Proof.
  unfold on_record, TransactionService.select_by_event_id.
  intros ->. rewrite filter_app.
  now destruct (filter _ (sale_transactions db)).
Qed.

(** An item that is settled stays so, and a create settles its own. *)
Lemma create_sale_transaction_keeps_settled (d d0 : SaleTransactionCreate.t)
  (u : option Z) (db : Database) :
  settled d0 db ->
  settled d0 (snd (TransactionService.create_sale_transaction d u db)).
Proof.
  intros Hset.
  destruct (create_sale_transaction_inserts d u db)
    as [_ [Hprod [inserted [Htx _]]]].
  destruct Hset as [Hrec | Hp].
  - left. exact (on_record_app d0 _ _ _ Htx Hrec).
  - right. unfold TransactionService.get_product in Hp |- *.
    now rewrite Hprod.
Qed.

Lemma create_sale_transaction_settles (d : SaleTransactionCreate.t)
  (u : option Z) (db : Database) :
  settled d (snd (TransactionService.create_sale_transaction d u db)).
Proof.
  destruct (TransactionService.select_by_event_id
              (SaleTransactionCreate.event_id d) db)
    as [| x [| x2 rest]] eqn:Hsel.
  - destruct (TransactionService.get_product
                (SaleTransactionCreate.product_id d) db) eqn:Hp.
    + rewrite (create_sale_transaction_new _ _ _ Hsel Hp). cbn [snd].
      left. unfold on_record.
      now rewrite (select_by_event_id_inserted d u db _ Hsel).
    + rewrite (create_sale_transaction_unknown_product _ _ _ Hsel Hp).
      now right.
  - rewrite (create_sale_transaction_existing _ _ _ _ Hsel). cbn [snd].
    left. unfold on_record. now rewrite Hsel.
  - rewrite (create_sale_transaction_many _ _ _ _ _ _ Hsel). cbn [snd].
    left. unfold on_record. now rewrite Hsel.
Qed.

Lemma well_keyed_ext (db db' : Database) :
  stock_levels db' = stock_levels db ->
  sale_transactions db' = sale_transactions db ->
  well_keyed db -> well_keyed db'.
Proof.
  intros Hs Ht. apply well_keyed_stock_change; [now rewrite Hs | exact Ht].
Qed.

Lemma settled_ext (d : SaleTransactionCreate.t) (db db' : Database) :
  products db' = products db ->
  sale_transactions db' = sale_transactions db ->
  settled d db -> settled d db'.
Proof.
  intros Hp Ht.
  unfold settled, on_record, TransactionService.get_product,
    TransactionService.select_by_event_id.
  now rewrite Hp, Ht.
Qed.

Lemma after_items_well_keyed (utcnow : nat -> datetime)
  (transactions : list SaleTransactionCreate.t) :
  forall (n : nat) (db : Database),
    well_keyed db -> well_keyed (after_items utcnow n transactions db).
Proof.
  induction transactions as [| d rest IH]; intros n db Hwk;
    cbn [after_items]; [exact Hwk |].
  apply IH. rewrite reconcile_item_snd.
  now apply create_sale_transaction_well_keyed.
Qed.

(** The items of a batch are all settled in the database the batch
    leaves. *)
Lemma after_items_settled (utcnow : nat -> datetime)
  (transactions : list SaleTransactionCreate.t) :
  forall (n : nat) (db : Database),
    (forall d0, settled d0 db ->
                settled d0 (after_items utcnow n transactions db))
    /\ Forall (fun d => settled d (after_items utcnow n transactions db))
              transactions.
Proof.
  induction transactions as [| d rest IH]; intros n db;
    cbn [after_items].
  - split; [tauto | constructor].
  - rewrite reconcile_item_snd.
    destruct (IH (S n)
                (snd (TransactionService.create_sale_transaction d None db)))
      as [Hkeep Hall].
    split.
    + intros d0 H0. apply Hkeep.
      now apply create_sale_transaction_keeps_settled.
    + constructor; [| exact Hall].
      apply Hkeep. apply create_sale_transaction_settles.
Qed.

(** A batch whose items are all settled writes nothing. *)
Lemma after_items_all_settled (utcnow : nat -> datetime)
  (transactions : list SaleTransactionCreate.t) :
  forall (n : nat) (db : Database),
    Forall (fun d => settled d db) transactions ->
    after_items utcnow n transactions db = db.
Proof.
  induction transactions as [| d rest IH]; intros n db Hall;
    cbn [after_items]; [reflexivity |].
  apply Forall_cons_iff in Hall. destruct Hall as [Hd Hrest].
  rewrite reconcile_item_snd, (create_sale_transaction_settled d None db Hd).
  now apply IH.
Qed.

(** What a batch makes of the tables: pending records of events of the
    batch, after the ones that were there. *)
Lemma after_items_inserts (utcnow : nat -> datetime)
  (transactions : list SaleTransactionCreate.t) :
  forall (n : nat) (db : Database),
    let db' := after_items utcnow n transactions db in
    stock_levels db' = stock_levels db
    /\ products db' = products db
    /\ exists inserted,
        sale_transactions db' = sale_transactions db ++ inserted
        /\ Forall (fun r =>
                     SaleTransaction.status r = PENDING
                     /\ SaleTransaction.processed_at r = None
                     /\ exists d,
                         In d transactions
                         /\ SaleTransaction.event_id r
                            = SaleTransactionCreate.event_id d)
                  inserted.
Proof.
  induction transactions as [| d rest IH]; intros n db; cbv zeta;
    cbn [after_items].
  - split; [reflexivity |]. split; [reflexivity |].
    exists []. split; [now rewrite app_nil_r | constructor].
  - rewrite reconcile_item_snd.
    destruct (create_sale_transaction_inserts d None db)
      as [Hs [Hp [first [Htx [Hfirst _]]]]].
    destruct (IH (S n)
                (snd (TransactionService.create_sale_transaction d None db)))
      as [Hs' [Hp' [others [Htx' Hothers]]]].
    split; [now rewrite Hs', Hs |]. split; [now rewrite Hp', Hp |].
    exists (first ++ others). split.
    + now rewrite Htx', Htx, app_assoc.
    + apply Forall_app. split.
      * eapply Forall_impl; [| exact Hfirst].
        intros r [H1 [H2 H3]]. split; [exact H1 |]. split; [exact H2 |].
        exists d. split; [now left | exact H3].
      * eapply Forall_impl; [| exact Hothers].
        intros r [H1 [H2 [d' [Hin H3]]]].
        split; [exact H1 |]. split; [exact H2 |].
        exists d'. split; [now right | exact H3].
Qed.

(** X18: reconcile_transactions confirms nothing.  Whatever the batch, it
    changes no stock row and no sale transaction that was on record; all it
    adds to the sale transactions are pending records, of events of the
    batch, after the ones that were there.  When every item of the batch is
    settled (its event is on record, or its product is not in the catalog),
    it changes no sale transaction at all. *)
Theorem reconcile_confirms_nothing (utcnow : nat -> datetime)
  (terminal_id : string) (start_time end_time : datetime)
  (transactions : list SaleTransactionCreate.t) (db : Database) :
  let run :=
    TransactionService.reconcile_transactions utcnow terminal_id start_time
      end_time transactions db in
  stock_levels (snd run) = stock_levels db
  /\ (exists inserted,
         sale_transactions (snd run) = sale_transactions db ++ inserted
         /\ Forall (fun r =>
                      SaleTransaction.status r = PENDING
                      /\ SaleTransaction.processed_at r = None
                      /\ exists d,
                          In d transactions
                          /\ SaleTransaction.event_id r
                             = SaleTransactionCreate.event_id d)
                   inserted)
  /\ (Forall (fun d => settled d db) transactions ->
      sale_transactions (snd run) = sale_transactions db).
Proof.
  intros run. unfold run.
  rewrite (reconcile_transactions_run utcnow terminal_id start_time end_time
             transactions db).
  cbn [snd].
  set (opened := snd (TransactionService.open_log start_time end_time
                        terminal_id db)).
  destruct (after_items_inserts utcnow transactions 0 opened)
    as [Hs [_ [inserted [Htx Hins]]]].
  split; [exact Hs |]. split.
  - exists inserted. split; [exact Htx | exact Hins].
  - intros Hall.
    assert (Hopened : Forall (fun d => settled d opened) transactions).
    { eapply Forall_impl; [| exact Hall]. intros d Hd.
      now apply (settled_ext d db). }
    cbn [sale_transactions TransactionService.save_log
           with_reconciliation_logs].
    now rewrite (after_items_all_settled utcnow transactions 0 opened Hopened).
Qed.

Lemma reconcile_confirms_nothing_witness :
  let run :=
    TransactionService.reconcile_transactions (fun n => 100 + Z.of_nat n)
      "T1" 0 60 [sale_data "e1" 1 4; sale_data "e9" 99 1] (shop PENDING 4) in
  stock_levels (snd run) = stock_levels (shop PENDING 4)
  /\ sale_transactions (snd run) = sale_transactions (shop PENDING 4).
Proof.
  destruct (reconcile_confirms_nothing (fun n => 100 + Z.of_nat n) "T1" 0 60
              [sale_data "e1" 1 4; sale_data "e9" 99 1] (shop PENDING 4))
    as [Hs [_ Ht]].
  split; [exact Hs |]. apply Ht.
  apply Forall_cons; [| apply Forall_cons; [| apply Forall_nil]].
  - left. reflexivity.
  - right. reflexivity.
Defined.

(** X19: at most once.  After reconcile_transactions has handled a batch,
    handling the same batch again (at any time, for any terminal and window)
    changes no stock row and no sale transaction: no record is inserted
    twice.  Like the first run, the second counts every item as failed. *)
Theorem reconcile_replay (utcnow utcnow' : nat -> datetime)
  (terminal_id terminal_id' : string)
  (start_time end_time start_time' end_time' : datetime)
  (transactions : list SaleTransactionCreate.t) (db : Database) :
  let db1 :=
    snd (TransactionService.reconcile_transactions utcnow terminal_id
           start_time end_time transactions db) in
  let again :=
    TransactionService.reconcile_transactions utcnow' terminal_id'
      start_time' end_time' transactions db1 in
  stock_levels (snd again) = stock_levels db1
  /\ sale_transactions (snd again) = sale_transactions db1
  /\ exists result,
      fst again = Ok result
      /\ ReconciliationResult.success_count result = 0
      /\ ReconciliationResult.failed_count result
         = Z.of_nat (List.length transactions).
Proof.
  intros db1 again.
  assert (Hall : Forall (fun d => settled d db1) transactions).
  { unfold db1.
    rewrite (reconcile_transactions_run utcnow terminal_id start_time
               end_time transactions db).
    cbn [snd].
    set (opened := snd (TransactionService.open_log start_time end_time
                          terminal_id db)).
    destruct (after_items_settled utcnow transactions 0 opened)
      as [_ Hset].
    eapply Forall_impl; [| exact Hset]. intros d Hd.
    now apply (settled_ext d (after_items utcnow 0 transactions opened)). }
  assert (Hopened :
           Forall (fun d =>
                     settled d
                       (snd (TransactionService.open_log start_time' end_time'
                               terminal_id' db1)))
                  transactions).
  { eapply Forall_impl; [| exact Hall]. intros d Hd.
    now apply (settled_ext d db1). }
  unfold again.
  rewrite (reconcile_transactions_run utcnow' terminal_id' start_time'
             end_time' transactions db1).
  cbn [fst snd].
  rewrite (after_items_all_settled utcnow' transactions 0 _ Hopened).
  rewrite item_outcomes_all_failed.
  destruct (count_repeat_false (List.length transactions)) as [Ht Hf].
  split; [reflexivity |]. split; [reflexivity |].
  eexists. split; [reflexivity |]. split; [exact Ht | exact Hf].
Qed.

(** ** Invariants of every sequence of calls *)

Lemma outcome_raise {A : Type} (r : result A * Database) (e : exn) :
  fst (outcome r) = Some e <-> fst r = Raise e.
Proof.
  unfold outcome. cbn [fst]. destruct (fst r); split; congruence.
Qed.

Lemma run_service_call_well_keyed (c : service_call) (db : Database) :
  well_keyed db ->
  well_keyed (snd (run_service_call c db))
  /\ fst (run_service_call c db) <> Some MultipleResultsFound.
Proof.
  intros Hwk.
  destruct c as [sd | p l q | p l q | p l q | d u | now id | now id
                | utcnow term s e txs];
    cbn [run_service_call]; rewrite outcome_raise; unfold outcome;
    cbn [snd].
  - now apply create_stock_level_well_keyed.
  - exact (run_call_well_keyed p l (Reserve q) db Hwk).
  - exact (run_call_well_keyed p l (Release q) db Hwk).
  - exact (run_call_well_keyed p l (Consume q) db Hwk).
  - now apply create_sale_transaction_well_keyed.
  - destruct (transition_well_keyed now id db true Hwk) as [H1 [H2 _]].
    now split.
  - destruct (transition_well_keyed now id db false Hwk) as [H1 [H2 _]].
    now split.
  - rewrite (reconcile_transactions_run utcnow term s e txs db).
    cbn [fst snd]. split; [| discriminate].
    set (opened := snd (TransactionService.open_log s e term db)).
    assert (Hwko : well_keyed opened)
      by (apply (well_keyed_ext db); [reflexivity | reflexivity | exact Hwk]).
    pose proof (after_items_well_keyed utcnow txs 0 opened Hwko) as Hwk'.
    apply (well_keyed_ext (after_items utcnow 0 txs opened));
      [reflexivity | reflexivity | exact Hwk'].
Qed.

(** X20: the services keep the keys unique by themselves.  From a database
    with no two stock rows under one (product_id, location_id), and no two
    sale transactions under one id or one event_id, every sequence of calls
    of create_stock_level, reserve_stock, release_reserved_stock,
    consume_stock, create_sale_transaction, confirm_transaction,
    cancel_transaction and reconcile_transactions leaves such a database,
    and no call in it raises MultipleResultsFound. *)
Theorem well_keyed_kept (calls : list service_call) (db : Database) :
  well_keyed db ->
  well_keyed (run_service_calls calls db)
  /\ forall c,
      fst (run_service_call c (run_service_calls calls db))
      <> Some MultipleResultsFound.
Proof.
  revert db. induction calls as [| c rest IH]; intros db Hwk;
    cbn [run_service_calls].
  - split; [exact Hwk |]. intros c.
    now apply run_service_call_well_keyed.
  - apply IH. now apply run_service_call_well_keyed.
Qed.

Lemma well_keyed_kept_witness :
  well_keyed
    (run_service_calls
       [CreateStockLevel (declaration 25 3);
        CreateSaleTransaction (sale_data "e1" 1 4) None;
        ConfirmTransaction 7 1;
        ReconcileTransactions (fun n => 100 + Z.of_nat n) "T1" 0 60
          [sale_data "e1" 1 4; sale_data "e2" 1 30]]
       no_shelf).
Proof.
  apply well_keyed_kept.
  repeat split; constructor.
Defined.

Lemma find_app_found {A : Type} (f : A -> bool) (l l' : list A) (x : A) :
  find f l = Some x -> find f (l ++ l') = Some x.
Proof.
  induction l as [| y l IH]; [discriminate |].
  cbn. destruct (f y); [tauto | exact IH].
Qed.

Lemma find_by_id_map_other (k : Z) (x : SaleTransaction.t)
  (rows : list SaleTransaction.t) :
  SaleTransaction.id x <> k ->
  find (fun t => SaleTransaction.id t =? k)
       (map (fun t => if SaleTransaction.id t =? SaleTransaction.id x
                      then x else t) rows)
  = find (fun t => SaleTransaction.id t =? k) rows.
Proof.
  intros Hk. induction rows as [| r rows IH]; [reflexivity |].
  cbn. destruct (SaleTransaction.id r =? SaleTransaction.id x) eqn:E.
  - apply Z.eqb_eq in E.
    rewrite (proj2 (Z.eqb_neq _ _) Hk).
    assert (Hr : (SaleTransaction.id r =? k) = false)
      by (apply Z.eqb_neq; congruence).
    rewrite Hr. exact IH.
  - destruct (SaleTransaction.id r =? k); [reflexivity | exact IH].
Qed.

Lemma get_transaction_ext (k : Z) (db db' : Database) :
  sale_transactions db' = sale_transactions db ->
  TransactionService.get_transaction k db'
  = TransactionService.get_transaction k db.
Proof.
  intros H. unfold TransactionService.get_transaction. now rewrite H.
Qed.

(** What a confirm or a cancel makes of the sale transactions, in any
    database. *)
Lemma transition_transactions (now : datetime) (transaction_id : Z)
  (db : Database) (confirm : bool) :
  let run :=
    if confirm
    then TransactionService.confirm_transaction now transaction_id db
    else TransactionService.cancel_transaction now transaction_id db in
  sale_transactions (snd run) = sale_transactions db
  \/ exists t st,
      TransactionService.get_transaction transaction_id db = Some t
      /\ SaleTransaction.status t = PENDING
      /\ sale_transactions (snd run)
         = sale_transactions
             (TransactionService.save_transaction
                (SaleTransaction.processed st now t) db).
Proof.
  cbv zeta.
  destruct (TransactionService.get_transaction transaction_id db)
    as [t |] eqn:Hget.
  2:{ left. destruct confirm;
        [rewrite (confirm_transaction_missing _ _ _ Hget)
        | rewrite (cancel_transaction_missing _ _ _ Hget)]; reflexivity. }
  destruct (status_eqb (SaleTransaction.status t) PENDING) eqn:Hst.
  2:{ left. destruct confirm;
        [rewrite (confirm_transaction_not_pending _ _ _ _ Hget Hst)
        | rewrite (cancel_transaction_not_pending _ _ _ _ Hget Hst)];
        reflexivity. }
  apply status_eqb_pending in Hst.
  assert (Hsave :
           forall st db1,
             sale_transactions db1 = sale_transactions db ->
             sale_transactions
               (TransactionService.save_transaction
                  (SaleTransaction.processed st now t) db1)
             = sale_transactions
                 (TransactionService.save_transaction
                    (SaleTransaction.processed st now t) db)).
  { intros st db1 Htx.
    unfold TransactionService.save_transaction, with_sale_transactions.
    cbn [sale_transactions]. now rewrite Htx. }
  destruct confirm.
  - rewrite (confirm_transaction_pending _ _ _ _ Hget Hst).
    destruct (consume_stock_effect (SaleTransaction.product_id t)
                (SaleTransaction.location_id t)
                (SaleTransaction.converted_quantity t) db) as [_ Htx].
    destruct (ProductService.consume_stock _ _ _ db) as [[b | ex] db1];
      cbn [snd] in Htx |- *.
    + right. exists t, CONFIRMED. repeat split; auto.
    + destruct ex; cbn [snd]; try (now left).
      right. exists t, FAILED. repeat split; auto.
  - rewrite (cancel_transaction_pending _ _ _ _ Hget Hst).
    pose proof (run_call_frame (SaleTransaction.product_id t)
                  (SaleTransaction.location_id t)
                  (Release (SaleTransaction.converted_quantity t)) db)
      as [_ [_ [_ [_ [_ [_ [_ [Htx _]]]]]]]].
    cbn [run_call] in Htx.
    destruct (ProductService.release_reserved_stock _ _ _ db)
      as [[b | ex] db1]; cbn [snd] in Htx |- *.
    + right. exists t, CANCELLED. repeat split; auto.
    + now left.
Qed.

Lemma transition_keeps_terminal (now : datetime) (transaction_id k : Z)
  (db : Database) (confirm : bool) (t : SaleTransaction.t) :
  TransactionService.get_transaction k db = Some t ->
  terminal_status (SaleTransaction.status t) ->
  TransactionService.get_transaction k
    (snd (if confirm
          then TransactionService.confirm_transaction now transaction_id db
          else TransactionService.cancel_transaction now transaction_id db))
  = Some t.
Proof.
  intros Hget Hterm.
  destruct (transition_transactions now transaction_id db confirm)
    as [Hsame | [t' [st [Hget' [Hst' Htx]]]]].
  - now rewrite (get_transaction_ext _ _ _ Hsame).
  - rewrite (get_transaction_ext _ _ _ Htx).
    unfold TransactionService.get_transaction,
      TransactionService.save_transaction, with_sale_transactions.
    cbn [sale_transactions].
    change (SaleTransaction.id (SaleTransaction.processed st now t'))
      with (SaleTransaction.id t').
    rewrite <- Hget.
    assert (Hne : SaleTransaction.id t' <> k).
    { pose proof (get_transaction_id _ _ _ Hget') as Hid'. rewrite Hid'.
      intros ->. rewrite Hget in Hget'. injection Hget' as ->.
      apply not_pending_terminal in Hterm.
      rewrite (proj2 (status_eqb_pending _) Hst') in Hterm. discriminate. }
    exact (find_by_id_map_other k (SaleTransaction.processed st now t') _ Hne).
Qed.

Lemma create_keeps_record (d : SaleTransactionCreate.t) (u : option Z)
  (k : Z) (db : Database) (t : SaleTransaction.t) :
  TransactionService.get_transaction k db = Some t ->
  TransactionService.get_transaction k
    (snd (TransactionService.create_sale_transaction d u db))
  = Some t.
Proof.
  intros Hget.
  destruct (TransactionService.select_by_event_id
              (SaleTransactionCreate.event_id d) db)
    as [| x [| x2 rest]] eqn:Hsel.
  - destruct (TransactionService.get_product
                (SaleTransactionCreate.product_id d) db) eqn:Hp.
    + rewrite (create_sale_transaction_new _ _ _ Hsel Hp). cbn [snd].
      unfold TransactionService.get_transaction, with_sale_transactions.
      cbn [sale_transactions]. now apply find_app_found.
    + now rewrite (create_sale_transaction_unknown_product _ _ _ Hsel Hp).
  - now rewrite (create_sale_transaction_existing _ _ _ _ Hsel).
  - now rewrite (create_sale_transaction_many _ _ _ _ _ _ Hsel).
Qed.

Lemma reconcile_item_keeps_terminal (now : datetime)
  (d : SaleTransactionCreate.t) (k : Z) (db : Database)
  (t : SaleTransaction.t) :
  TransactionService.get_transaction k db = Some t ->
  terminal_status (SaleTransaction.status t) ->
  TransactionService.get_transaction k
    (snd (TransactionService.reconcile_item now d db))
  = Some t.
Proof.
  intros Hget Hterm. rewrite reconcile_item_snd.
  now apply create_keeps_record.
Qed.

Lemma after_items_keeps_terminal (utcnow : nat -> datetime)
  (transactions : list SaleTransactionCreate.t) (k : Z)
  (t : SaleTransaction.t) :
  terminal_status (SaleTransaction.status t) ->
  forall (n : nat) (db : Database),
    TransactionService.get_transaction k db = Some t ->
    TransactionService.get_transaction k
      (after_items utcnow n transactions db)
    = Some t.
Proof.
  intros Hterm. induction transactions as [| d rest IH]; intros n db Hget;
    cbn [after_items]; [exact Hget |].
  apply IH. now apply reconcile_item_keeps_terminal.
Qed.

Lemma create_stock_level_transactions (stock_data : StockLevelCreate.t)
  (db : Database) :
  sale_transactions (snd (ProductService.create_stock_level stock_data db))
  = sale_transactions db.
Proof.
  destruct (ProductService.select_stock_level
              (StockLevelCreate.product_id stock_data)
              (StockLevelCreate.location_id stock_data) db)
    as [| s [| s2 rest]] eqn:Hsel.
  - now rewrite (create_stock_level_insert _ _ Hsel).
  - now rewrite (create_stock_level_update _ _ _ Hsel).
  - now rewrite (create_stock_level_many _ _ _ _ _ Hsel).
Qed.

Lemma run_service_call_keeps_terminal (c : service_call) (k : Z)
  (db : Database) (t : SaleTransaction.t) :
  TransactionService.get_transaction k db = Some t ->
  terminal_status (SaleTransaction.status t) ->
  TransactionService.get_transaction k (snd (run_service_call c db)) = Some t.
Proof.
  intros Hget Hterm.
  destruct c as [sd | p l q | p l q | p l q | d u | now id | now id
                | utcnow term s e txs];
    cbn [run_service_call]; unfold outcome; cbn [snd].
  - now rewrite (get_transaction_ext _ _ _
                   (create_stock_level_transactions sd db)).
  - destruct (run_call_frame p l (Reserve q) db)
      as [_ [_ [_ [_ [_ [_ [_ [Htx _]]]]]]]].
    now rewrite (get_transaction_ext _ _ _ Htx).
  - destruct (run_call_frame p l (Release q) db)
      as [_ [_ [_ [_ [_ [_ [_ [Htx _]]]]]]]].
    now rewrite (get_transaction_ext _ _ _ Htx).
  - destruct (run_call_frame p l (Consume q) db)
      as [_ [_ [_ [_ [_ [_ [_ [Htx _]]]]]]]].
    now rewrite (get_transaction_ext _ _ _ Htx).
  - now apply create_keeps_record.
  - exact (transition_keeps_terminal now id k db true t Hget Hterm).
  - exact (transition_keeps_terminal now id k db false t Hget Hterm).
  - rewrite (reconcile_transactions_run utcnow term s e txs db).
    cbn [snd].
    change (TransactionService.get_transaction k
              (after_items utcnow 0 txs
                 (snd (TransactionService.open_log s e term db)))
            = Some t).
    now apply after_items_keeps_terminal.
Qed.

(** X21: no call ever changes a sale transaction that is confirmed,
    cancelled or failed.  Whatever sequence of service calls follows, the
    record its id gives back is the same, field by field. *)
Theorem terminal_record_immutable (calls : list service_call) (k : Z)
  (db : Database) (t : SaleTransaction.t) :
  TransactionService.get_transaction k db = Some t ->
  terminal_status (SaleTransaction.status t) ->
  TransactionService.get_transaction k (run_service_calls calls db) = Some t.
Proof.
  intros Hget Hterm. revert db Hget.
  induction calls as [| c rest IH]; intros db Hget; cbn [run_service_calls].
  - exact Hget.
  - apply IH. now apply run_service_call_keeps_terminal.
Qed.

Lemma terminal_record_immutable_witness :
  TransactionService.get_transaction 1
    (run_service_calls
       [ConfirmTransaction 8 1; CancelTransaction 9 1;
        CreateSaleTransaction (sale_data "e1" 1 9) (Some 3);
        ReconcileTransactions (fun n => 100 + Z.of_nat n) "T1" 0 60
          [sale_data "e1" 1 4; sale_data "e2" 1 3]]
       (shop FAILED 4))
  = Some (sale FAILED 4).
Proof.
  apply terminal_record_immutable.
  - reflexivity.
  - right. right. reflexivity.
Defined.

(** ** The reconciliation log *)

(** X22: reconcile_transactions adds exactly one row to the reconciliation
    logs, the completed log whose id it returns, after the rows that were
    there; it rewrites none of them. *)
Theorem reconcile_appends_one_log (utcnow : nat -> datetime)
  (terminal_id : string) (start_time end_time : datetime)
  (transactions : list SaleTransactionCreate.t) (db : Database) :
  let run :=
    TransactionService.reconcile_transactions utcnow terminal_id start_time
      end_time transactions db in
  exists result,
    fst run = Ok result
    /\ ~ In (ReconciliationResult.reconciliation_id result)
            (map ReconciliationLog.id (reconciliation_logs db))
    /\ reconciliation_logs (snd run)
       = reconciliation_logs db
         ++ [ReconciliationLog.mk
               (ReconciliationResult.reconciliation_id result)
               start_time end_time terminal_id
               (ReconciliationResult.processed_count result)
               (ReconciliationResult.success_count result)
               (ReconciliationResult.failed_count result)
               "completed"
               (ReconciliationResult.notes result)].
Proof.
  intros run. unfold run.
  rewrite (reconcile_transactions_run utcnow terminal_id start_time end_time
             transactions db).
  cbn [fst snd]. eexists. split; [reflexivity |].
  cbn [ReconciliationResult.reconciliation_id
         ReconciliationResult.processed_count
         ReconciliationResult.success_count
         ReconciliationResult.failed_count ReconciliationResult.notes].
  split; [apply next_id_not_in |].
  unfold TransactionService.save_log, with_reconciliation_logs.
  cbn [reconciliation_logs].
  destruct (after_items_catalog utcnow transactions 0
              (snd (TransactionService.open_log start_time end_time
                      terminal_id db))) as [_ [_ Hlogs]].
  rewrite Hlogs. unfold TransactionService.open_log, with_reconciliation_logs.
  cbn [snd reconciliation_logs ReconciliationLog.id].
  rewrite map_app. cbn [map ReconciliationLog.id]. rewrite Z.eqb_refl.
  f_equal.
  transitivity (map (fun l => l) (reconciliation_logs db));
    [| apply map_id].
  apply map_ext_in. intros l Hl.
  destruct (ReconciliationLog.id l
            =? next_id (map ReconciliationLog.id (reconciliation_logs db)))
    eqn:E; [| reflexivity].
  exfalso. apply Z.eqb_eq in E.
  apply (in_map ReconciliationLog.id) in Hl. rewrite E in Hl.
  now apply next_id_not_in in Hl.
Qed.

(** ** Role-based access control *)

Lemma in_joined (db : AccessTables) (p : Permission.t) (rp : RolePermission.t)
  (role : Role.t) (ura : UserRoleAssignment.t) :
  In (p, rp, role, ura) (Rbac.joined db)
  <-> In p (permissions db) /\ In rp (role_permissions db)
      /\ In role (roles db) /\ In ura (user_role_assignments db)
      /\ RolePermission.permission_id rp = Permission.id p
      /\ RolePermission.role_id rp = Role.id role
      /\ UserRoleAssignment.role_id ura = Role.id role.
Proof.
  unfold Rbac.joined. rewrite in_flat_map. split.
  - intros [p' [Hp H]]. apply in_flat_map in H. destruct H as [rp' [Hrp H]].
    apply in_flat_map in H. destruct H as [role' [Hrole H]].
    apply in_map_iff in H. destruct H as [ura' [E Hura]].
    injection E as -> -> -> ->.
    apply filter_In in Hrp, Hrole, Hura.
    destruct Hrp as [Hrp Erp], Hrole as [Hrole Erole], Hura as [Hura Eura].
    apply Z.eqb_eq in Erp, Erole, Eura.
    repeat split; auto.
  - intros [Hp [Hrp [Hrole [Hura [Erp [Erole Eura]]]]]].
    exists p. split; [exact Hp |]. apply in_flat_map.
    exists rp. split; [apply filter_In; split; [exact Hrp | lia] |].
    apply in_flat_map.
    exists role. split; [apply filter_In; split; [exact Hrole | lia] |].
    apply in_map_iff.
    exists ura. split; [reflexivity |].
    apply filter_In. split; [exact Hura | lia].
Qed.

Lemma in_granting (db : AccessTables) (user_id : Z) (resource action : string)
  (c : Rbac.chain) :
  In c (filter (fun c =>
                  (UserRoleAssignment.user_id (Rbac.assignment_of c)
                   =? user_id)
                  && String.eqb (Permission.resource (Rbac.permission_of c))
                                resource
                  && String.eqb (Permission.action (Rbac.permission_of c))
                                action)
               (Rbac.joined db))
  <-> grants db user_id resource action c.
Proof.
  destruct c as [[[p rp] role] ura]. rewrite filter_In, in_joined.
  cbn [Rbac.assignment_of Rbac.permission_of grants].
  rewrite !andb_true_iff, Z.eqb_eq, !String.eqb_eq. tauto.
Qed.

Lemma two_members {A : Type} (l : list A) (x y : A) :
  In x l -> In y l -> x <> y -> exists a b rest, l = a :: b :: rest.
Proof.
  destruct l as [| a [| b rest]].
  - intros [].
  - intros [<- | []] [<- | []] H. now contradiction H.
  - intros _ _ _. now eexists; eexists; eexists.
Qed.

Lemma permission_checker_cases (resource action : string)
  (current_user : User.t) (db : AccessTables) :
  (User.is_superuser current_user = true ->
   Rbac.PermissionChecker resource action current_user db
   = Rbac.Returned current_user)
  /\ (User.is_superuser current_user = false ->
      (Rbac.PermissionChecker resource action current_user db
       = Rbac.HTTPException 403
           ("Access denied: " ++ resource ++ "." ++ action)
       <-> ~ exists c, grants db (User.id current_user) resource action c)
      /\ (Rbac.PermissionChecker resource action current_user db
          = Rbac.Returned current_user ->
          exists c, grants db (User.id current_user) resource action c)
      /\ (forall c1 c2,
             grants db (User.id current_user) resource action c1 ->
             grants db (User.id current_user) resource action c2 ->
             c1 <> c2 ->
             Rbac.PermissionChecker resource action current_user db
             = Rbac.Unhandled MultipleResultsFound)).
Proof.
  unfold Rbac.PermissionChecker, Rbac.check_user_permission. split.
  - now intros ->.
  - intros ->.
    pose proof (in_granting db (User.id current_user) resource action) as Hin.
    destruct (filter _ (Rbac.joined db)) as [| c [| c' rest]] eqn:Hsel;
      cbn [map scalar_one_or_none negb].
    + split; [| split].
      * split; [intros _ [c Hc] | reflexivity].
        apply Hin in Hc. destruct Hc.
      * discriminate.
      * intros c1 c2 H1 _ _. apply Hin in H1. destruct H1.
    + split; [| split].
      * split; [discriminate |]. intros H. exfalso. apply H.
        exists c. apply Hin. now left.
      * intros _. exists c. apply Hin. now left.
      * intros c1 c2 H1 H2 Hne. apply Hin in H1, H2.
        destruct H1 as [<- | []], H2 as [<- | []]. now contradiction Hne.
    + split; [| split].
      * split; [discriminate |]. intros H. exfalso. apply H.
        exists c. apply Hin. now left.
      * discriminate.
      * reflexivity.
Qed.

(** X23: PermissionChecker lets a superuser through without reading the
    tables.  For any other user it answers 403 "Access denied:
    resource.action" exactly when no role of the user carries the
    permission, returns the user only when one does, and ends in
    MultipleResultsFound, not in a grant, when the permission reaches the
    user along two different chains of rows (say through two roles). *)
Theorem permission_checker_decides (resource action : string)
  (current_user : User.t) (db : AccessTables) :
  (User.is_superuser current_user = true ->
   Rbac.PermissionChecker resource action current_user db
   = Rbac.Returned current_user)
  /\ (User.is_superuser current_user = false ->
      (Rbac.PermissionChecker resource action current_user db
       = Rbac.HTTPException 403
           ("Access denied: " ++ resource ++ "." ++ action)
       <-> ~ exists c, grants db (User.id current_user) resource action c)
      /\ (Rbac.PermissionChecker resource action current_user db
          = Rbac.Returned current_user ->
          exists c, grants db (User.id current_user) resource action c)
      /\ (forall c1 c2,
             grants db (User.id current_user) resource action c1 ->
             grants db (User.id current_user) resource action c2 ->
             c1 <> c2 ->
             Rbac.PermissionChecker resource action current_user db
             = Rbac.Unhandled MultipleResultsFound)).
Proof. exact (permission_checker_cases resource action current_user db). Qed.

Lemma permission_checker_decides_witness :
  Rbac.require_stock_write clerk two_roles
  = Rbac.Unhandled MultipleResultsFound
  /\ Rbac.PermissionChecker "stock" "delete" clerk one_role
     = Rbac.HTTPException 403 "Access denied: stock.delete".
Proof.
  split.
  - apply (proj2 (proj2 (proj2 (permission_checker_decides "stock" "write"
                                  clerk two_roles) eq_refl))
             (Permission.mk 1 "stock" "write", RolePermission.mk 1 1 1,
              Role.mk 1 "bar", UserRoleAssignment.mk 1 7 1)
             (Permission.mk 1 "stock" "write", RolePermission.mk 2 2 1,
              Role.mk 2 "cellar", UserRoleAssignment.mk 2 7 2)).
    + cbn. intuition.
    + cbn. intuition.
    + discriminate.
  - apply (proj1 (proj2 (permission_checker_decides "stock" "delete" clerk
                           one_role) eq_refl)).
    intros [[[[p rp] role] ura] H]. cbn in H.
    destruct H as [[<- | []] [_ [_ [_ [_ [_ [_ [_ [_ H]]]]]]]]].
    discriminate.
Defined.

(** X24: what the checker grants, the listings show.  When
    PermissionChecker returns a user who is not a superuser,
    get_user_permissions lists "resource.action" for that user and
    get_user_roles lists a role of theirs. *)
Theorem granted_is_listed (resource action : string) (current_user : User.t)
  (db : AccessTables) :
  User.is_superuser current_user = false ->
  Rbac.PermissionChecker resource action current_user db
  = Rbac.Returned current_user ->
  In (resource ++ "." ++ action)%string
     (Rbac.get_user_permissions db (User.id current_user))
  /\ exists name, In name (Rbac.get_user_roles db (User.id current_user)).
Proof.
  intros Hsuper Hgranted.
  destruct (proj1 (proj2 (proj2 (permission_checker_cases resource action
                                   current_user db) Hsuper)) Hgranted)
    as [[[[p rp] role] ura] Hc].
  pose proof Hc as Hgr. cbn [grants] in Hc.
  destruct Hc as [Hp [Hrp [Hrole [Hura [Erp [Erole [Eura [Eu [Er Ea]]]]]]]]].
  split.
  - unfold Rbac.get_user_permissions. apply in_map_iff.
    exists (p, rp, role, ura). cbn [Rbac.permission_of].
    split; [now rewrite Er, Ea |].
    apply filter_In. split.
    + apply in_joined. repeat split; assumption.
    + cbn [Rbac.assignment_of]. now apply Z.eqb_eq.
  - exists (Role.name role). unfold Rbac.get_user_roles. apply in_map_iff.
    exists (role, ura). split; [reflexivity |].
    apply filter_In. split; [| now apply Z.eqb_eq].
    apply in_flat_map. exists role. split; [exact Hrole |].
    apply in_map_iff. exists ura. split; [reflexivity |].
    apply filter_In. split; [exact Hura | apply Z.eqb_eq; lia].
Qed.

Lemma granted_is_listed_witness :
  In "stock.write"%string (Rbac.get_user_permissions one_role 7)
  /\ exists name, In name (Rbac.get_user_roles one_role 7).
Proof.
  apply (granted_is_listed "stock" "write" clerk one_role); reflexivity.
Defined.

(** ** Terminal authentication *)

Lemma truthy_spec (s : string) : HmacAuth.truthy s = true <-> s <> ""%string.
Proof.
  unfold HmacAuth.truthy. rewrite negb_true_iff. apply String.eqb_neq.
Qed.

Lemma within_window_spec (now timestamp : datetime) :
  (Z.abs (now - timestamp)
   >? settings.TERMINAL_TIME_WINDOW_MINUTES * 60 * 1000000) = false
  <-> within_window now timestamp.
Proof. unfold within_window. rewrite Z.gtb_ltb. apply Z.ltb_ge. Qed.

Lemma compare_digest_spec (a b : string) :
  HmacAuth.compare_digest a b = Some true
  <-> HmacAuth.is_ascii a = true /\ a = b.
Proof.
  unfold HmacAuth.compare_digest. split.
  - destruct (HmacAuth.is_ascii a); [| discriminate].
    destruct (HmacAuth.is_ascii b); [| discriminate].
    cbn. intros [= H]. apply String.eqb_eq in H. now split.
  - intros [Ha <-]. rewrite Ha. cbn. now rewrite String.eqb_refl.
Qed.

Lemma terminal_code_spec (code : string) (t : Terminal.t) :
  String.eqb (Terminal.code t) code = true <-> Terminal.code t = code.
Proof. apply String.eqb_eq. Qed.

Lemma terminal_id_unique (terminals : list Terminal.t) (row t : Terminal.t)
  (terminal : Terminal.t) :
  NoDup (map Terminal.id terminals) -> In row terminals -> In t terminals ->
  Terminal.id terminal = Terminal.id row ->
  (Terminal.id t =? Terminal.id terminal) = true -> t = row.
Proof.
  intros Hnd Hrow Ht Hid E. apply Z.eqb_eq in E.
  apply (NoDup_map_injective Terminal.id terminals); try assumption.
  congruence.
Qed.

(** Saving a heartbeat leaves every other column of every row. *)
Lemma save_terminal_registration (terminals : list Terminal.t)
  (row : Terminal.t) (at_ : datetime) :
  NoDup (map Terminal.id terminals) -> In row terminals ->
  map registration
    (HmacAuth.save_terminal (Terminal.heartbeat at_ row) terminals)
  = map registration terminals.
Proof.
  intros Hnd Hrow. unfold HmacAuth.save_terminal. rewrite map_map.
  apply map_ext_in. intros t Ht.
  destruct (Terminal.id t =? Terminal.id (Terminal.heartbeat at_ row)) eqn:E;
    [| reflexivity].
  now rewrite (terminal_id_unique terminals row t _ Hnd Hrow Ht eq_refl E).
Qed.

(** ... and the row the code selects is the saved one. *)
Lemma save_terminal_selects (terminals : list Terminal.t) (row : Terminal.t)
  (at_ : datetime) (code : string) :
  NoDup (map Terminal.id terminals) -> In row terminals ->
  filter (fun t => String.eqb (Terminal.code t) code) terminals = [row] ->
  filter (fun t => String.eqb (Terminal.code t) code)
    (HmacAuth.save_terminal (Terminal.heartbeat at_ row) terminals)
  = [Terminal.heartbeat at_ row].
Proof.
  intros Hnd Hrow Hsel. unfold HmacAuth.save_terminal.
  rewrite filter_map_commute_in.
  - rewrite Hsel. cbn [map Terminal.heartbeat Terminal.id].
    now rewrite Z.eqb_refl.
  - intros t Ht.
    destruct (Terminal.id t =? Terminal.id (Terminal.heartbeat at_ row))
      eqn:E; [| reflexivity].
    now rewrite (terminal_id_unique terminals row t _ Hnd Hrow Ht eq_refl E).
Qed.

Section TerminalAuth.

Variable fromisoformat : string -> option datetime.
Variable decode_utf8 : string -> option string.
Variable hmac_sha256_hexdigest : string -> string -> string.

Local Abbreviation verify :=
  (HmacAuth.verify_hmac_signature fromisoformat decode_utf8
     hmac_sha256_hexdigest).

Local Abbreviation is_authentic :=
  (authentic fromisoformat decode_utf8 hmac_sha256_hexdigest).

Ltac verify_cases :=
  unfold HmacAuth.verify_hmac_signature, HmacAuth.get_terminal_by_code,
    scalar_one_or_none;
  repeat match goal with
         | |- context [match ?x with _ => _ end] => destruct x eqn:?
         end.

(** Whatever is not a return is a 401 or an exception, and has written
    nothing. *)
Lemma verify_hmac_signature_rejects (now utcnow : datetime)
  (request : Request.t) (terminals : list Terminal.t) :
  (exists terminal, fst (verify now utcnow request terminals)
                    = Http.Returned terminal)
  \/ (snd (verify now utcnow request terminals) = terminals
      /\ forall status_code detail,
           fst (verify now utcnow request terminals)
           = Http.HTTPException status_code detail ->
           status_code = 401).
Proof.
  verify_cases; cbn [fst snd];
    solve [ left; eexists; reflexivity
          | right; split; [reflexivity |];
            intros ? ? H;
            first [discriminate H | injection H as <- _; reflexivity] ].
Qed.

(** The only exception of the lookup of the terminal is that of a code
    shared by two terminals. *)
Lemma verify_hmac_signature_unhandled (now utcnow : datetime)
  (request : Request.t) (terminals : list Terminal.t) (e : exn) :
  fst (verify now utcnow request terminals)
  = Http.Unhandled (Http.ServiceError e) ->
  e = MultipleResultsFound.
Proof.
  verify_cases; cbn [fst]; intros H; try discriminate H.
  injection H as <-.
  destruct (filter _ terminals) as [| r [| r2 rest]]; congruence.
Qed.

Lemma verify_hmac_signature_returned (now utcnow : datetime)
  (request : Request.t) (terminals terminals' : list Terminal.t)
  (terminal : Terminal.t) :
  verify now utcnow request terminals = (Http.Returned terminal, terminals') ->
  exists row,
    filter (fun t => String.eqb (Terminal.code t) (Terminal.code row))
           terminals = [row]
    /\ In row terminals
    /\ Terminal.is_active row = true
    /\ is_authentic now request row
    /\ terminal = Terminal.heartbeat utcnow row
    /\ terminals' = HmacAuth.save_terminal terminal terminals.
Proof.
  unfold HmacAuth.verify_hmac_signature, HmacAuth.get_terminal_by_code.
  destruct (Request.x_terminal_id request) as [c |] eqn:Hc;
    [| cbv beta iota; discriminate].
  destruct (Request.x_timestamp request) as [h |] eqn:Hh;
    [| cbv beta iota; discriminate].
  destruct (Request.x_signature request) as [sg |] eqn:Hsg;
    [| cbv beta iota; discriminate].
  destruct (HmacAuth.truthy c && HmacAuth.truthy h && HmacAuth.truthy sg)
    eqn:Htruthy; cbn [negb]; [| discriminate].
  apply andb_true_iff in Htruthy. destruct Htruthy as [Htruthy Htsg].
  apply andb_true_iff in Htruthy. destruct Htruthy as [Htc Hth].
  apply truthy_spec in Htc, Hth, Htsg.
  destruct (fromisoformat _) as [ts |] eqn:Hts; [| discriminate].
  cbv zeta.
  destruct (Z.abs (now - ts) >? _) eqn:Hw; [discriminate |].
  apply within_window_spec in Hw.
  destruct (filter _ terminals) as [| row [| row2 rest]] eqn:Hsel;
    cbn [scalar_one_or_none]; try discriminate.
  destruct (Terminal.is_active row) eqn:Hactive; cbn [negb];
    [| discriminate].
  destruct (decode_utf8 _) as [text |] eqn:Htext; [| discriminate].
  destruct (HmacAuth.compare_digest _ _) as [[|] |] eqn:Hcmp;
    try discriminate.
  apply compare_digest_spec in Hcmp. destruct Hcmp as [Hascii Hdigest].
  intros [= <- <-].
  assert (Hin : In row (filter (fun t => String.eqb (Terminal.code t) c)
                               terminals)) by (rewrite Hsel; now left).
  apply filter_In in Hin. destruct Hin as [Hin Hcode].
  apply String.eqb_eq in Hcode. subst c.
  exists row. repeat split; try assumption.
  exists h, ts, text, sg. repeat split; assumption.
Qed.

Lemma verify_hmac_signature_accepted (now utcnow : datetime)
  (request : Request.t) (terminals : list Terminal.t) (row : Terminal.t) :
  filter (fun t => String.eqb (Terminal.code t) (Terminal.code row))
         terminals = [row] ->
  Terminal.is_active row = true ->
  is_authentic now request row ->
  verify now utcnow request terminals
  = (Http.Returned (Terminal.heartbeat utcnow row),
     HmacAuth.save_terminal (Terminal.heartbeat utcnow row) terminals).
Proof.
  intros Hsel Hactive
    [h [ts [text [sg [Hc [Htc [Hh [Hth [Hts [Hw [Htext [Hsg [Htsg
                                                  [Hascii Hdigest]]]]]]]]]]]]]].
  unfold HmacAuth.verify_hmac_signature, HmacAuth.get_terminal_by_code.
  rewrite Hc, Hh, Hsg.
  rewrite (proj2 (truthy_spec _) Htc), (proj2 (truthy_spec _) Hth),
    (proj2 (truthy_spec _) Htsg).
  cbn [andb negb]. rewrite Hts. cbv zeta.
  rewrite (proj2 (within_window_spec _ _) Hw).
  rewrite Hsel. cbn [scalar_one_or_none]. rewrite Hactive. cbn [negb].
  rewrite Htext.
  unfold signed_message in Hdigest.
  unfold HmacAuth.calculate_hmac_signature.
  now rewrite (proj2 (compare_digest_spec _ _) (conj Hascii Hdigest)).
Qed.

(** A request accepted once is accepted again at every reading of the clock
    inside the window of its timestamp. *)
Lemma verify_hmac_signature_again (now utcnow now' utcnow' : datetime)
  (request : Request.t) (terminals terminals1 : list Terminal.t)
  (terminal : Terminal.t) (timestamp_header : string) (timestamp : datetime) :
  NoDup (map Terminal.id terminals) ->
  verify now utcnow request terminals = (Http.Returned terminal, terminals1) ->
  Request.x_timestamp request = Some timestamp_header ->
  fromisoformat (HmacAuth.replace "Z" "+00:00" timestamp_header)
  = Some timestamp ->
  within_window now' timestamp ->
  verify now' utcnow' request terminals1
  = (Http.Returned (Terminal.heartbeat utcnow' terminal),
     HmacAuth.save_terminal (Terminal.heartbeat utcnow' terminal) terminals1).
Proof.
  intros Hnd Hfirst Hh Hts Hw.
  destruct (verify_hmac_signature_returned _ _ _ _ _ _ Hfirst)
    as [row [Hsel [Hin [Hactive [Hauth [-> ->]]]]]].
  apply verify_hmac_signature_accepted.
  - exact (save_terminal_selects _ _ _ _ Hnd Hin Hsel).
  - exact Hactive.
  - destruct Hauth
      as [h [ts [text [sg [Hc [Htc [Hh' [Hth [Hts' [_ [Htext [Hsg [Htsg
                                                  [Hascii Hdigest]]]]]]]]]]]]]].
    rewrite Hh in Hh'. injection Hh' as <-.
    exists timestamp_header, timestamp, text, sg.
    repeat split; assumption.
Qed.

(** X25: with the codes of the terminals distinct, verify_hmac_signature
    returns exactly for the authentic requests of an active registered
    terminal: the request names its code, the timestamp lies within five
    minutes of the clock, and the signature is the HMAC digest, under the
    secret of that terminal, of method, path, timestamp header and body.
    It then returns that terminal with the heartbeat set to the clock and
    saves it. *)
Theorem verify_hmac_signature_accepts (now utcnow : datetime)
  (request : Request.t) (terminals terminals' : list Terminal.t)
  (terminal : Terminal.t) :
  NoDup (map Terminal.code terminals) ->
  verify now utcnow request terminals = (Http.Returned terminal, terminals')
  <-> exists row,
        In row terminals
        /\ Terminal.is_active row = true
        /\ is_authentic now request row
        /\ terminal = Terminal.heartbeat utcnow row
        /\ terminals' = HmacAuth.save_terminal terminal terminals.
Proof.
  intros Hnd. split.
  - intros H.
    destruct (verify_hmac_signature_returned _ _ _ _ _ _ H)
      as [row [_ [Hin [Hactive [Hauth [Ht Hsave]]]]]].
    exists row. repeat split; assumption.
  - intros [row [Hin [Hactive [Hauth [-> ->]]]]].
    apply verify_hmac_signature_accepted; try assumption.
    exact (filter_keyed Terminal.code _ _
             (terminal_code_spec (Terminal.code row)) terminals row Hnd Hin
             eq_refl).
Qed.

Lemma save_terminal_ids (terminal : Terminal.t) (terminals : list Terminal.t) :
  map Terminal.id (HmacAuth.save_terminal terminal terminals)
  = map Terminal.id terminals.
Proof.
  unfold HmacAuth.save_terminal. rewrite map_map. apply map_ext.
  intros t. destruct (Terminal.id t =? Terminal.id terminal) eqn:E;
    [| reflexivity].
  apply Z.eqb_eq in E. now rewrite E.
Qed.

(** X26: verify_hmac_signature writes the heartbeat and nothing else.  With
    distinct primary keys, every other column of every terminal is after
    the call what it was before; a call that does not return has written
    nothing at all, and the HTTPException it may raise has status 401. *)
Theorem verify_hmac_signature_writes (now utcnow : datetime)
  (request : Request.t) (terminals : list Terminal.t) :
  NoDup (map Terminal.id terminals) ->
  map registration (snd (verify now utcnow request terminals))
  = map registration terminals
  /\ ((forall terminal,
          fst (verify now utcnow request terminals)
          <> Http.Returned terminal) ->
      snd (verify now utcnow request terminals) = terminals)
  /\ (forall status_code detail,
         fst (verify now utcnow request terminals)
         = Http.HTTPException status_code detail ->
         status_code = 401).
Proof.
  intros Hnd.
  destruct (verify_hmac_signature_rejects now utcnow request terminals)
    as [[terminal H] | [Hsame H401]].
  - destruct (verify now utcnow request terminals) as [r terminals'] eqn:Hrun.
    cbn [fst snd] in H |- *. subst r.
    destruct (verify_hmac_signature_returned _ _ _ _ _ _ Hrun)
      as [row [_ [Hin [_ [_ [-> ->]]]]]].
    split; [now apply save_terminal_registration |]. split.
    + intros Hno. now contradiction (Hno _ eq_refl).
    + discriminate.
  - rewrite Hsame. repeat split; auto.
Qed.

(** X27: the timestamp bounds the age of a request, not the number of times
    it is accepted.  With distinct primary keys, a request that has been
    accepted is accepted again, in the table the first call left, at every
    later reading of the clock that is still inside the window of its
    timestamp; the terminal is returned with the newer heartbeat, and the
    table still differs from the first one in heartbeats only. *)
Theorem replay_within_window (now utcnow now' utcnow' : datetime)
  (request : Request.t) (terminals terminals1 : list Terminal.t)
  (terminal : Terminal.t) (timestamp_header : string) (timestamp : datetime) :
  NoDup (map Terminal.id terminals) ->
  verify now utcnow request terminals = (Http.Returned terminal, terminals1) ->
  Request.x_timestamp request = Some timestamp_header ->
  fromisoformat (HmacAuth.replace "Z" "+00:00" timestamp_header)
  = Some timestamp ->
  within_window now' timestamp ->
  verify now' utcnow' request terminals1
  = (Http.Returned (Terminal.heartbeat utcnow' terminal),
     HmacAuth.save_terminal (Terminal.heartbeat utcnow' terminal) terminals1)
  /\ map registration
       (HmacAuth.save_terminal (Terminal.heartbeat utcnow' terminal)
          terminals1)
     = map registration terminals.
Proof.
  intros Hnd Hfirst Hh Hts Hw. split.
  - exact (verify_hmac_signature_again _ _ _ _ _ _ _ _ _ _ Hnd Hfirst Hh Hts
             Hw).
  - destruct (verify_hmac_signature_returned _ _ _ _ _ _ Hfirst)
      as [row [_ [Hin [_ [_ [-> ->]]]]]].
    rewrite save_terminal_registration.
    + now apply save_terminal_registration.
    + now rewrite save_terminal_ids.
    + unfold HmacAuth.save_terminal at 1. apply in_map_iff.
      exists row. split; [| exact Hin].
      cbn [Terminal.heartbeat Terminal.id]. now rewrite Z.eqb_refl.
Qed.

End TerminalAuth.

Lemma verify_hmac_signature_accepts_witness :
  HmacAuth.verify_hmac_signature sample_fromisoformat sample_decode
    sample_digest (midnight + 299000000) (midnight + 299500000) sale_request
    bar_terminals
  = (Http.Returned
       (Terminal.mk 1 "Bar" "bar_1" (Some 1) true (Some (midnight + 299500000))
          "5ec2e7"),
     [Terminal.mk 1 "Bar" "bar_1" (Some 1) true (Some (midnight + 299500000))
        "5ec2e7"]).
Proof.
  apply (verify_hmac_signature_accepts sample_fromisoformat sample_decode
           sample_digest).
  - repeat constructor. intros [].
  - exists (Terminal.mk 1 "Bar" "bar_1" (Some 1) true None "5ec2e7").
    split; [now left |]. split; [reflexivity |].
    split; [| split; reflexivity].
    exists "2024-01-01T00:00:00Z"%string, midnight, "{}"%string,
      "5ec2e7"%string.
    repeat split; try reflexivity; discriminate.
Defined.

Lemma verify_hmac_signature_writes_witness :
  map registration
    (snd (HmacAuth.verify_hmac_signature sample_fromisoformat sample_decode
            sample_digest (midnight + 1) (midnight + 2) sale_request
            bar_terminals))
  = map registration bar_terminals
  /\ snd (HmacAuth.verify_hmac_signature sample_fromisoformat sample_decode
            sample_digest (midnight + 300000001) (midnight + 300000002)
            sale_request bar_terminals)
     = bar_terminals.
Proof.
  split.
  - apply (verify_hmac_signature_writes sample_fromisoformat sample_decode
             sample_digest).
    repeat constructor. intros [].
  - apply (verify_hmac_signature_writes sample_fromisoformat sample_decode
             sample_digest).
    + repeat constructor. intros [].
    + intros terminal. vm_compute. discriminate.
Defined.

Lemma replay_within_window_witness :
  HmacAuth.verify_hmac_signature sample_fromisoformat sample_decode
    sample_digest (midnight + 200000000) (midnight + 200000001) sale_request
    (snd (HmacAuth.verify_hmac_signature sample_fromisoformat sample_decode
            sample_digest (midnight + 1) (midnight + 2) sale_request
            bar_terminals))
  = (Http.Returned
       (Terminal.mk 1 "Bar" "bar_1" (Some 1) true (Some (midnight + 200000001))
          "5ec2e7"),
     [Terminal.mk 1 "Bar" "bar_1" (Some 1) true (Some (midnight + 200000001))
        "5ec2e7"]).
Proof.
  refine (proj1 (replay_within_window sample_fromisoformat sample_decode
                   sample_digest (midnight + 1) (midnight + 2)
                   (midnight + 200000000) (midnight + 200000001) sale_request
                   bar_terminals _
                   (Terminal.mk 1 "Bar" "bar_1" (Some 1) true
                      (Some (midnight + 2)) "5ec2e7")
                   "2024-01-01T00:00:00Z" midnight _ _ _ _ _)).
  - repeat constructor. intros [].
  - reflexivity.
  - reflexivity.
  - reflexivity.
  - vm_compute. discriminate.
Defined.

(** ** The routes of the transactions API *)

Lemma permission_checker_status (resource action : string) (user : User.t)
  (access : AccessTables) (status_code : Z) (detail : string) :
  Rbac.PermissionChecker resource action user access
  = Rbac.HTTPException status_code detail ->
  status_code = 403.
Proof.
  unfold Rbac.PermissionChecker.
  destruct (User.is_superuser user); [discriminate |].
  destruct (Rbac.check_user_permission _ _ _ _) as [[|] |];
    cbn [negb]; try discriminate.
  now intros [= <- _].
Qed.

(** The ValueErrors of the two transitions are raised before anything is
    written, and only when no pending transaction is stored under the
    key. *)
Lemma confirm_transaction_value_error (now : datetime) (transaction_id : Z)
  (db db' : Database) (msg : value_error) :
  TransactionService.confirm_transaction now transaction_id db
  = (Raise (ValueError msg), db') ->
  db' = db
  /\ forall t,
       TransactionService.get_transaction transaction_id db = Some t ->
       SaleTransaction.status t <> PENDING.
Proof.
  destruct (TransactionService.get_transaction transaction_id db)
    as [t |] eqn:Hget.
  - destruct (status_eqb (SaleTransaction.status t) PENDING) eqn:Hst.
    + apply status_eqb_pending in Hst.
      destruct (confirm_pending_cases now _ _ _ Hget Hst)
        as [[db1 [-> _]] | [[m ->] | ->]]; discriminate.
    + rewrite (confirm_transaction_not_pending _ _ _ _ Hget Hst).
      intros [= _ <-]. split; [reflexivity |].
      intros t' [= <-] Hp. rewrite Hp in Hst. discriminate.
  - rewrite (confirm_transaction_missing _ _ _ Hget).
    intros [= _ <-]. split; [reflexivity | discriminate].
Qed.

Lemma cancel_transaction_value_error (now : datetime) (transaction_id : Z)
  (db db' : Database) (msg : value_error) :
  TransactionService.cancel_transaction now transaction_id db
  = (Raise (ValueError msg), db') ->
  db' = db
  /\ forall t,
       TransactionService.get_transaction transaction_id db = Some t ->
       SaleTransaction.status t <> PENDING.
Proof.
  destruct (TransactionService.get_transaction transaction_id db)
    as [t |] eqn:Hget.
  - destruct (status_eqb (SaleTransaction.status t) PENDING) eqn:Hst.
    + apply status_eqb_pending in Hst.
      destruct (cancel_pending_cases now _ _ _ Hget Hst)
        as [[db1 [-> _]] | ->]; discriminate.
    + rewrite (cancel_transaction_not_pending _ _ _ _ Hget Hst).
      intros [= _ <-]. split; [reflexivity |].
      intros t' [= <-] Hp. rewrite Hp in Hst. discriminate.
  - rewrite (cancel_transaction_missing _ _ _ Hget).
    intros [= _ <-]. split; [reflexivity | discriminate].
Qed.

(** The [ValidationError] of a transition comes after its commits: the
    transaction was pending and is on record in its new status. *)
Lemma confirm_transaction_validation_error (now : datetime)
  (transaction_id : Z) (db db' : Database) :
  TransactionService.confirm_transaction now transaction_id db
  = (Raise ValidationError, db') ->
  exists t,
    TransactionService.get_transaction transaction_id db = Some t
    /\ SaleTransaction.status t = PENDING
    /\ TransactionService.get_transaction transaction_id db'
       = Some (SaleTransaction.processed CONFIRMED now t).
Proof.
  intros H.
  destruct (TransactionService.get_transaction transaction_id db)
    as [t |] eqn:Hget.
  - destruct (status_eqb (SaleTransaction.status t) PENDING) eqn:Hst.
    + apply status_eqb_pending in Hst.
      destruct (confirm_pending_cases now _ _ _ Hget Hst)
        as [[db1 [E Htx]] | [[m E] | E]]; rewrite E in H;
        [| discriminate | discriminate].
      injection H as <-. exists t. split; [reflexivity |].
      split; [exact Hst |].
      now apply get_transaction_saved with (db := db) (t := t).
    + rewrite (confirm_transaction_not_pending _ _ _ _ Hget Hst) in H.
      discriminate.
  - rewrite (confirm_transaction_missing _ _ _ Hget) in H. discriminate.
Qed.

Lemma cancel_transaction_validation_error (now : datetime)
  (transaction_id : Z) (db db' : Database) :
  TransactionService.cancel_transaction now transaction_id db
  = (Raise ValidationError, db') ->
  exists t,
    TransactionService.get_transaction transaction_id db = Some t
    /\ SaleTransaction.status t = PENDING
    /\ TransactionService.get_transaction transaction_id db'
       = Some (SaleTransaction.processed CANCELLED now t).
Proof.
  intros H.
  destruct (TransactionService.get_transaction transaction_id db)
    as [t |] eqn:Hget.
  - destruct (status_eqb (SaleTransaction.status t) PENDING) eqn:Hst.
    + apply status_eqb_pending in Hst.
      destruct (cancel_pending_cases now _ _ _ Hget Hst)
        as [[db1 [E Htx]] | E]; rewrite E in H; [| discriminate].
      injection H as <-. exists t. split; [reflexivity |].
      split; [exact Hst |].
      now apply get_transaction_saved with (db := db) (t := t).
    + rewrite (cancel_transaction_not_pending _ _ _ _ Hget Hst) in H.
      discriminate.
  - rewrite (cancel_transaction_missing _ _ _ Hget) in H. discriminate.
Qed.

Lemma respond_http_error {A : Type} (r : result A * Database)
  (status_code : Z) (detail : Http.detail) (db' : Database) :
  Api.respond r <> (Http.HTTPException status_code detail, db').
Proof. destruct r as [[a | e] db]; discriminate. Qed.

(** [except ValueError] catches the [ValueError]s of the service and the
    [ValidationError] of [from_orm], and nothing else. *)
Lemma bad_request_http_error {A : Type} (r : result A * Database)
  (status_code : Z) (detail : Http.detail) (db' : Database) :
  Api.bad_request r = (Http.HTTPException status_code detail, db') ->
  status_code = 400
  /\ ((exists msg,
          r = (Raise (ValueError msg), db')
          /\ detail = Http.Str (ValueError msg))
      \/ (r = (Raise ValidationError, db')
          /\ detail = Http.Str ValidationError)).
Proof.
  destruct r as [[a | e] db]; [discriminate |].
  destruct e; try discriminate; intros [= <- <- <-];
    (split; [reflexivity |]); [left; now eexists | now right].
Qed.

(** A route behind a permission checker that answers with an HTTPException
    either was stopped by the checker, or its body raised it. *)
Lemma depends_http_error {B : Type} (resource action : string)
  (user : User.t) (access : AccessTables)
  (body : User.t -> Database -> Http.response B * Database)
  (db db' : Database) (status_code : Z) (detail : Http.detail) :
  Api.depends (Rbac.PermissionChecker resource action user access) body db
  = (Http.HTTPException status_code detail, db') ->
  (status_code = 403 /\ db' = db)
  \/ exists current_user,
       body current_user db = (Http.HTTPException status_code detail, db').
Proof.
  unfold Api.depends.
  destruct (Rbac.PermissionChecker resource action user access)
    as [a | c d | e] eqn:Hdep.
  - intros H. right. now exists a.
  - intros [= <- _ <-]. left.
    split; [exact (permission_checker_status _ _ _ _ _ _ Hdep) | reflexivity].
  - discriminate.
Qed.

(** A create that ends in [ValidationError] leaves the event on exactly one
    record. *)
Lemma create_sale_transaction_validation_error
  (transaction_data : SaleTransactionCreate.t) (user_id : option Z)
  (db db1 : Database) :
  TransactionService.create_sale_transaction transaction_data user_id db
  = (Raise ValidationError, db1) ->
  exists t,
    TransactionService.select_by_event_id
      (SaleTransactionCreate.event_id transaction_data) db1 = [t].
Proof.
  intros H.
  destruct (TransactionService.select_by_event_id
              (SaleTransactionCreate.event_id transaction_data) db)
    as [| x [| x2 rest]] eqn:Hsel.
  - destruct (TransactionService.get_product
                (SaleTransactionCreate.product_id transaction_data) db)
      eqn:Hp.
    + rewrite (create_sale_transaction_new _ _ _ Hsel Hp) in H.
      injection H as <-. eexists.
      now apply select_by_event_id_inserted.
    + rewrite (create_sale_transaction_unknown_product _ _ _ Hsel Hp) in H.
      discriminate.
  - rewrite (create_sale_transaction_existing _ _ _ _ Hsel) in H.
    injection H as <-. now exists x.
  - rewrite (create_sale_transaction_many _ _ _ _ _ _ Hsel) in H.
    discriminate.
Qed.

Section Routes.

Variable fromisoformat : string -> option datetime.
Variable decode_utf8 : string -> option string.
Variable hmac_sha256_hexdigest : string -> string -> string.

Local Abbreviation verify :=
  (HmacAuth.verify_hmac_signature fromisoformat decode_utf8
     hmac_sha256_hexdigest).

Lemma authenticated_http_error {B : Type} (now utcnow : datetime)
  (request : Request.t) (service : M B)
  (state state' : list Terminal.t * Database) (status_code : Z)
  (detail : Http.detail) :
  Api.authenticated fromisoformat decode_utf8 hmac_sha256_hexdigest now utcnow
    request (fun db => Api.respond (service db)) state
  = (Http.HTTPException status_code detail, state') ->
  state' = state /\ status_code = 401.
Proof.
  unfold Api.authenticated, HmacAuth.require_terminal_auth.
  destruct (verify_hmac_signature_rejects fromisoformat decode_utf8
              hmac_sha256_hexdigest now utcnow request (fst state))
    as [[terminal H] | [Hsame H401]].
  - destruct (verify now utcnow request (fst state)) as [a terminals].
    cbn [fst] in H. subst a.
    destruct (service (snd state)) as [[b | e] db]; discriminate.
  - destruct (verify now utcnow request (fst state)) as [a terminals].
    cbn [fst snd] in Hsame, H401. subst terminals.
    destruct a as [terminal | c d | e].
    + destruct (service (snd state)) as [[b | e] db]; discriminate.
    + intros [= <- <- <-]. split; [now destruct state |].
      exact (H401 _ _ eq_refl).
    + discriminate.
Qed.

(** X28: what an HTTPException of a route of the transactions API tells.
    From the create route it is the 403 of the permission checker, and
    nothing has been written.  From the terminal-sales and reconcile routes
    it is the 401 of the terminal authentication, and nothing has been
    written, in the table of terminals either.  From the confirm and cancel
    routes it is that 403, or a 400 made of what [except ValueError]
    caught: a ValueError of the service, raised before anything was
    written, or the [ValidationError] of [from_orm], raised after the
    commits, in which case the transaction was pending and is on record as
    confirmed (or cancelled) when the route answers 400. *)
Theorem http_error_writes :
  (forall transaction user access db status_code detail db',
      Api.create_sale_transaction transaction user access db
      = (Http.HTTPException status_code detail, db') ->
      db' = db /\ status_code = 403)
  /\ (forall now transaction_id user access db status_code detail db',
         Api.confirm_sale_transaction now transaction_id user access db
         = (Http.HTTPException status_code detail, db') ->
         (status_code = 403 /\ db' = db)
         \/ (status_code = 400
             /\ exists msg, detail = Http.Str (ValueError msg) /\ db' = db)
         \/ (status_code = 400
             /\ detail = Http.Str ValidationError
             /\ exists t,
                 TransactionService.get_transaction transaction_id db = Some t
                 /\ SaleTransaction.status t = PENDING
                 /\ TransactionService.get_transaction transaction_id db'
                    = Some (SaleTransaction.processed CONFIRMED now t)))
  /\ (forall now transaction_id user access db status_code detail db',
         Api.cancel_sale_transaction now transaction_id user access db
         = (Http.HTTPException status_code detail, db') ->
         (status_code = 403 /\ db' = db)
         \/ (status_code = 400
             /\ exists msg, detail = Http.Str (ValueError msg) /\ db' = db)
         \/ (status_code = 400
             /\ detail = Http.Str ValidationError
             /\ exists t,
                 TransactionService.get_transaction transaction_id db = Some t
                 /\ SaleTransaction.status t = PENDING
                 /\ TransactionService.get_transaction transaction_id db'
                    = Some (SaleTransaction.processed CANCELLED now t)))
  /\ (forall now utcnow request transaction state status_code detail state',
         Api.create_terminal_sale_transaction fromisoformat decode_utf8
           hmac_sha256_hexdigest now utcnow request transaction state
         = (Http.HTTPException status_code detail, state') ->
         state' = state /\ status_code = 401)
  /\ (forall now utcnow clock request terminal_id start_time end_time
             transactions state status_code detail state',
         Api.reconcile_terminal_transactions fromisoformat decode_utf8
           hmac_sha256_hexdigest now utcnow clock request terminal_id
           start_time end_time transactions state
         = (Http.HTTPException status_code detail, state') ->
         state' = state /\ status_code = 401).
Proof.
  split; [| split; [| split; [| split]]].
  - intros transaction user access db c d db' H.
    apply depends_http_error in H. destruct H as [[-> ->] | [u H]].
    + now split.
    + now apply respond_http_error in H.
  - intros now transaction_id user access db c d db' H.
    apply depends_http_error in H. destruct H as [[-> ->] | [u H]].
    + now left.
    + right. apply bad_request_http_error in H.
      destruct H as [-> [[msg [H ->]] | [H ->]]].
      * left. split; [reflexivity |]. exists msg. split; [reflexivity |].
        exact (proj1 (confirm_transaction_value_error _ _ _ _ _ H)).
      * right. split; [reflexivity |]. split; [reflexivity |].
        now apply confirm_transaction_validation_error.
  - intros now transaction_id user access db c d db' H.
    apply depends_http_error in H. destruct H as [[-> ->] | [u H]].
    + now left.
    + right. apply bad_request_http_error in H.
      destruct H as [-> [[msg [H ->]] | [H ->]]].
      * left. split; [reflexivity |]. exists msg. split; [reflexivity |].
        exact (proj1 (cancel_transaction_value_error _ _ _ _ _ H)).
      * right. split; [reflexivity |]. split; [reflexivity |].
        now apply cancel_transaction_validation_error.
  - intros now utcnow request transaction state c d state' H.
    exact (authenticated_http_error now utcnow request _ state state' c d H).
  - intros now utcnow clock request terminal_id start_time end_time
      transactions state c d state' H.
    exact (authenticated_http_error now utcnow request _ state state' c d H).
Qed.

(** X29: a terminal sale that is sent twice is recorded once, and answered
    neither time.  With distinct primary keys of the terminals, when the
    terminal-sales route has ended in the [ValidationError] of the service
    for a request (which it does whenever it has stored the sale), the same
    request arriving again while the clock is still inside the window of
    its timestamp is authenticated again and ends in the same exception;
    the event of the sale is on one record, and the sale transactions, the
    stock and the rest of the database stay as the first call left them. *)
Theorem terminal_sale_replay (now utcnow now' utcnow' : datetime)
  (request : Request.t) (transaction : SaleTransactionCreate.t)
  (terminals terminals1 : list Terminal.t) (db db1 : Database)
  (timestamp_header : string) (timestamp : datetime) :
  NoDup (map Terminal.id terminals) ->
  Api.create_terminal_sale_transaction fromisoformat decode_utf8
    hmac_sha256_hexdigest now utcnow request transaction (terminals, db)
  = (Http.Unhandled (Http.ServiceError ValidationError), (terminals1, db1)) ->
  Request.x_timestamp request = Some timestamp_header ->
  fromisoformat (HmacAuth.replace "Z" "+00:00" timestamp_header)
  = Some timestamp ->
  within_window now' timestamp ->
  (exists terminals2,
      Api.create_terminal_sale_transaction fromisoformat decode_utf8
        hmac_sha256_hexdigest now' utcnow' request transaction
        (terminals1, db1)
      = (Http.Unhandled (Http.ServiceError ValidationError),
         (terminals2, db1)))
  /\ exists t,
      TransactionService.select_by_event_id
        (SaleTransactionCreate.event_id transaction) db1 = [t].
Proof.
  intros Hnd Hfirst Hh Hts Hw.
  unfold Api.create_terminal_sale_transaction, Api.authenticated,
    HmacAuth.require_terminal_auth in Hfirst |- *.
  cbn [fst snd] in Hfirst |- *.
  destruct (verify now utcnow request terminals) as [[terminal | c d | e] T1]
    eqn:Hverify; try discriminate.
  2:{ injection Hfirst as -> _ _.
      pose proof (verify_hmac_signature_unhandled fromisoformat decode_utf8
                    hmac_sha256_hexdigest now utcnow request terminals
                    ValidationError) as Hkind.
      rewrite Hverify in Hkind. discriminate (Hkind eq_refl). }
  destruct (TransactionService.create_sale_transaction transaction None db)
    as [[x | e] dbx] eqn:Hcreate; cbn [Api.respond] in Hfirst;
    [discriminate |].
  injection Hfirst as -> -> ->.
  destruct (create_sale_transaction_validation_error _ _ _ _ Hcreate)
    as [t Ht].
  split; [| now exists t].
  rewrite (verify_hmac_signature_again fromisoformat decode_utf8
             hmac_sha256_hexdigest _ _ now' utcnow' _ _ _ _ _ _ Hnd Hverify
             Hh Hts Hw).
  rewrite (create_sale_transaction_existing transaction None db1 t Ht).
  cbn [Api.respond]. now eexists.
Qed.

End Routes.

(** X30: the confirm route, for a caller the permission checker lets
    through, never answers with a transaction.  It answers 400 with the
    ValueError of the service, and writes nothing, when no pending
    transaction is stored under the identifier, whether none is stored or
    the stored one is already confirmed, cancelled or failed.  On a pending
    transaction it answers 400 as well when the confirmation goes through:
    the stock is consumed, the transaction is committed as confirmed, and
    the [ValidationError] of [from_orm] is caught by [except ValueError].
    Insufficient stock is not among the errors it translates: the
    InsufficientStockError leaves the route as it left the service, after
    the transaction has been saved as failed. *)
Theorem confirm_route_answers (now : datetime) (transaction_id : Z)
  (user : User.t) (access : AccessTables) (db : Database) :
  Rbac.require_stock_write user access = Rbac.Returned user ->
  let answer := Api.confirm_sale_transaction now transaction_id user access db in
  (forall t, fst answer <> Http.Returned t)
  /\ ((forall t,
          TransactionService.get_transaction transaction_id db = Some t ->
          SaleTransaction.status t <> PENDING) ->
      exists msg, answer = (Http.HTTPException 400 (Http.Str (ValueError msg)), db))
  /\ forall t,
       TransactionService.get_transaction transaction_id db = Some t ->
       SaleTransaction.status t = PENDING ->
       (no_stock_row (SaleTransaction.product_id t)
                     (SaleTransaction.location_id t) db ->
        answer
        = (Http.HTTPException 400 (Http.Str ValidationError),
           TransactionService.save_transaction
             (SaleTransaction.processed CONFIRMED now t) db))
       /\ forall s,
           stock_row (SaleTransaction.product_id t)
                     (SaleTransaction.location_id t) db s ->
           ((StockLevel.quantity s - StockLevel.reserved_quantity s
             < SaleTransaction.converted_quantity t)%Qc ->
            answer
            = (Http.Unhandled
                 (Http.ServiceError
                    (InsufficientStockError
                       (Insufficient (SaleTransaction.converted_quantity t)
                          (StockLevel.quantity s
                           - StockLevel.reserved_quantity s)%Qc))),
               TransactionService.save_transaction
                 (SaleTransaction.processed FAILED now t) db))
           /\ ((SaleTransaction.converted_quantity t
                <= StockLevel.quantity s - StockLevel.reserved_quantity s)%Qc ->
               numeric 12 4
                 (StockLevel.quantity s
                  - SaleTransaction.converted_quantity t)%Qc = true ->
               numeric 12 4
                 (py_max 0%Qc
                    (StockLevel.reserved_quantity s
                     - SaleTransaction.converted_quantity t)%Qc) = true ->
               fst answer = Http.HTTPException 400 (Http.Str ValidationError)
               /\ TransactionService.get_transaction transaction_id
                    (snd answer)
                  = Some (SaleTransaction.processed CONFIRMED now t)
               /\ stock_row (SaleTransaction.product_id t)
                    (SaleTransaction.location_id t) (snd answer)
                    (StockLevel.values
                       (StockLevel.quantity s
                        - SaleTransaction.converted_quantity t)%Qc
                       (py_max 0%Qc
                          (StockLevel.reserved_quantity s
                           - SaleTransaction.converted_quantity t)%Qc) s)).
Proof.
  intros Hallowed answer. unfold answer, Api.confirm_sale_transaction,
    Api.depends.
  rewrite Hallowed. split; [| split].
  - intros t.
    destruct (confirm_transaction_raises now transaction_id db) as [e He].
    destruct (TransactionService.confirm_transaction now transaction_id db)
      as [[r | e'] db']; cbn [fst] in He; [discriminate |].
    unfold Api.bad_request, Api.respond.
    destruct (is_ValueError e'); discriminate.
  - intros Hnone.
    destruct (TransactionService.get_transaction transaction_id db)
      as [t |] eqn:Hget.
    + assert (Hst : status_eqb (SaleTransaction.status t) PENDING = false).
      { destruct (status_eqb _ PENDING) eqn:E; [| reflexivity].
        apply status_eqb_pending in E. now contradiction (Hnone t eq_refl). }
      rewrite (confirm_transaction_not_pending _ _ _ _ Hget Hst).
      now eexists.
    + rewrite (confirm_transaction_missing _ _ _ Hget). now eexists.
  - intros t Hget Hst. split.
    + intros Hrow.
      rewrite (confirm_transaction_pending _ _ _ _ Hget Hst).
      now rewrite (consume_stock_none _ _ _ _ Hrow).
    + intros s Hrow. split.
      * intros Hlt.
        rewrite (confirm_transaction_pending _ _ _ _ Hget Hst).
        rewrite (consume_stock_one _ _ _ _ _ Hrow).
        now rewrite (proj2 (dec_lt_true _ _) Hlt).
      * intros Hq _ _.
        rewrite (confirm_transaction_consumes _ _ _ _ Hget Hst _ Hrow Hq).
        cbn [Api.bad_request is_ValueError fst snd].
        split; [reflexivity |]. split.
        -- apply get_transaction_save with (t := t); [exact Hget |].
           exact (get_transaction_id _ _ _ Hget).
        -- unfold stock_row. rewrite select_stock_level_save.
           rewrite select_update by reflexivity.
           unfold stock_row in Hrow. now rewrite Hrow.
Qed.

Lemma http_error_writes_witness :
  (400 = 403 /\ shop CONFIRMED 4 = shop CONFIRMED 4)
  \/ (400 = 400
      /\ exists msg,
          Http.Str (ValueError (CannotConfirm CONFIRMED))
          = Http.Str (ValueError msg)
          /\ shop CONFIRMED 4 = shop CONFIRMED 4)
  \/ (400 = 400
      /\ Http.Str (ValueError (CannotConfirm CONFIRMED))
         = Http.Str ValidationError
      /\ exists t,
          TransactionService.get_transaction 1 (shop CONFIRMED 4) = Some t
          /\ SaleTransaction.status t = PENDING
          /\ TransactionService.get_transaction 1 (shop CONFIRMED 4)
             = Some (SaleTransaction.processed CONFIRMED 7 t)).
Proof.
  apply (proj1 (proj2 (http_error_writes sample_fromisoformat
                         sample_decode sample_digest))
           7 1 clerk one_role (shop CONFIRMED 4) 400
           (Http.Str (ValueError (CannotConfirm CONFIRMED)))).
  reflexivity.
Defined.

Lemma terminal_sale_replay_witness :
  exists terminals2,
    Api.create_terminal_sale_transaction sample_fromisoformat sample_decode
      sample_digest (midnight + 200000000) (midnight + 200000001) sale_request
      (sale_data "e2" 1 4)
      ([Terminal.mk 1 "Bar" "bar_1" (Some 1) true (Some (midnight + 2))
          "5ec2e7"],
       snd (TransactionService.create_sale_transaction (sale_data "e2" 1 4)
              None stocked_shelf))
    = (Http.Unhandled (Http.ServiceError ValidationError),
       (terminals2,
        snd (TransactionService.create_sale_transaction (sale_data "e2" 1 4)
               None stocked_shelf))).
Proof.
  refine (proj1 (terminal_sale_replay sample_fromisoformat sample_decode
                   sample_digest (midnight + 1) (midnight + 2)
                   (midnight + 200000000) (midnight + 200000001) sale_request
                   (sale_data "e2" 1 4) bar_terminals _ stocked_shelf _
                   "2024-01-01T00:00:00Z" midnight _ _ _ _ _)).
  - repeat constructor. intros [].
  - reflexivity.
  - reflexivity.
  - reflexivity.
  - vm_compute. discriminate.
Defined.

Lemma confirm_route_answers_witness :
  fst (Api.confirm_sale_transaction 7 1 clerk one_role (shop PENDING 4))
  = Http.HTTPException 400 (Http.Str ValidationError)
  /\ stock_row 1 1
       (snd (Api.confirm_sale_transaction 7 1 clerk one_role (shop PENDING 4)))
       (StockLevel.mk 1 1 1 (dec 10 - dec 4)%Qc
          (py_max 0%Qc (dec 0 - dec 4)%Qc) (dec 0) (dec 999999)).
Proof.
  destruct (proj2 (proj2 (confirm_route_answers 7 1 clerk one_role
                            (shop PENDING 4) eq_refl))
              (sale PENDING 4) eq_refl eq_refl) as [_ Hrow].
  destruct (proj2 (Hrow (StockLevel.mk 1 1 1 (dec 10) (dec 0) (dec 0)
                           (dec 999999)) eq_refl)
              ltac:(vm_compute; discriminate) eq_refl eq_refl)
    as [Hanswer [_ Hstock]].
  split; [exact Hanswer | exact Hstock].
Defined.
